(** * A shallow embedding of [data_helpers.py]

    The prostate-MRI pipeline of the repository: resampling to a target
    spacing, fiducial-centred cropping, the patch dataset builder, the
    cross-validation fold partitioner, the sample provider and the
    best-model bookkeeping of the training loop.  Python exceptions are
    results of an error monad, the random generators are an explicit
    stream of raw draws, and Python floats are rationals rounded to
    binary64 after every operation. *)

From Stdlib Require Import ZArith QArith Qround Qpower Lia Bool.
From stdpp Require Import gmap strings list fin_maps pretty sorting.

Local Open Scope Z_scope.

(** * Part I: the embedding *)

(** ** Exceptions *)

Module Py.

Inductive exn :=
| ValueError | IndexError | KeyError
| ZeroDivisionError | OverflowError | UnboundLocalError
| SystemExit | IOError | AttributeError
| AssertionError | TypeError.

Inductive result (A : Type) :=
| Ok (a : A)
| Raise (e : exn).
Arguments Ok {A} a.
Arguments Raise {A} e.

Definition bind {A B} (m : result A) (k : A → result B) : result B :=
  match m with
  | Ok a => k a
  | Raise e => Raise e
  end.

Definition of_option {A} (e : exn) (o : option A) : result A :=
  match o with
  | Some a => Ok a
  | None => Raise e
  end.

(** [for x in l: st = body(x, st)] with exceptions leaving the loop. *)
Fixpoint for_each {X S} (body : X → S → result S) (l : list X) (st : S)
  : result S :=
  match l with
  | [] => Ok st
  | x :: l' => bind (body x st) (for_each body l')
  end.

(** A list comprehension whose element expression may raise. *)
Fixpoint comprehension {X Y} (f : X → result Y) (l : list X)
  : result (list Y) :=
  match l with
  | [] => Ok []
  | x :: l' =>
      bind (f x) (λ y, bind (comprehension f l') (λ ys, Ok (y :: ys)))
  end.

(** [range(n)]: empty for [n <= 0]. *)
Definition range (n : Z) : list Z := Z.of_nat <$> seq 0 (Z.to_nat n).

(** [l[i]] with Python's wrap-around of negative indices. *)
Definition index {A} (l : list A) (i : Z) : result A :=
  let n := Z.of_nat (length l) in
  let j := if i <? 0 then i + n else i in
  if (j <? 0) || (n <=? j) then Raise IndexError
  else of_option IndexError (l !! Z.to_nat j).

(** [slice(start, stop).indices(n)] for the default step: negative
    bounds wrap once, then both are clamped into [[0, n]]. *)
Definition slice_bound (n b : Z) : Z :=
  let b' := if b <? 0 then b + n else b in
  Z.max 0 (Z.min n b').

Definition slice_indices (n start stop : Z) : Z * Z :=
  (slice_bound n start, slice_bound n stop).

End Py.

Import Py.

#[global] Instance result_ret : MRet Py.result := @Py.Ok.
#[global] Instance result_bind : MBind Py.result :=
  λ A B k m, Py.bind m k.

(** ** Python floats

    A float is a NaN, an infinity or a finite rational; every arithmetic
    result is rounded to the nearest binary64 value, ties to even.  The
    sign of zero is not kept: no operation of the pipeline reads it. *)

Module Float.

Inductive float :=
| NaN
| Inf (negative : bool)
| Fin (q : Q).

Definition two_pow (e : Z) : Q := Qpower 2 e.

(** floor(log2 x) for a positive rational. *)
Definition ilog2 (x : Q) : Z :=
  let e0 := Z.log2 (Qnum x) - Z.log2 (Zpos (Qden x)) in
  if Qle_bool (two_pow e0) x then e0 else e0 - 1.

(** Nearest integer, ties to even: [round()] and [np.round]. *)
Definition round_half_even (x : Q) : Z :=
  let f := Qfloor x in
  let r := (x - inject_Z f)%Q in
  match Qcompare r (1 # 2) with
  | Lt => f
  | Gt => f + 1
  | Eq => if Z.even f then f else f + 1
  end.

Section Format.
(** [prec] bits of significand, least exponent [emin] of a unit in the
    last place, greatest finite value [fmax]. *)
Variables (prec emin : Z) (fmax : Q).

Definition round_pos (a : Q) : Q :=
  let s := Z.max (ilog2 a - (prec - 1)) emin in
  (inject_Z (round_half_even (a / two_pow s)) * two_pow s)%Q.

Definition round_to_format (x : Q) : float :=
  match Qcompare x 0 with
  | Eq => Fin 0
  | Gt => let r := round_pos x in
          if Qle_bool r fmax then Fin (Qred r) else Inf false
  | Lt => let r := round_pos (- x) in
          if Qle_bool r fmax then Fin (Qred (- r)) else Inf true
  end.
End Format.

Definition binary64 : Q → float :=
  round_to_format 53 (-1074) (inject_Z (2 ^ 53 - 1) * two_pow 971).
Definition binary32 : Q → float :=
  round_to_format 24 (-149) (inject_Z (2 ^ 24 - 1) * two_pow 104).

Definition of_Z (n : Z) : float := binary64 (inject_Z n).

Definition is_neg (q : Q) : bool := negb (Qle_bool 0 q).
Definition is_zero (q : Q) : bool := Qeq_bool q 0.

Definition mul (x y : float) : float :=
  match x, y with
  | NaN, _ | _, NaN => NaN
  | Inf a, Inf b => Inf (xorb a b)
  | Inf a, Fin q | Fin q, Inf a =>
      if is_zero q then NaN else Inf (xorb a (is_neg q))
  | Fin p, Fin q => binary64 (p * q)
  end.

Definition add (x y : float) : float :=
  match x, y with
  | NaN, _ | _, NaN => NaN
  | Inf a, Inf b => if Bool.eqb a b then Inf a else NaN
  | Inf a, Fin _ | Fin _, Inf a => Inf a
  | Fin p, Fin q => binary64 (p + q)
  end.

Definition opp (x : float) : float :=
  match x with
  | NaN => NaN
  | Inf a => Inf (negb a)
  | Fin q => Fin (- q)
  end.

Definition sub (x y : float) : float := add x (opp y).

(** numpy's element-wise division: a zero divisor gives an infinity or a
    NaN, never an exception. *)
Definition np_div (x y : float) : float :=
  match x, y with
  | NaN, _ | _, NaN => NaN
  | Inf _, Inf _ => NaN
  | Inf a, Fin q => Inf (xorb a (is_neg q))
  | Fin _, Inf _ => Fin 0
  | Fin p, Fin q =>
      if is_zero q then
        if is_zero p then NaN else Inf (is_neg p)
      else binary64 (p / q)
  end.

(** Division of two Python floats: a zero divisor raises. *)
Definition py_div (x y : float) : result float :=
  match y with
  | Fin q => if is_zero q then Raise ZeroDivisionError else Ok (np_div x y)
  | _ => Ok (np_div x y)
  end.

(** [np.round] on a float. *)
Definition np_round (x : float) : float :=
  match x with
  | Fin q => Fin (inject_Z (round_half_even q))
  | _ => x
  end.

(** [int(x)]: truncation toward zero. *)
Definition truncate (q : Q) : Z :=
  if is_neg q then - Qfloor (- q) else Qfloor q.

Definition py_int (x : float) : result Z :=
  match x with
  | NaN => Raise ValueError
  | Inf _ => Raise OverflowError
  | Fin q => Ok (truncate q)
  end.

Definition isnan (x : float) : bool :=
  match x with NaN => true | _ => false end.

Definition isfinite (x : float) : bool :=
  match x with Fin _ => true | _ => false end.

(** [x == y] and [x > y]: false whenever a NaN is involved. *)
Definition feqb (x y : float) : bool :=
  match x, y with
  | Fin p, Fin q => Qeq_bool p q
  | Inf a, Inf b => Bool.eqb a b
  | _, _ => false
  end.

Definition gtb (x y : float) : bool :=
  match x, y with
  | NaN, _ | _, NaN => false
  | Inf a, Inf b => negb a && b
  | Inf a, Fin _ => negb a
  | Fin _, Inf b => b
  | Fin p, Fin q => negb (Qle_bool p q)
  end.

End Float.

Import Float.

(** ** The random generators

    [random] and [numpy.random] are read through one explicit stream of
    raw draws; a draw below [n] is the next raw value modulo [n].  An
    exhausted stream keeps answering 0. *)

Module Rng.

Definition rng := list N.

Definition randbelow (n : N) (g : rng) : N * rng :=
  match g with
  | [] => (0%N, [])
  | d :: g' => ((d mod n)%N, g')
  end.

(** The selection loop of [random.sample]: the chosen slot of the pool
    is overwritten by the pool's last live entry. *)
Fixpoint sample_pool (pool : list Z) (k : nat) (g : rng)
  : list Z * rng :=
  match k with
  | O => ([], g)
  | S k' =>
      let n := length pool in
      let '(j, g1) := randbelow (N.of_nat n) g in
      match pool !! N.to_nat j, pool !! (n - 1)%nat with
      | Some x, Some y =>
          let pool' := take (n - 1) (<[N.to_nat j := y]> pool) in
          let '(r, g2) := sample_pool pool' k' g1 in
          (x :: r, g2)
      | _, _ => ([], g1)
      end
  end.

(** [random.sample(population, k)] on a set, by the pool selection.  For
    a population above the pool threshold CPython selects by rejection
    instead; what comes out is again [k] distinct members. *)
Definition sample (population : gset Z) (k : Z) (g : rng)
  : result (list Z * rng) :=
  let pool := elements population in
  if (k <? 0) || (Z.of_nat (length pool) <? k) then Raise ValueError
  else Ok (sample_pool pool (Z.to_nat k) g).

(** [np.random.choice(l)]. *)
Definition choice {A} (l : list A) (g : rng) : result (A * rng) :=
  let '(j, g1) := randbelow (N.of_nat (length l)) g in
  match l !! N.to_nat j with
  | Some x => Ok (x, g1)
  | None => Raise ValueError
  end.

(** [np.random.randint(low, high)]: an integer of [[low, high)]. *)
Definition randint (low high : Z) (g : rng) : result (Z * rng) :=
  if high <=? low then Raise ValueError
  else
    let '(j, g1) := randbelow (Z.to_N (high - low)) g in
    Ok (low + Z.of_N j, g1).

(** One double of [[0, 1)]: 53 random bits scaled by 2^-53. *)
Definition random_double (g : rng) : float * rng :=
  let '(m, g1) := randbelow (2 ^ 53)%N g in
  (Fin (Qred (Qmake (Z.of_N m) (2 ^ 53)%positive)), g1).

Fixpoint random_doubles (n : nat) (g : rng) : list float * rng :=
  match n with
  | O => ([], g)
  | S n' =>
      let '(x, g1) := random_double g in
      let '(xs, g2) := random_doubles n' g1 in
      (x :: xs, g2)
  end.

(** The double the generator makes of the [i]-th number of its stream:
    the 53 low bits of the number scaled by 2^-53.  A stream that has run
    out reads as zeros. *)
Definition draw_at (g : rng) (i : nat) : float :=
  Fin (Qred (Qmake (Z.of_N (default 0%N (g !! i) mod 2 ^ 53)%N)
                   (2 ^ 53)%positive)).

End Rng.

Import Rng.

(** ** Volumes and arrays

    A SimpleITK image is its grid size, its physical geometry and its
    voxels, read by index [(i, j, k)]; a numpy array of three axes is its
    shape and its cells.  Spacing, origin and direction are doubles, kept
    as the rationals they denote. *)

Module Sitk.

Abbreviation triple A := (A * A * A)%type.

Record Image := {
  GetSize : triple Z;
  GetSpacing : triple Q;
  GetOrigin : triple Q;
  GetDirection : list Q;
  GetPixelIDValue : Z;
  GetPixel : Z → Z → Z → float
}.

Record ndarray := {
  shape : triple Z;
  at_ : Z → Z → Z → float
}.

(** All index triples below [(n0, n1, n2)], the last axis fastest. *)
Definition cells (n : triple Z) : list (triple Z) :=
  let '(n0, n1, n2) := n in
  a ← range n0; b ← range n1; c ← range n2; [(a, b, c)].

(** [sitk.GetArrayFromImage]: the axes come out reversed. *)
Definition GetArrayFromImage (im : Image) : ndarray :=
  let '(ni, nj, nk) := GetSize im in
  {| shape := (nk, nj, ni); at_ := λ c b a, GetPixel im a b c |}.

Definition sitkFloat64 : Z := 9.

Definition identity_direction : list Q := [1; 0; 0; 0; 1; 0; 0; 0; 1]%Q.

(** [sitk.GetImageFromArray]: unit spacing, zero origin. *)
Definition GetImageFromArray (arr : ndarray) : Image :=
  let '(n0, n1, n2) := shape arr in
  {| GetSize := (n2, n1, n0);
     GetSpacing := (1, 1, 1)%Q;
     GetOrigin := (0, 0, 0)%Q;
     GetDirection := identity_direction;
     GetPixelIDValue := sitkFloat64;
     GetPixel := λ i j k, at_ arr k j i |}.

(** [arr.flatten()] and [np.sum] of it.  The additions are taken left to
    right; numpy's pairwise grouping differs in rounding only. *)
Definition flatten (arr : ndarray) : list float :=
  (λ '(a, b, c), at_ arr a b c) <$> cells (shape arr).

Definition np_sum (xs : list float) : float :=
  foldl add (Fin 0) xs.

(** [np.random.rand(d0, d1, d2)]. *)
Definition np_random_rand (d : triple Z) (g : rng) : result (ndarray * rng) :=
  let '(d0, d1, d2) := d in
  if (d0 <? 0) || (d1 <? 0) || (d2 <? 0) then Raise ValueError
  else
    let '(xs, g1) := random_doubles (Z.to_nat (d0 * d1 * d2)) g in
    Ok ({| shape := d;
           at_ := λ a b c,
             default (Fin 0) (xs !! Z.to_nat ((a * d1 + b) * d2 + c)) |},
        g1).

(** The physical position of a grid index: origin plus direction times
    the index scaled by the spacing. *)
Definition index_to_physical (im : Image) (idx : triple Z) : triple Q :=
  let '(i, j, k) := idx in
  let '(si, sj, sk) := GetSpacing im in
  let '(o0, o1, o2) := GetOrigin im in
  let d := λ n, default 0%Q (GetDirection im !! n) in
  let v0 := (si * inject_Z i)%Q in
  let v1 := (sj * inject_Z j)%Q in
  let v2 := (sk * inject_Z k)%Q in
  ((o0 + (d 0%nat * v0 + d 1%nat * v1 + d 2%nat * v2))%Q,
   (o1 + (d 3%nat * v0 + d 4%nat * v1 + d 5%nat * v2))%Q,
   (o2 + (d 6%nat * v0 + d 7%nat * v1 + d 8%nat * v2))%Q).

(** [image[a0:a1, b0:b1, c0:c1]]: each bound pair goes through
    [slice.indices] of the axis, and the region between the resulting
    bounds is extracted. *)
Definition slice3 (im : Image) (wi wj wk : Z * Z) : Image :=
  let '(ni, nj, nk) := GetSize im in
  let '(i0, i1) := slice_indices ni wi.1 wi.2 in
  let '(j0, j1) := slice_indices nj wj.1 wj.2 in
  let '(k0, k1) := slice_indices nk wk.1 wk.2 in
  {| GetSize := (Z.max 0 (i1 - i0), Z.max 0 (j1 - j0), Z.max 0 (k1 - k0));
     GetSpacing := GetSpacing im;
     GetOrigin := index_to_physical im (i0, j0, k0);
     GetDirection := GetDirection im;
     GetPixelIDValue := GetPixelIDValue im;
     GetPixel := λ a b c, GetPixel im (i0 + a) (j0 + b) (k0 + c) |}.

Inductive interpolator :=
| sitkNearestNeighbor
| sitkLinear
| sitkBSpline
| sitkCosineWindowedSinc.

Inductive transform := IdentityTransform.

(** The settings of a [sitk.ResampleImageFilter]. *)
Record ResampleImageFilter := {
  OutputSpacing : triple Q;
  Size : triple Z;
  OutputDirection : list Q;
  OutputOrigin : triple Q;
  Transform : transform;
  DefaultPixelValue : Z;
  Interpolator : interpolator
}.

(** Every voxel of the grid is a zero. *)
Definition all_zero (im : Image) : Prop :=
  ∀ i j k,
    0 ≤ i < (GetSize im).1.1 → 0 ≤ j < (GetSize im).1.2 →
    0 ≤ k < (GetSize im).2 →
    ∃ q, GetPixel im i j k = Fin q ∧ (q == 0)%Q.

End Sitk.

Import Sitk.

(** ** 4.1 Resampler *)

Module Resampler.

Section Resample.
(** The library's resampling kernel: the value of the output voxel at an
    index, for given filter settings and input. *)
Variable interpolate : ResampleImageFilter → Image → Z → Z → Z → float.

(** [resample.Execute(image)]: the output grid is the one configured on
    the filter. *)
Definition Execute (flt : ResampleImageFilter) (im : Image) : Image :=
  {| GetSize := Size flt;
     GetSpacing := OutputSpacing flt;
     GetOrigin := OutputOrigin flt;
     GetDirection := OutputDirection flt;
     GetPixelIDValue := GetPixelIDValue im;
     GetPixel := interpolate flt im |}.

(** [int(np.round(size * (spacing / out_spacing)))] for one axis. *)
Definition out_size_axis (size : Z) (spacing out_spacing : Q) : result Z :=
  ratio ← py_div (Fin spacing) (Fin out_spacing);
  py_int (np_round (mul (of_Z size) ratio)).

(** [resample_image(itk_image, out_spacing, is_label)]: the filter is
    configured from the input and run on it. *)
Definition resample_image (itk_image : Image) (out_spacing : triple Q)
    (is_label : bool) : result Image :=
  let '(sp0, sp1, sp2) := GetSpacing itk_image in
  let '(n0, n1, n2) := GetSize itk_image in
  let '(o0, o1, o2) := out_spacing in
  s0 ← out_size_axis n0 sp0 o0;
  s1 ← out_size_axis n1 sp1 o1;
  s2 ← out_size_axis n2 sp2 o2;
  let resample :=
    {| OutputSpacing := out_spacing;
       Size := (s0, s1, s2);
       OutputDirection := GetDirection itk_image;
       OutputOrigin := GetOrigin itk_image;
       Transform := IdentityTransform;
       DefaultPixelValue := GetPixelIDValue itk_image;
       Interpolator :=
         if is_label then sitkNearestNeighbor else sitkCosineWindowedSinc |}
  in
  Ok (Execute resample itk_image).

(** A modality is a list whose entries are images or the empty string
    [""], here [None]. *)
Definition resample_all_images (modality : list (option Image))
    (out_spacing : triple Q) (some_missing : bool)
  : result (list (option Image)) :=
  if some_missing then
    comprehension
      (λ mod_image,
         match mod_image with
         | Some im => r ← resample_image im out_spacing false; Ok (Some r)
         | None => Ok None
         end)
      modality
  else
    comprehension
      (λ mod_image,
         match mod_image with
         | Some im => r ← resample_image im out_spacing false; Ok (Some r)
         | None => Ok None
         end)
      modality.


(** The per-entry rule of C10: an empty entry goes through, an image
    is resampled with [is_label = False]. *)
Definition resampled_entry (out_spacing : triple Q)
    (e r : option Image) : Prop :=
  match e with
  | None => r = None
  | Some im => ∃ im', resample_image im out_spacing false = Ok im' ∧ r = Some im'
  end.

End Resample.

End Resampler.

(** ** 4.2 Geometric cropper *)

Module Cropper.

(** [int(np.ceil(w / 2))].  The quotient of an int by 2 is exact in a
    double below 2^53, so the integer ceiling stands for it. *)
Definition ceil_half (w : Z) : Z := (w + 1) / 2.

(** The bounds [lo : hi] of the source's slice along one axis. *)
Definition window (center offset extent : Z) : Z * Z :=
  ((center - offset) - extent / 2, (center - offset) + ceil_half extent).

(** [enumerate(l)] *)
Definition enumerate {A} (l : list A) : list (Z * A) :=
  imap (λ n x, (Z.of_nat n, x)) l.

(** One slice per image, about the centre the list of coordinates holds
    at the position of the image. *)
Definition crop_from_center (images : list Image)
    (ijk_coordinates : list (triple Z)) (width height depth : Z)
    (i_offset j_offset : Z) : result (list Image) :=
  comprehension
    (λ '(idx, image),
       '(ci, cj, ck) ← Py.index ijk_coordinates idx;
       Ok (slice3 image
             (window ci i_offset width)
             (window cj j_offset height)
             (window ck 0 depth)))
    (enumerate images).

Section Rotation.
(** [image_augmentation.rotation3d(image, degree, centre)]: the image
    rotated by [degree] degrees about a physical point.  It is imported,
    not defined, by the module. *)
Variable rotation3d : Image → Z → list float → Image.

(** [rotated_crop] with [show_result] at its default: the plots of the
    other branch show the result and do not change it. *)
Definition rotated_crop (patient_images : list Image)
    (crop_width crop_height crop_depth : Z) (degrees : list Z)
    (lps : list float) (ijk_values : list (triple Z)) (g : rng)
  : result (list Image * rng) :=
  '(degree, g1) ← choice degrees g;
  let rotated_patient_images :=
    (λ patient, rotation3d patient degree lps) <$> patient_images in
  '(i_offset, g2) ← randint (-7) 7 g1;
  '(j_offset, g3) ← randint (-7) 7 g2;
  crop ← crop_from_center rotated_patient_images ijk_values
           crop_width crop_height crop_depth i_offset j_offset;
  Ok (crop, g3).

End Rotation.

(** A window [[lo, hi)] lies inside an axis of [n] cells. *)
Definition in_bounds (n : Z) (w : Z * Z) : Prop :=
  0 ≤ w.1 ∧ w.1 ≤ w.2 ∧ w.2 ≤ n.

End Cropper.

(** ** 4.3 Patch dataset builder *)

Module Builder.
Import Cropper.

(** A row of the findings dataframe.  [ClinSig] is a column of the
    training table only. *)
Record finding := {
  patient_id : string;
  ClinSig : option Z;
  pos : string
}.

(** A crop is the list of the three modality patches; a dictionary entry
    is the crop alone (test) or the pair of crop and marker (train). *)
Definition entry : Type := list Image * option Z.

Record state := {
  crops : gmap string (list entry);
  invalid_keys : gset string;
  gen : rng
}.

(** [s[-4:]] *)
Definition last_four (s : string) : string :=
  let n := String.length s in
  String.substring (n - 4) 4 s.

(** [s.split(sep)] for a one-character separator. *)
Fixpoint split_on (sep : Ascii.ascii) (s : string) : list string :=
  match s with
  | EmptyString => [EmptyString]
  | String c s' =>
      if decide (c = sep) then EmptyString :: split_on sep s'
      else
        match split_on sep s' with
        | h :: t => String c h :: t
        | [] => [String c EmptyString]
        end
  end.

(** ["{}_{}".format(patient_id, cancer_marker)] *)
Definition train_key (patient_id : string) (cancer_marker : Z) : string :=
  patient_id +:+ "_" +:+ pretty cancer_marker.

(** [np.sum(sitk.GetArrayFromImage(im).flatten()) == 0] *)
Definition zero_sum (im : Image) : bool :=
  feqb (np_sum (flatten (GetArrayFromImage im))) (Fin 0).

(** [[sitk.GetImageFromArray(np.random.rand(depth, height, width))
      for _ in range(3)]] *)
Definition noise_crop (width height depth : Z) (g : rng)
  : result (list Image * rng) :=
  '(a0, g1) ← np_random_rand (depth, height, width) g;
  '(a1, g2) ← np_random_rand (depth, height, width) g1;
  '(a2, g3) ← np_random_rand (depth, height, width) g2;
  Ok ([GetImageFromArray a0; GetImageFromArray a1; GetImageFromArray a2], g3).

(** [crops[key].append(e)] when the key is present, [crops[key] = [e]]
    otherwise. *)
Definition add_crop (key : string) (e : entry)
    (crops : gmap string (list entry)) : gmap string (list entry) :=
  match crops !! key with
  | Some l => <[key := l ++ [e]]> crops
  | None => <[key := [e]]> crops
  end.

Definition degrees : list Z :=
  ((λ degree, - degree) <$> [5; 10; 15; 20; 25]) ++ [5; 10; 15; 20; 25].

Section Library.
(** What the builder takes from Python and SimpleITK: [int] and [float]
    on a string, the padding filter, the physical-to-index transform of
    an image, and the imported rotation. *)
Variable py_int_of_str : string → result Z.
Variable py_float_of_str : string → result float.
Variable padding_Execute : Image → Image.
Variable TransformPhysicalPointToIndex : Image → list float → result (triple Z).
Variable rotation3d : Image → Z → list float → Image.

(** The crop of one round: the centred one first, rotated ones after. *)
Definition make_crop (patient_images : list Image) (lps : list float)
    (ijk_vals : list (triple Z)) (crop_width crop_height crop_depth : Z)
    (crop_num : Z) (g : rng) : result (list Image * rng) :=
  if crop_num =? 0 then
    crop ← crop_from_center patient_images ijk_vals
             crop_width crop_height crop_depth 0 0;
    Ok (crop, g)
  else
    rotated_crop rotation3d patient_images crop_width crop_height crop_depth
      degrees lps ijk_vals g.

(** The body of [for crop_num in range(num_crops_per_image)]. *)
Definition crop_round (train : bool) (patient_id : string)
    (cancer_marker : option Z) (patient_images : list Image)
    (lps : list float) (ijk_vals : list (triple Z))
    (crop_width crop_height crop_depth : Z)
    (crop_num : Z) (st : state) : result state :=
  '(crop, g1) ← make_crop patient_images lps ijk_vals
                  crop_width crop_height crop_depth crop_num (gen st);
  let invalid_sizes :=
    GetSize <$>
      filter (λ im, GetSize im ≠ (crop_width, crop_height, crop_depth)) crop in
  if train then
    marker ← Py.of_option UnboundLocalError cancer_marker;
    let key := train_key patient_id marker in
    if bool_decide (invalid_sizes ≠ []) then
      Ok {| crops := crops st;
            invalid_keys := {[key]} ∪ invalid_keys st;
            gen := g1 |}
    else
      first ← Py.index crop 0;
      Ok {| crops := add_crop key (crop, Some marker) (crops st);
            invalid_keys :=
              if zero_sum first then {[key]} ∪ invalid_keys st
              else invalid_keys st;
            gen := g1 |}
  else
    third ← Py.index crop 2;
    first ← Py.index crop 0;
    '(crop', g2) ← (if zero_sum first
                    then noise_crop crop_width crop_height crop_depth g1
                    else Ok (crop, g1));
    Ok {| crops := add_crop patient_id (crop', None) (crops st);
          invalid_keys := invalid_keys st;
          gen := g2 |}.

(** The three modality volumes of a finding, by the number in the last
    four characters of its patient id. *)
Definition modality_volumes (resampled_images : triple (list (option Image)))
    (patient : finding) : result (list (option Image)) :=
  let '(t2_resampled, adc_resampled, bval_resampled) := resampled_images in
  n0 ← py_int_of_str (last_four (patient_id patient));
  t2 ← Py.index t2_resampled n0;
  n1 ← py_int_of_str (last_four (patient_id patient));
  adc ← Py.index adc_resampled n1;
  n2 ← py_int_of_str (last_four (patient_id patient));
  bval ← Py.index bval_resampled n2;
  Ok [t2; adc; bval].

(** [[float(loc) for loc in patient["pos"].split(' ') if loc != '']] *)
Definition parse_lps (p : string) : result (list float) :=
  comprehension py_float_of_str
    (filter (λ loc, loc ≠ EmptyString) (split_on (Ascii.Ascii false false false false false true false false) p)).

(** [e == ''] for an entry of a modality list. *)
Definition is_blank (e : option Image) : bool :=
  match e with
  | None => true
  | Some _ => false
  end.

(** The marker read in train mode; nothing is read in test mode. *)
Definition read_marker (train : bool) (patient : finding)
  : result (option Z) :=
  if train then m ← Py.of_option KeyError (ClinSig patient); Ok (Some m)
  else Ok None.

(** What a round of [for _, patient in findings_dataframe.iterrows()]
    computes before its crops: [None] when a modality is blank and the
    finding is skipped, else the marker, the padded volumes, the physical
    point and the voxel centre in each volume. *)
Definition finding_inputs (train : bool)
    (resampled_images : triple (list (option Image))) (patient : finding)
  : result (option (option Z * list Image * list float * list (triple Z))) :=
  patient_images ← modality_volumes resampled_images patient;
  cancer_marker ← read_marker train patient;
  if existsb is_blank patient_images then Ok None
  else
    let patient_images :=
      padding_Execute <$> omap id patient_images in
    lps ← parse_lps (pos patient);
    ijk_vals ← comprehension
                 (λ idx, im ← Py.index patient_images idx;
                         TransformPhysicalPointToIndex im lps)
                 (range 3);
    Ok (Some (cancer_marker, patient_images, lps, ijk_vals)).

(** The body of [for _, patient in findings_dataframe.iterrows()]. *)
Definition finding_round (train : bool)
    (resampled_images : triple (list (option Image)))
    (crop_width crop_height crop_depth num_crops_per_image : Z)
    (patient : finding) (st : state) : result state :=
  inputs ← finding_inputs train resampled_images patient;
  match inputs with
  | None => Ok st
  | Some (cancer_marker, patient_images, lps, ijk_vals) =>
      for_each
        (crop_round train (patient_id patient) cancer_marker patient_images
           lps ijk_vals crop_width crop_height crop_depth)
        (range num_crops_per_image) st
  end.

(** [for key in invalid_keys: crops.pop(key)] *)
Definition pop_key (key : string) (crops : gmap string (list entry))
  : result (gmap string (list entry)) :=
  match crops !! key with
  | Some _ => Ok (delete key crops)
  | None => Raise KeyError
  end.

(** The loop over the rows of the table. *)
Definition findings_loop (train : bool)
    (resampled_images : triple (list (option Image)))
    (crop_width crop_height crop_depth num_crops_per_image : Z)
    (findings_dataframe : list finding) (st : state) : result state :=
  for_each
    (finding_round train resampled_images
       crop_width crop_height crop_depth num_crops_per_image)
    findings_dataframe st.

(** [image_cropper]: the guard on the number of crops, the loop, and the
    removal of the invalid keys.  The generator is handed back with the
    dictionary. *)
Definition image_cropper (findings_dataframe : list finding)
    (resampled_images : triple (list (option Image)))
    (crop_width crop_height crop_depth num_crops_per_image : Z)
    (train : bool) (g : rng)
  : result (gmap string (list entry) * rng) :=
  if num_crops_per_image <? 1 then Raise SystemExit
  else
    st ← findings_loop train resampled_images
           crop_width crop_height crop_depth num_crops_per_image
           findings_dataframe
           {| crops := ∅; invalid_keys := ∅; gen := g |};
    crops' ← for_each pop_key (elements (invalid_keys st)) (crops st);
    Ok (crops', gen st).

(** *** What the claims on a run speak of *)

(** A crop the train-mode validation rejects: a patch of another size
    than the configured one, or an all-zero first patch. *)
Definition bad_crop (crop_width crop_height crop_depth : Z)
    (crop : list Image) : Prop :=
  (∃ im, im ∈ crop ∧ GetSize im ≠ (crop_width, crop_height, crop_depth))
  ∨ (∃ first, crop !! 0%nat = Some first ∧ all_zero first).

(** The entries under a key, none when the key is absent. *)
Definition entries (c : gmap string (list entry)) (key : string)
  : list entry :=
  default [] (c !! key).

(** A finding of the test table that gets crops. *)
Definition processed (resampled : triple (list (option Image)))
    (patient : finding) : bool :=
  match finding_inputs false resampled patient with
  | Ok (Some _) => true
  | _ => false
  end.

(** The findings of a table that get crops and carry a given id. *)
Definition findings_of (resampled : triple (list (option Image)))
    (df : list finding) (pid : string) : list finding :=
  filter (λ f, patient_id f = pid ∧ processed resampled f = true) df.

(** A patch of uniform noise of the configured size. *)
Definition noise_patch (w h d : Z) (im : Image) : Prop :=
  GetSize im = (w, h, d)
  ∧ ∀ i j k, ∃ q, GetPixel im i j k = Fin q ∧ (0 <= q)%Q ∧ (q < 1)%Q.

(** The place in the stream of the voxel [(i, j, k)] of the patch [m] of
    a noise crop: the three arrays are drawn one after the other, each in
    array order, the depth axis slowest and the width axis fastest. *)
Definition noise_position (w h d : Z) (m : nat) (i j k : Z) : nat :=
  (m * Z.to_nat (d * h * w) + Z.to_nat ((k * h + j) * w + i))%nat.

(** What a stretch of a test-mode run leaves in the state: no invalid
    key, and under each id the old entries followed by unlabelled new
    ones. *)
Definition extends_by (count : string → nat) (st st' : state) : Prop :=
  invalid_keys st' = invalid_keys st
  ∧ ∀ pid, ∃ es,
      entries (crops st') pid = entries (crops st) pid ++ es
      ∧ length es = count pid
      ∧ Forall (λ e : entry, e.2 = None) es.

End Library.

End Builder.

(** ** 4.4 Fold partitioner *)

Module Partitioner.
Import Builder.

(** [[(key, patient_image) for key in cropped_images.keys()
      for patient_image in cropped_images[key]]]: the dictionary is read
    in key order, as the list of its items. *)
Definition flatten_patients (cropped_images : list (string * list entry))
  : list (string * entry) :=
  '(key, patient_images) ← cropped_images;
  patient_image ← patient_images;
  [(key, patient_image)].

Definition destination : string :=
  "/home/andrewg/PycharmProjects/assignments/resampled_cropped/train/".

(** [destination.format(modality, p_id, cancer_marker)] *)
Definition patch_path (modality : string) (p_id cancer_marker : Z) : string :=
  destination +:+ modality +:+ "/" +:+ pretty p_id +:+ "_"
    +:+ pretty cancer_marker +:+ ".nrrd".

(** The three [sitk.WriteImage] calls for the patch numbered [p_id]. *)
Definition write_patch (p_id : Z) (item : string * entry)
  : result (list (string * Image)) :=
  let '(_, (patient_image, cancer_marker)) := item in
  cancer_marker ← Py.of_option ValueError cancer_marker;
  t2 ← Py.index patient_image 0;
  adc ← Py.index patient_image 1;
  bval ← Py.index patient_image 2;
  Ok [(patch_path "t2" p_id cancer_marker, t2);
      (patch_path "adc" p_id cancer_marker, adc);
      (patch_path "bval" p_id cancer_marker, bval)].

(** [key[-1]] *)
Fixpoint last_char (s : string) : result Ascii.ascii :=
  match s with
  | EmptyString => Raise IndexError
  | String c EmptyString => Ok c
  | String _ s' => last_char s'
  end.

(** [patient_images[idx * num_crops][0][-1]] *)
Definition label_of (patient_images : list (string * entry))
    (num_crops idx : Z) : result Ascii.ascii :=
  item ← Py.index patient_images (idx * num_crops);
  last_char item.1.

Definition zero_char : Ascii.ascii :=
  Ascii.Ascii false false false false true true false false.
Definition one_char : Ascii.ascii :=
  Ascii.Ascii true false false false true true false false.

(** [{idx for idx in indices if patient_images[idx * num_crops][0][-1] == label}] *)
Definition select_label (label : Ascii.ascii)
    (patient_images : list (string * entry)) (num_crops : Z)
    (indices : gset Z) : result (gset Z) :=
  kept ← comprehension
           (λ idx, c ← label_of patient_images num_crops idx;
                   Ok (idx, bool_decide (c = label)))
           (elements indices);
  Ok (list_to_set (fst <$> filter (λ p, p.2 = true) kept)).

(** The block of [num_crops] patch indices of each patient of a set. *)
Definition expand (patients : gset Z) (num_crops : Z) : gset Z :=
  list_to_set
    (key ← elements patients;
     pos ← range num_crops;
     [key * num_crops + pos]).

(** The dense re-keying: [mapping[key] = index; key += 1] over the set. *)
Definition rekey (indices : gset Z) : gmap Z Z :=
  (foldl (λ '(mapping, key) image_index,
            (<[key := image_index]> mapping, key + 1))
         (∅, 0) (elements indices)).1.

(** One round of [for k in range(num_folds)]. *)
Definition fold_round (patient_images : list (string * entry))
    (num_crops : Z) (patient_indices non_cancer_patients cancer_patients : gset Z)
    (num_each_class_fold : Z) (g : rng)
  : result (gmap Z Z * gmap Z Z * rng) :=
  '(non_cancer_in_fold, g1) ← sample non_cancer_patients num_each_class_fold g;
  '(cancer_in_fold, g2) ← sample cancer_patients num_each_class_fold g1;
  let fold_set : gset Z :=
    list_to_set non_cancer_in_fold ∪ list_to_set cancer_in_fold in
  let out_of_fold := patient_indices ∖ fold_set in
  cancer_out_of_fold ← select_label one_char patient_images num_crops out_of_fold;
  '(non_cancer_out_of_fold, g3) ←
      sample (out_of_fold ∖ cancer_out_of_fold)
        (Z.of_nat (size cancer_out_of_fold)) g2;
  let out_of_fold_set : gset Z :=
    cancer_out_of_fold ∪ list_to_set non_cancer_out_of_fold in
  let fold_image_indices := expand fold_set num_crops in
  let out_of_fold_image_indices := expand out_of_fold_set num_crops in
  Ok (rekey fold_image_indices, rekey out_of_fold_image_indices, g3).

Record partition := {
  files : list (string * Image);
  fold_key_mappings : list (gmap Z Z);
  train_key_mappings : list (gmap Z Z)
}.

(** The patient-level sets read off the patch list. *)
Definition patient_indices_of (patient_images : list (string * entry))
    (num_crops : Z) : gset Z :=
  list_to_set (range (Z.of_nat (length patient_images) / num_crops)).

(** [int(fold_fraction * len(cancer_patients))] *)
Definition num_each_class (fold_fraction : float) (cancer_patients : gset Z)
  : result Z :=
  py_int (mul fold_fraction (of_Z (Z.of_nat (size cancer_patients)))).

(** The directory reset at the head of the function acts on what the
    disk held before the call and is left out; the files written and the
    two lists of mappings are the result. *)
Definition write_cropped_images_train_and_folds
    (cropped_images : list (string * list entry))
    (num_crops num_folds : Z) (fold_fraction : float) (g : rng)
  : result (partition * rng) :=
  let patient_images := flatten_patients cropped_images in
  written ← comprehension
              (λ '(p_id, item), write_patch p_id item)
              (Cropper.enumerate patient_images);
  if num_crops =? 0 then Raise ZeroDivisionError
  else
    let patient_indices := patient_indices_of patient_images num_crops in
    non_cancer_patients ←
      select_label zero_char patient_images num_crops patient_indices;
    cancer_patients ←
      select_label one_char patient_images num_crops patient_indices;
    num_each_class_fold ← num_each_class fold_fraction cancer_patients;
    '(folds, trains, g') ←
      for_each
        (λ _ '(folds, trains, g),
           '(fold_key_mapping, train_key_mapping, g1) ←
              fold_round patient_images num_crops patient_indices
                non_cancer_patients cancer_patients num_each_class_fold g;
           Ok (folds ++ [fold_key_mapping], trains ++ [train_key_mapping], g1))
        (range num_folds) ([], [], g);
    Ok ({| files := concat written;
           fold_key_mappings := folds;
           train_key_mappings := trains |}, g').

(** *** What a fold is made of *)

(** [i] is a patch index of the block of some patient of the set. *)
Definition block_index (patients : gset Z) (num_crops i : Z) : Prop :=
  ∃ p pos, p ∈ patients ∧ 0 ≤ pos < num_crops ∧ i = p * num_crops + pos.

(** The values of a mapping are exactly the indices of [P]. *)
Definition maps_onto (m : gmap Z Z) (P : Z → Prop) : Prop :=
  ∀ i, (∃ key, m !! key = Some i) ↔ P i.

(** A fold with [per_class] validation patients of each class: the
    validation patients [Vn] and [Vc], and a training set of every other
    cancer patient with as many patients [S] that are neither cancer nor
    in validation, each patient standing for its block of patches. *)
Definition balanced_fold (per_class : Z) (patients N C : gset Z)
    (num_crops : Z) (fold_mapping train_mapping : gmap Z Z) : Prop :=
  ∃ Vn Vc S : gset Z,
    Vn ⊆ N ∧ Z.of_nat (size Vn) = per_class
    ∧ Vc ⊆ C ∧ Z.of_nat (size Vc) = per_class
    ∧ S ⊆ (patients ∖ C) ∖ Vn ∧ size S = size (C ∖ Vc)
    ∧ maps_onto fold_mapping (block_index (Vn ∪ Vc) num_crops)
    ∧ maps_onto train_mapping (block_index ((C ∖ Vc) ∪ S) num_crops).


End Partitioner.

(** ** 4.5 Sample provider *)

Module Provider.

Record ProstateImages := {
  modality : string;
  train : bool;
  device : string;
  normalize_strategy : Z;
  (** set by the constructor for strategy 2 only *)
  mean_tensor : option ndarray;
  std_tensor : option ndarray;
  mapping : list (gmap Z Z);
  map_num : Z;
  first_index : Z;
  length_ : Z
}.

(** The dictionary a read returns: the tensor, the label in train mode,
    the resolved patch index. *)
Record sample := {
  s_image : ndarray;
  s_cancer : option Z;
  s_index : Z
}.

Definition train_root : string :=
  "/home/andrewg/PycharmProjects/assignments/resampled_cropped/train".
Definition test_root : string :=
  "/home/andrewg/PycharmProjects/assignments/resampled_cropped/test".

(** ["{}/{}".format(root, "{}/{}_{}.nrrd".format(modality, index, "{}"))
      .format(label)] *)
Definition train_path (modality : string) (index label : Z) : string :=
  train_root +:+ "/" +:+ modality +:+ "/" +:+ pretty index +:+ "_"
    +:+ pretty label +:+ ".nrrd".

Definition test_path (modality : string) (index : Z) : string :=
  test_root +:+ "/" +:+ modality +:+ "/" +:+ pretty index +:+ ".nrrd".

Definition dot : Ascii.ascii :=
  Ascii.Ascii false true true true false true false false.

(** [int(c)] for one character. *)
Definition digit_value (c : Ascii.ascii) : result Z :=
  let n := Z.of_N (Ascii.N_of_ascii c) in
  if (48 <=? n) && (n <=? 57) then Ok (n - 48) else Raise ValueError.

(** [int(final_path.split('.')[0][-1])] *)
Definition label_of_path (final_path : string) : result Z :=
  stem ← Py.index (Builder.split_on dot final_path) 0;
  c ← Partitioner.last_char stem;
  digit_value c.

(** [a - b] and [a / b] on arrays of one shape.  Arrays of unlike shapes
    raise; numpy's broadcasting of unit axes is not modelled. *)
Definition zip_arrays (op : float → float → float) (a b : ndarray)
  : result ndarray :=
  if bool_decide (shape a = shape b) then
    Ok {| shape := shape a;
          at_ := λ i j k, op (at_ a i j k) (at_ b i j k) |}
  else Raise ValueError.

(** [arr[0, 0, 0]] *)
Definition first_cell (arr : ndarray) : result float :=
  let '(n0, n1, n2) := shape arr in
  if (0 <? n0) && (0 <? n1) && (0 <? n2) then Ok (at_ arr 0 0 0)
  else Raise IndexError.

(** [.float()]: every cell rounded to single precision. *)
Definition to_float32 (x : float) : float :=
  match x with
  | Fin q => binary32 q
  | _ => x
  end.

(** [torch.from_numpy(arr).float().to(device)] *)
Definition to_tensor (arr : ndarray) : ndarray :=
  {| shape := shape arr; at_ := λ i j k, to_float32 (at_ arr i j k) |}.

Section Disk.
(** The patch store, [sitk.ReadImage], and the library's
    [NormalizeImageFilter]. *)
Variable ReadImage : string → result Image.
Variable NormalizeImageFilter_Execute : Image → Image.

(** The read up to the normalisation: the normalised array, the label
    and the resolved index. *)
Definition normalized_image (self : ProstateImages) (index : Z)
  : result (ndarray * option Z * Z) :=
  '(image, label, index) ←
    (if train self then
       m ← Py.index (mapping self) (map_num self);
       index ← Py.of_option KeyError (m !! (index + first_index self));
       match ReadImage (train_path (modality self) index 0) with
       | Ok image =>
           cancer_label ← label_of_path (train_path (modality self) index 0);
           Ok (image, Some cancer_label, index)
       | Raise _ =>
           image ← ReadImage (train_path (modality self) index 1);
           cancer_label ← label_of_path (train_path (modality self) index 1);
           Ok (image, Some cancer_label, index)
       end
     else
       let index := first_index self + index in
       image ← ReadImage (test_path (modality self) index);
       Ok (image, None, index));
  let image :=
    if normalize_strategy self =? 1 then NormalizeImageFilter_Execute image
    else image in
  let arr := GetArrayFromImage image in
  arr ← (if normalize_strategy self =? 2 then
           mean ← Py.of_option AttributeError (mean_tensor self);
           std ← Py.of_option AttributeError (std_tensor self);
           centred ← zip_arrays sub arr mean;
           zip_arrays np_div centred std
         else Ok arr);
  Ok (arr, label, index).

Definition __getitem__ (self : ProstateImages) (index : Z) (g : rng)
  : result (sample * rng) :=
  '(arr, label, index) ← normalized_image self index;
  x ← first_cell arr;
  '(arr, g') ← (if isnan x then np_random_rand (3, 32, 32) g
                else Ok (arr, g));
  Ok ({| s_image := to_tensor arr; s_cancer := label; s_index := index |}, g').

(** The check the spec words: some cell of the array is not finite. *)
Definition has_non_finite (arr : ndarray) : bool :=
  existsb (λ x, negb (isfinite x)) (flatten arr).

End Disk.

End Provider.

(** ** 4.5 Sample provider: the fold in use *)

Module Dataset.
Import Provider.

(** [sorted(d)] on a dictionary: its keys in ascending order. *)
Definition sorted_keys (d : gmap Z Z) : list Z :=
  merge_sort Z.le (elements (dom d)).

(** [sorted(l)] on a list of strings: by code point, character by
    character. *)
Definition string_le (a b : string) : Prop := String.leb a b = true.

#[global] Instance string_le_dec : RelDecision string_le :=
  λ a b, decide (String.leb a b = true).

Definition sorted_strings (l : list string) : list string :=
  merge_sort string_le l.

(** The two tensor files of a modality, read under strategy 2. *)
Definition tensor_paths (modality : string) : string * string :=
  let stem :=
    if String.eqb modality "adc" then "adc"
    else if String.eqb modality "bval" then "bval"
    else "t2" in
  (train_root +:+ "/" +:+ stem +:+ "_mean_tensor.npy",
   train_root +:+ "/" +:+ stem +:+ "_std_tensor.npy").

Section Constructor.
(** [np.load], [os.listdir], and [int] on a string. *)
Variable np_load : string → result ndarray.
Variable os_listdir : string → result (list string).
Variable py_int_of_str : string → result Z.

(** [ProstateImages.__init__]; [mapping] defaults to [None].  In train
    mode the first index and the length are read off [mapping[0]]; in
    test mode off the sorted listing of the test directory, and
    [mapping] and [map_num] are not set (the record holds an empty list
    and 0, which a test-mode provider never reads). *)
Definition __init__ (modality : string) (train : bool) (device : string)
    (normalize_strategy : Z) (mapping : option (list (gmap Z Z)))
  : result ProstateImages :=
  if negb (bool_decide (modality ∈ ["t2"; "bval"; "adc"]))
  then Raise AssertionError
  else if negb (bool_decide (normalize_strategy ∈ [1; 2]))
  then Raise AssertionError
  else
    '(mean, std) ←
      (if normalize_strategy =? 1 then Ok (None, None)
       else
         mean ← np_load (tensor_paths modality).1;
         std ← np_load (tensor_paths modality).2;
         Ok (Some mean, Some std));
    if train then
      mapping ← Py.of_option TypeError mapping;
      d ← Py.index mapping 0;
      first ← Py.index (sorted_keys d) 0;
      Ok {| modality := modality;
            train := train;
            device := device;
            normalize_strategy := normalize_strategy;
            mean_tensor := mean;
            std_tensor := std;
            mapping := mapping;
            map_num := 0;
            first_index := first;
            length_ := Z.of_nat (size d) |}
    else
      names ← os_listdir (test_root +:+ "/" +:+ modality +:+ "/");
      let sorted_path := sorted_strings names in
      head ← Py.index sorted_path 0;
      stem ← Py.index (Builder.split_on dot head) 0;
      first ← py_int_of_str stem;
      Ok {| modality := modality;
            train := train;
            device := device;
            normalize_strategy := normalize_strategy;
            mean_tensor := mean;
            std_tensor := std;
            mapping := [];
            map_num := 0;
            first_index := first;
            length_ := Z.of_nat (length sorted_path) |}.

End Constructor.

(** [change_map_num].  [self.mapping] is set by the constructor in train
    mode only.  The three assignments are one update here: when the
    second raises, Python leaves [map_num] changed and the other two
    fields as they were. *)
Definition change_map_num (self : ProstateImages) (new_map_num : Z)
  : result ProstateImages :=
  if train self then
    d ← Py.index (mapping self) new_map_num;
    first ← Py.index (sorted_keys d) 0;
    Ok {| modality := modality self;
          train := train self;
          device := device self;
          normalize_strategy := normalize_strategy self;
          mean_tensor := mean_tensor self;
          std_tensor := std_tensor self;
          mapping := mapping self;
          map_num := new_map_num;
          first_index := first;
          length_ := Z.of_nat (size d) |}
  else Raise AttributeError.

Definition __len__ (self : ProstateImages) : Z := length_ self.

(** The patch directory after a list of [sitk.WriteImage] calls into the
    emptied directory: a path holds the image last written to it, and
    [sitk.ReadImage] fails on a path nothing was written to. *)
Fixpoint written_at (files : list (string * Image)) (path : string)
  : option Image :=
  match files with
  | [] => None
  | (p, image) :: rest =>
      match written_at rest path with
      | Some later => Some later
      | None => if String.eqb p path then Some image else None
      end
  end.

Definition ReadImage_of (files : list (string * Image)) (path : string)
  : result Image :=
  Py.of_option IOError (written_at files path).

(** The position of a modality in a crop. *)
Definition modality_position (modality : string) : nat :=
  if String.eqb modality "t2" then 0
  else if String.eqb modality "adc" then 1
  else 2.

(** The character does not occur in the string. *)
Fixpoint free_of (c : Ascii.ascii) (s : string) : bool :=
  match s with
  | EmptyString => true
  | String a s' => negb (Ascii.eqb a c) && free_of c s'
  end.

Definition dash : Ascii.ascii :=
  Ascii.Ascii true false true true false true false false.
Definition underscore : Ascii.ascii :=
  Ascii.Ascii true true true true true false true false.

End Dataset.

(** ** 4.6 Training loop: the best-model bookkeeping *)

Module Training.

Section Loop.
(** The weights of a model and a confusion matrix, and the two passes of
    an epoch as the libraries compute them: the training pass gives the
    weights after its optimiser steps with the F1 and the AUC of its hard
    predictions; the validation pass gives F1, AUC and confusion matrix of
    the weights it is run on. *)
Context {W confusion : Type}.
Variable train_pass : W → result (W * float * float).
Variable validation_pass : W → result (float * float * confusion).
Variable initialize_CNN2 : W → result W.

(** What the taken branch of [if auc_eval[-1] > best_auc] binds. *)
Record best := {
  best_model : nat;
  conf_matrix : confusion;
  auc_train_of_best_model : float;
  f1_train_of_best_model : float;
  best_f1 : float
}.

(** Models are objects of a store. [store] holds their weights,
    [best_auc] starts at 0 and [retained] is unbound until the branch is
    first taken. *)
Record loop_state := {
  store : gmap nat W;
  best_auc : float;
  retained : option best
}.

(** [copy.deepcopy(model)]: a new object with the weights of the old. *)
Definition deepcopy (model : nat) (h : gmap nat W)
  : result (nat * gmap nat W) :=
  w ← Py.of_option KeyError (h !! model);
  let copy := fresh (dom h) in
  Ok (copy, <[copy := w]> h).

(** The body of [for epoch in range(epochs)]: the optimiser updates the
    model in place, then the validation AUC is compared. *)
Definition epoch_round (model : nat) (epoch : Z) (st : loop_state)
  : result loop_state :=
  w ← Py.of_option KeyError (store st !! model);
  '(w', f1_train, auc_train) ← train_pass w;
  let h := <[model := w']> (store st) in
  '(f1_eval, auc_eval, conf) ← validation_pass w';
  if gtb auc_eval (best_auc st) then
    '(copy, h') ← deepcopy model h;
    Ok {| store := h';
          best_auc := auc_eval;
          retained :=
            Some {| best_model := copy;
                    conf_matrix := conf;
                    auc_train_of_best_model := auc_train;
                    f1_train_of_best_model := f1_train;
                    best_f1 := f1_eval |} |}
  else
    Ok {| store := h; best_auc := best_auc st; retained := retained st |}.

(** The lists kept for the plots are written and never read back, bar
    their last entry, which is the epoch's own value; they are left out.
    The result is the tuple of the [return], with the store. *)
Definition train_model (model : nat) (epochs : Z) (softmax : bool)
    (h : gmap nat W) : result (best * float * gmap nat W) :=
  h ← (if softmax then
         w ← Py.of_option KeyError (h !! model);
         w' ← initialize_CNN2 w;
         Ok (<[model := w']> h)
       else Ok h);
  st ← for_each (epoch_round model) (range epochs)
         {| store := h; best_auc := Fin 0; retained := None |};
  match retained st with
  | None => Raise UnboundLocalError
  | Some b => Ok (b, best_auc st, store st)
  end.

(** The weights of the trained model after [n] epochs. *)
Fixpoint weights_after (w : W) (n : nat) : result W :=
  match n with
  | O => Ok w
  | S n' =>
      w' ← weights_after w n';
      '(w'', _, _) ← train_pass w';
      Ok w''
  end.

(** What holds after [n] epochs that started from weights [w0]: the
    model object holds the current weights; a retained snapshot is another
    object, holding the weights an earlier epoch [e] ended with, whose
    validation AUC is [best_auc] and is not exceeded by any epoch so
    far. *)
Definition bookkeeping (model : nat) (w0 : W) (n : nat) (st : loop_state)
  : Prop :=
  (∃ w, weights_after w0 n = Ok w ∧ store st !! model = Some w)
  ∧ (∀ e w f1 auc conf,
       (e < n)%nat → weights_after w0 (S e) = Ok w →
       validation_pass w = Ok (f1, auc, conf) → gtb auc (best_auc st) = false)
  ∧ match retained st with
    | None => best_auc st = Fin 0
    | Some b =>
        ∃ e w,
          (e < n)%nat
          ∧ weights_after w0 (S e) = Ok w
          ∧ validation_pass w = Ok (best_f1 b, best_auc st, conf_matrix b)
          ∧ store st !! best_model b = Some w
          ∧ best_model b ≠ model
    end.

End Loop.

End Training.

(** ** K-fold cross-validation *)

Module CrossValidation.
Import Provider Dataset Training.

(** [range(low, high)] *)
Definition range_from (low high : Z) : list Z :=
  (λ i, low + i) <$> range (high - low).

Definition newline : string :=
  String (Ascii.Ascii false true false true false false false false)
    EmptyString.

Section Folds.
(** The passes of an epoch over the two dataloaders.  A dataloader reads
    its dataset as the dataset is when the pass runs, so the passes take
    the dataset of the fold.  [load_checkpoint] is the state dictionary
    [torch.load] reads for the new network, [str] is Python's [str] on a
    float. *)
Context {W confusion : Type}.
Variable train_pass : ProstateImages → W → result (W * float * float).
Variable validation_pass :
  ProstateImages → W → result (float * float * confusion).
Variable initialize_CNN2 : W → result W.
Variable load_checkpoint : result W.
Variable str : float → string.

(** The names the loop over the folds assigns. *)
Record fold_state := {
  heap : gmap nat W;
  model : nat;
  train_data : ProstateImages;
  val_data : ProstateImages;
  models : list nat;
  auc_train_avg : list float;
  f1_train_avg : list float;
  auc_eval_avg : list float;
  f1_eval_avg : list float
}.

(** The body of [for k in range(k_low, k_high)].  The optimiser is made
    anew over the parameters of the object [model] names, and [model] is
    then bound to the best model [train_model] returns. *)
Definition fold_round (epochs : Z) (softmax : bool) (k : Z) (st : fold_state)
  : result fold_state :=
  train_data' ← change_map_num (train_data st) k;
  val_data' ← change_map_num (val_data st) k;
  '(b, auc_eval, h) ←
     train_model (train_pass train_data') (validation_pass val_data')
       initialize_CNN2 (model st) epochs softmax (heap st);
  Ok {| heap := h;
        model := best_model b;
        train_data := train_data';
        val_data := val_data';
        models := models st ++ [best_model b];
        auc_train_avg := auc_train_avg st ++ [auc_train_of_best_model b];
        f1_train_avg := f1_train_avg st ++ [f1_train_of_best_model b];
        auc_eval_avg := auc_eval_avg st ++ [auc_eval];
        f1_eval_avg := f1_eval_avg st ++ [best_f1 b] |}.

(** What the call leaves: the returned list, the lines appended to
    [stats.txt], the objects of the heap, and the two datasets, which the
    call has switched from fold to fold. *)
Record outcome := {
  returned : list (nat * list float);
  stats : list string;
  final_heap : gmap nat W;
  final_train_data : ProstateImages;
  final_val_data : ProstateImages
}.

Definition stats_lines (title : string) (avgs : list float) : list string :=
  (title +:+ newline) :: ((λ avg, str avg +:+ newline) <$> avgs).

(** [k_fold_cross_validation]: one network object is made and loaded
    from the checkpoint before the loop; [list(zip(models, scores))] pairs
    the models with the four lists of scores. *)
Definition k_fold_cross_validation (k_low k_high : Z)
    (train_set val_set : ProstateImages) (epochs : Z) (softmax : bool)
    (h : gmap nat W) : result outcome :=
  let network := fresh (dom h) in
  w ← load_checkpoint;
  st ← for_each (fold_round epochs softmax) (range_from k_low k_high)
         {| heap := <[network := w]> h;
            model := network;
            train_data := train_set;
            val_data := val_set;
            models := [];
            auc_train_avg := [];
            f1_train_avg := [];
            auc_eval_avg := [];
            f1_eval_avg := [] |};
  let scores :=
    [auc_train_avg st; f1_train_avg st; auc_eval_avg st; f1_eval_avg st] in
  Ok {| returned := zip (models st) scores;
        stats :=
          stats_lines "AUC train average" (auc_train_avg st)
          ++ stats_lines "F1 train average" (f1_train_avg st)
          ++ stats_lines "AUC eval average" (auc_eval_avg st)
          ++ stats_lines "F1 eval average" (f1_eval_avg st);
        final_heap := heap st;
        final_train_data := train_data st;
        final_val_data := val_data st |}.

(** The weights the passes start from: [initialize_CNN2] replaces them
    when [softmax] is set. *)
Definition starting_weights (softmax : bool) (w : W) : result W :=
  if softmax then initialize_CNN2 w else Ok w.

End Folds.

End CrossValidation.

(** ** Batches and file numbers *)

Module Batch.

(** A tensor whose first two axes are the patients of a batch and the
    images of a patient, and the same cells with these two axes merged:
    the cells are read by position. *)
Record batch (A : Type) := {
  shape0 : Z;
  shape1 : Z;
  item : Z → Z → A
}.
Arguments shape0 {A} _.
Arguments shape1 {A} _.
Arguments item {A} _ _ _.

Record flat (A : Type) := {
  count : Z;
  cell : Z → A
}.
Arguments count {A} _.
Arguments cell {A} _ _.

(** [images.view(images.shape[0] * images.shape[1], *images.shape[2:])]:
    the cell [i] of the view is the cell [(i // n1, i % n1)]. *)
Definition view {A} (images : batch A) : flat A :=
  {| count := shape0 images * shape1 images;
     cell := λ i, item images (i / shape1 images) (i mod shape1 images) |}.

(** [flatten_batch]: every label is repeated once per image of the
    patient, and the rows are laid end to end by [view(-1)]. *)
Definition flatten_batch {A} (image_shape : Z * Z) (images : batch A)
    (class_vector : list float) : result (flat A * list float) :=
  rows ← comprehension
            (λ idx, label ← Py.index class_vector idx;
                    Ok (replicate (Z.to_nat image_shape.2) label))
            (range image_shape.1);
  Ok (view images, concat rows).

End Batch.

Module FileNumbers.

(** [random.randint(a, b)]: an integer of [[a, b]], both ends included. *)
Definition random_randint (a b : Z) (g : rng) : result (Z * rng) :=
  if b <? a then Raise ValueError
  else
    let '(j, g1) := randbelow (Z.to_N (b - a + 1)) g in
    Ok (a + Z.of_N j, g1).

(** ["".join(["0" for _ in range(n)])] *)
Fixpoint zeros (n : nat) : string :=
  match n with
  | O => EmptyString
  | S n' => String Partitioner.zero_char (zeros n')
  end.

Definition generate_random_resampled_number (g : rng) : result (string * rng) :=
  '(n, g1) ← random_randint 0 345 g;
  let file_number := pretty n in
  Ok (zeros (Z.to_nat (4 - Z.of_nat (String.length file_number)))
        +:+ file_number, g1).

(** The four characters of a number below 10000, zeros first. *)
Definition four_digits (n : Z) : string :=
  zeros (Z.to_nat (4 - Z.of_nat (String.length (pretty n)))) +:+ pretty n.

End FileNumbers.

(** ** Concrete runs *)

Module Runs.
Import Resampler Cropper Builder Partitioner Provider Training.

Definition constant_image (size : triple Z) (spacing : triple Q) (x : float)
  : Image :=
  {| GetSize := size;
     GetSpacing := spacing;
     GetOrigin := (0, 0, 0)%Q;
     GetDirection := identity_direction;
     GetPixelIDValue := 8;
     GetPixel := λ _ _ _, x |}.

(** Stand-ins for the library calls of the runs below. *)
Definition nearest (flt : ResampleImageFilter) (im : Image) (i j k : Z)
  : float :=
  GetPixel im i j k.

Fixpoint digits_value (s : string) (acc : Z) : result Z :=
  match s with
  | EmptyString => Ok acc
  | String c s' => d ← digit_value c; digits_value s' (10 * acc + d)
  end.

Definition int_of_digits (s : string) : result Z :=
  match s with
  | EmptyString => Raise ValueError
  | _ => digits_value s 0
  end.

Definition float_of_digits (s : string) : result float :=
  n ← int_of_digits s; Ok (of_Z n).

Definition no_padding (im : Image) : Image := im.

Definition centre_index (im : Image) (lps : list float)
  : result (triple Z) :=
  let '(ni, nj, nk) := GetSize im in Ok (ni / 2, nj / 2, nk / 2).

Definition no_rotation (im : Image) (degree : Z) (lps : list float) : Image :=
  im.

(** A 10 x 10 x 5 volume of spacing (0.5, 0.5, 3) resampled to spacing
    (2, 2, 3): 2.5 rounds to the even 2. *)
Definition thin_volume : Image :=
  constant_image (10, 10, 5) (1 # 2, 1 # 2, 3)%Q (Fin 1).

(** A 64 x 64 x 32 volume cropped to 32 x 32 x 3 about its centre: the
    window is [16, 48) x [16, 48) x [15, 18). *)
Definition ramp_volume : Image :=
  {| GetSize := (64, 64, 32);
     GetSpacing := (1, 1, 1)%Q;
     GetOrigin := (0, 0, 0)%Q;
     GetDirection := identity_direction;
     GetPixelIDValue := 8;
     GetPixel := λ i j k, of_Z (i + 64 * j + 4096 * k) |}.

(** Two findings, the first on an all-zero T2 volume; two crops each of
    size 2 x 2 x 1. *)
Definition zero_volume : Image := constant_image (8, 8, 3) (1, 1, 1)%Q (Fin 0).
Definition one_volume : Image := constant_image (8, 8, 3) (1, 1, 1)%Q (Fin 1).

Definition row0 : finding :=
  {| patient_id := "ProstateX-0000"; ClinSig := Some 1; pos := "1 2 3" |}.
Definition row1 : finding :=
  {| patient_id := "ProstateX-0001"; ClinSig := Some 0; pos := "4 5 6" |}.

Definition volumes : triple (list (option Image)) :=
  ([Some zero_volume; Some one_volume],
   [Some one_volume; Some one_volume],
   [Some one_volume; Some one_volume]).

Definition draws : rng := [3; 1; 4; 1; 5; 9; 2; 6; 5; 3; 5; 8; 9; 7; 9]%N.

Definition start (g : rng) : state :=
  {| crops := ∅; invalid_keys := ∅; gen := g |}.

Definition value_of {A} (d : A) (r : result A) : A :=
  match r with
  | Ok a => a
  | Raise _ => d
  end.

Definition padded0 : list Image := [zero_volume; one_volume; one_volume].
Definition centres0 : list (triple Z) := [(4, 4, 1); (4, 4, 1); (4, 4, 1)].
Definition lps0 : list float := [Fin 1; Fin 2; Fin 3].

Definition train_run : result (gmap string (list entry) * rng) :=
  image_cropper int_of_digits float_of_digits no_padding centre_index
    no_rotation [row0; row1] volumes 2 2 1 2 true draws.

Definition zero_volume_crop : Image :=
  slice3 zero_volume (window 4 0 2) (window 4 0 2) (window 1 0 1).

Definition centred_crop : list Image :=
  (value_of ([], [])
     (make_crop no_rotation padded0 lps0 centres0 2 2 1 0 draws)).1.

Definition test_run : result (gmap string (list entry) * rng) :=
  image_cropper int_of_digits float_of_digits no_padding centre_index
    no_rotation [row0; row1] volumes 2 2 1 2 false draws.

(** Four cancer and four non-cancer patients with two crops each. *)
Definition patch (marker : Z) : entry :=
  ([one_volume; one_volume; one_volume], Some marker).

Definition cohort : list (string * list entry) :=
  [("ProstateX-0000_1", [patch 1; patch 1]);
   ("ProstateX-0001_0", [patch 0; patch 0]);
   ("ProstateX-0002_1", [patch 1; patch 1]);
   ("ProstateX-0003_0", [patch 0; patch 0]);
   ("ProstateX-0004_1", [patch 1; patch 1]);
   ("ProstateX-0005_0", [patch 0; patch 0]);
   ("ProstateX-0006_1", [patch 1; patch 1]);
   ("ProstateX-0007_0", [patch 0; patch 0])].

Definition no_partition : partition * rng :=
  ({| files := []; fold_key_mappings := []; train_key_mappings := [] |}, []).

(** Half of the cancer patients in validation: two per class. *)
Definition half_run : result (partition * rng) :=
  write_cropped_images_train_and_folds cohort 2 2 (Fin (1 # 2)) draws.

(** The default fraction 0.2: the product 0.8 truncates to no patient. *)
Definition fifth_run : result (partition * rng) :=
  write_cropped_images_train_and_folds cohort 2 2 (binary64 (1 # 5)) draws.

Definition cohort_patients : gset Z :=
  patient_indices_of (flatten_patients cohort) 2.
Definition cohort_cancer : gset Z :=
  value_of ∅ (select_label one_char (flatten_patients cohort) 2 cohort_patients).

(** A test-mode provider under strategy 2 on a store of one patch of
    ones, with a zero mean. *)
Definition ones_patch : Image := constant_image (32, 32, 3) (1, 1, 1)%Q (Fin 1).

Definition patch_store (path : string) : result Image :=
  if String.eqb path (test_path "adc" 0) then Ok ones_patch
  else Raise IOError.

Definition constant_array (x : float) : ndarray :=
  {| shape := (3, 32, 32); at_ := λ _ _ _, x |}.

(** A deviation that vanishes at the cell [[0, 0, 1]] only. *)
Definition std_one_zero : ndarray :=
  {| shape := (3, 32, 32);
     at_ := λ a b c,
       if (a =? 0) && (b =? 0) && (c =? 1) then Fin 0 else Fin 1 |}.

Definition provider (mean std : ndarray) : ProstateImages :=
  {| modality := "adc";
     train := false;
     device := "cpu";
     normalize_strategy := 2;
     mean_tensor := Some mean;
     std_tensor := Some std;
     mapping := [];
     map_num := 0;
     first_index := 0;
     length_ := 1 |}.

(** Mean 1 and deviation 0 everywhere: every cell is 0/0. *)
Definition flat_provider : ProstateImages :=
  provider (constant_array (Fin 1)) (constant_array (Fin 0)).

Definition spiked_provider : ProstateImages :=
  provider (constant_array (Fin 0)) std_one_zero.

Definition no_array : ndarray * option Z * Z :=
  ({| shape := (0, 0, 0); at_ := λ _ _ _, NaN |}, None, 0).

Definition flat_normalized : ndarray :=
  (value_of no_array (normalized_image patch_store no_padding flat_provider 0)).1.1.

Definition spiked_normalized : ndarray :=
  (value_of no_array (normalized_image patch_store no_padding spiked_provider 0)).1.1.

End Runs.

Module Scenarios.
Import Resampler Cropper Builder Partitioner Provider Training Runs.
Import Dataset CrossValidation.

(** The second finding has no T2 volume. *)
Definition blank_volumes : triple (list (option Image)) :=
  ([Some one_volume; None],
   [Some one_volume; Some one_volume],
   [Some one_volume; Some one_volume]).

Definition no_crops : gmap string (list entry) * rng := (∅, []).

(** One crop per finding, of the configured size 2 x 2 x 1 and of a
    width above that of the volumes. *)
Definition single_run : result (gmap string (list entry) * rng) :=
  image_cropper int_of_digits float_of_digits no_padding centre_index
    no_rotation [row0; row1] volumes 2 2 1 1 true draws.

Definition wide_loop : result state :=
  findings_loop int_of_digits float_of_digits no_padding centre_index
    no_rotation true volumes 9 2 1 1 [row0; row1] (start draws).

(** Three cancer patients and one other, two crops each. *)
Definition majority : list (string * list entry) :=
  [("ProstateX-0000_1", [patch 1; patch 1]);
   ("ProstateX-0001_1", [patch 1; patch 1]);
   ("ProstateX-0002_1", [patch 1; patch 1]);
   ("ProstateX-0003_0", [patch 0; patch 0])].

Definition majority_patients : gset Z :=
  patient_indices_of (flatten_patients majority) 2.

(** The partitions of the cohort. *)
Definition half_partition : partition := (value_of no_partition half_run).1.
Definition fifth_partition : partition := (value_of no_partition fifth_run).1.

(** No tensor file and no test directory are at hand: the constructor
    reads neither in train mode under strategy 1. *)
Definition absent_file (path : string) : result ndarray := Raise IOError.
Definition absent_directory (path : string) : result (list string) :=
  Raise IOError.

(** [ProstateImages(modality="adc", train=True, device="cpu",
      normalize_strategy=1, mapping=mappings)] *)
Definition fold_provider (mappings : list (gmap Z Z))
  : result ProstateImages :=
  Dataset.__init__ absent_file absent_directory int_of_digits
    "adc" true "cpu" 1 (Some mappings).

(** The provider the constructor returns on the validation mappings of
    the cohort split in halves. *)
Definition half_provider : ProstateImages :=
  value_of flat_provider (fold_provider (fold_key_mappings half_partition)).

(** [NormalizeImageFilter] on an image all of whose voxels hold one
    value, as the patches of these runs do: the deviation is zero and
    every voxel comes out as 0/0. *)
Definition normalize_flat (im : Image) : Image :=
  {| GetSize := GetSize im;
     GetSpacing := GetSpacing im;
     GetOrigin := GetOrigin im;
     GetDirection := GetDirection im;
     GetPixelIDValue := GetPixelIDValue im;
     GetPixel := λ _ _ _, NaN |}.

Definition no_sample : sample * rng :=
  ({| s_image := no_array.1.1; s_cancer := None; s_index := 0 |}, []).

Definition half_read : result (sample * rng) :=
  __getitem__ (ReadImage_of (files half_partition)) normalize_flat
    half_provider 0 draws.

(** Epochs on integer weights: a training pass adds one, and more in the
    later folds; the validation AUC peaks at the weights 2. *)
Definition step_pass (w : Z) : result (Z * float * float) :=
  Ok (w + 1, Fin (1 # 2), Fin (1 # 2)).

Definition peak_pass (w : Z) : result (float * float * unit) :=
  Ok (Fin (1 # 2), (if w =? 2 then Fin (3 # 4) else Fin (1 # 2)), tt).

Definition keep (w : Z) : result Z := Ok w.

Definition no_best : best (confusion := unit) * float * gmap nat Z :=
  ({| best_model := 0%nat; conf_matrix := tt;
      auc_train_of_best_model := NaN; f1_train_of_best_model := NaN;
      best_f1 := NaN |}, NaN, ∅).

Definition three_epochs : result (best (confusion := unit) * float * gmap nat Z) :=
  train_model step_pass peak_pass keep 0%nat 3 false {[0%nat := 0]}.

Definition fold_pass (d : ProstateImages) (w : Z) : result (Z * float * float) :=
  Ok (w + 1 + map_num d, Fin (1 # 2), Fin (1 # 2)).

Definition fold_peak (d : ProstateImages) (w : Z)
  : result (float * float * unit) :=
  peak_pass w.

Definition blank_text (x : float) : string := "".

Definition dense_pair : gmap Z Z := {[0 := 0; 1 := 1]}.

Definition five_folds : ProstateImages :=
  value_of flat_provider
    (fold_provider
       [dense_pair; dense_pair; dense_pair; dense_pair; dense_pair]).

Definition no_outcome : outcome (W := Z) :=
  {| returned := []; stats := []; final_heap := ∅;
     final_train_data := five_folds; final_val_data := five_folds |}.

Definition five_fold_run : result (outcome (W := Z)) :=
  k_fold_cross_validation fold_pass fold_peak keep (Ok 0) blank_text
    0 5 five_folds five_folds 2 false ∅.

(** Three patients of three images each, a cell holding its own
    position, with the labels of the docstring of [flatten_batch]. *)
Definition numbered_batch : Batch.batch (Z * Z) :=
  {| Batch.shape0 := 3; Batch.shape1 := 3; Batch.item := λ i j, (i, j) |}.

Definition docstring_labels : list float := [Fin 1; Fin 1; Fin 0].

(** The dictionary of the train run, as the list of its items. *)
Definition train_items : list (string * list entry) :=
  map_to_list (value_of no_crops train_run).1.

End Scenarios.

(** * Part II: what the embedding satisfies *)

(** Facts on the loop combinators. *)

Module PyFacts.

Lemma bind_Ok {A B} (m : result A) (k : A → result B) (b : B) :
  (m ≫= k) = Ok b ↔ ∃ a, m = Ok a ∧ k a = Ok b.
Proof.
  unfold mbind, result_bind, Py.bind. destruct m as [a|e]; split.
  - eauto.
  - by intros (a' & [= <-] & ?).
  - done.
  - by intros (? & ? & ?).
Qed.

Lemma comprehension_Forall2 {X Y} (f : X → result Y) (l : list X) (ys : list Y) :
  comprehension f l = Ok ys ↔ Forall2 (λ x y, f x = Ok y) l ys.
Proof.
  revert ys. induction l as [|x l IH]; intros ys; cbn.
  - split; [intros [= <-]; constructor | by inversion 1].
  - split.
    + destruct (f x) as [y|] eqn:Ex; cbn; [|done].
      destruct (comprehension f l) as [ys'|] eqn:El; cbn; [|done].
      intros [= <-]. constructor; [done|]. by apply IH.
    + inversion 1 as [|? y ? ys' Hx Hl]; subst.
      rewrite Hx; cbn. apply IH in Hl. by rewrite Hl.
Qed.

Lemma comprehension_total {X Y} (f : X → result Y) (l : list X) :
  (∀ x, x ∈ l → ∃ y, f x = Ok y) → ∃ ys, comprehension f l = Ok ys.
Proof.
  induction l as [|x l IH]; intros Hall; cbn; [eauto|].
  destruct (Hall x) as [y Hy]; [left|]. rewrite Hy; cbn.
  destruct IH as [ys Hys]; [intros; apply Hall; by right|].
  rewrite Hys; cbn. eauto.
Qed.

Lemma for_each_app {X S} (body : X → S → result S) (l1 l2 : list X) (st : S) :
  for_each body (l1 ++ l2) st = (for_each body l1 st ≫= for_each body l2).
Proof.
  revert st. induction l1 as [|x l1 IH]; intros st; cbn; [done|].
  destruct (body x st); cbn; [apply IH | done].
Qed.

Lemma for_each_invariant {X S} (body : X → S → result S) (R : S → S → Prop) :
  (∀ st, R st st) →
  (∀ a b c, R a b → R b c → R a c) →
  (∀ x st st', body x st = Ok st' → R st st') →
  ∀ l st st', for_each body l st = Ok st' → R st st'.
Proof.
  intros Hrefl Htrans Hstep l.
  induction l as [|x l IH]; intros st st' H; cbn in H.
  - injection H as <-. apply Hrefl.
  - change (Py.bind (body x st) (for_each body l)) with
      (body x st ≫= for_each body l) in H.
    apply bind_Ok in H as (st1 & H1 & H2). eauto.
Qed.

Lemma for_each_preserves {X S} (body : X → S → result S) (P : S → Prop) :
  (∀ x st st', P st → body x st = Ok st' → P st') →
  ∀ l st st', P st → for_each body l st = Ok st' → P st'.
Proof.
  intros Hstep l st st' HP H. revert HP.
  apply (for_each_invariant body (λ a b, P a → P b)) with (l := l); eauto.
Qed.

Lemma index_Ok {A} (l : list A) (n : nat) (x : A) :
  l !! n = Some x → Py.index l (Z.of_nat n) = Ok x.
Proof.
  intros Hl. unfold Py.index.
  pose proof (lookup_lt_Some _ _ _ Hl).
  destruct (Z.ltb_spec (Z.of_nat n) 0); [lia|].
  destruct (Z.ltb_spec (Z.of_nat n) 0); [lia|].
  destruct (Z.leb_spec (Z.of_nat (length l)) (Z.of_nat n)); [lia|].
  cbn. by rewrite Nat2Z.id, Hl.
Qed.

End PyFacts.

Import PyFacts.

(** Facts on the floats. *)

Module FloatFacts.


Lemma truncate_inject_Z (z : Z) : truncate (inject_Z z) = z.
Proof.
  unfold truncate. destruct (is_neg (inject_Z z)).
  - change (- inject_Z z)%Q with (inject_Z (- z)). rewrite Qfloor_Z. lia.
  - apply Qfloor_Z.
Qed.

Lemma binary64_zero (x : Q) : (x == 0)%Q → binary64 x = Fin 0.
Proof.
  intros Hx. unfold binary64, round_to_format.
  apply Qeq_alt in Hx. by rewrite Hx.
Qed.

Lemma gtb_raise (x old new : float) :
  gtb x old = false → gtb new old = true → gtb x new = false.
Proof.
  destruct x as [|[]|p], old as [|[]|q], new as [|[]|r]; cbn; try done.
  intros H1 H2. apply negb_false_iff, Qle_bool_iff in H1.
  apply negb_true_iff in H2. apply negb_false_iff, Qle_bool_iff.
  destruct (Qlt_le_dec r p) as [Hlt|Hle]; [|done].
  exfalso. assert (Qle_bool r q = true) as E; [|congruence].
  apply Qle_bool_iff. apply Qlt_le_weak in Hlt. by apply (Qle_trans _ p).
Qed.

Lemma gtb_irrefl (x : float) : gtb x x = false.
Proof.
  destruct x as [|[]|p]; cbn; try done.
  apply negb_false_iff, Qle_bool_iff. apply Qle_refl.
Qed.

End FloatFacts.

Import FloatFacts.

(** Facts on the generators. *)

Module RngFacts.

Lemma randbelow_lt (n : N) (g : rng) :
  (0 < n)%N → ((randbelow n g).1 < n)%N.
Proof.
  intros Hn. destruct g as [|d g]; cbn; [lia|].
  apply N.mod_lt. lia.
Qed.

Lemma choice_elem {A} (l : list A) (g : rng) :
  l ≠ [] → ∃ n x, l !! n = Some x ∧ choice l g = Ok (x, (randbelow (N.of_nat (length l)) g).2).
Proof.
  intros Hl. unfold choice.
  pose proof (randbelow_lt (N.of_nat (length l)) g) as Hlt.
  destruct (randbelow (N.of_nat (length l)) g) as [j g1]; cbn in *.
  destruct (lookup_lt_is_Some_2 l (N.to_nat j)) as [x Hx].
  { destruct l; [done|]. cbn [length] in *. lia. }
  rewrite Hx. eauto.
Qed.

Lemma randint_range (low high : Z) (g : rng) :
  low < high →
  ∃ z, low ≤ z < high
       ∧ randint low high g = Ok (z, (randbelow (Z.to_N (high - low)) g).2).
Proof.
  intros Hlt. unfold randint.
  destruct (Z.leb_spec high low); [lia|].
  pose proof (randbelow_lt (Z.to_N (high - low)) g) as Hb.
  destruct (randbelow (Z.to_N (high - low)) g) as [j g1]; cbn in *.
  exists (low + Z.of_N j). split; [lia | done].
Qed.

(** The pool after a selection: the chosen entry is gone, the others
    are kept. *)
Lemma pool_step (pool : list Z) (j : nat) (x y : Z) :
  NoDup pool →
  pool !! j = Some x → pool !! (length pool - 1)%nat = Some y →
  let pool' := take (length pool - 1) (<[j := y]> pool) in
  NoDup pool' ∧ (x ∉ pool') ∧ (∀ z, z ∈ pool' → z ∈ pool)
  ∧ length pool' = (length pool - 1)%nat.
Proof.
  intros Hnd Hx Hy pool'.
  pose proof (lookup_lt_Some _ _ _ Hx) as Hj.
  assert (∀ i v, pool' !! i = Some v →
            lt i (length pool - 1)
            ∧ ((i = j ∧ v = y) ∨ (i ≠ j ∧ pool !! i = Some v))) as Hchar.
  { intros i v Hi. unfold pool' in Hi.
    apply lookup_take_Some in Hi as [Hi Hlt]. split; [done|].
    destruct (decide (i = j)) as [->|Hne].
    - rewrite list_lookup_insert_eq in Hi by done. left. split; congruence.
    - rewrite list_lookup_insert_ne in Hi by done. by right. }
  pose proof (proj1 (NoDup_alt pool) Hnd) as Hinj.
  split; [|split; [|split]].
  - apply NoDup_alt. intros i i' v Hi Hi'.
    apply Hchar in Hi as [Hlt [[Ei Ev]|[Hne Hi]]],
                    Hi' as [Hlt' [[Ei' Ev']|[Hne' Hi']]]; subst.
    + done.
    + pose proof (Hinj _ _ _ Hi' Hy). lia.
    + pose proof (Hinj _ _ _ Hi Hy). lia.
    + by eapply Hinj.
  - intros Hin. apply list_elem_of_lookup in Hin as [i Hi].
    apply Hchar in Hi as [Hlt [[-> ->]|[Hne Hi]]].
    + pose proof (Hinj _ _ _ Hx Hy). lia.
    + by pose proof (Hinj _ _ _ Hx Hi).
  - intros z Hin. apply list_elem_of_lookup in Hin as [i Hi].
    apply Hchar in Hi as [Hlt [[-> ->]|[Hne Hi]]].
    + by eapply list_elem_of_lookup_2.
    + by eapply list_elem_of_lookup_2.
  - unfold pool'. rewrite length_take, length_insert. lia.
Qed.

Lemma sample_pool_spec (k : nat) (pool : list Z) (g : rng) :
  NoDup pool → (k ≤ length pool)%nat →
  NoDup (sample_pool pool k g).1
  ∧ length (sample_pool pool k g).1 = k
  ∧ ∀ x, x ∈ (sample_pool pool k g).1 → x ∈ pool.
Proof.
  revert pool g. induction k as [|k IH]; intros pool g Hnd Hk; cbn [sample_pool].
  - cbn. split; [constructor|]. split; [done|]. by intros x ?%not_elem_of_nil.
  - pose proof (randbelow_lt (N.of_nat (length pool)) g ltac:(lia)) as Hlt.
    destruct (randbelow (N.of_nat (length pool)) g) as [j g1]. cbn [fst] in Hlt.
    destruct (lookup_lt_is_Some_2 pool (N.to_nat j)) as [x Hx]; [lia|].
    destruct (lookup_lt_is_Some_2 pool (length pool - 1)) as [y Hy]; [lia|].
    rewrite Hx, Hy.
    destruct (pool_step pool _ x y Hnd Hx Hy) as (Hnd' & Hnot & Hsub & Hlen).
    specialize (IH (take (length pool - 1) (<[N.to_nat j:=y]> pool)) g1 Hnd'
                  ltac:(lia)).
    destruct (sample_pool _ k g1) as [r g2]. cbn [fst] in *.
    destruct IH as (Hr & Hl & Hin).
    split; [|split].
    + constructor; [|done]. intros Hxr. by apply Hnot, Hin.
    + cbn. lia.
    + intros z Hz. apply elem_of_cons in Hz as [->|Hz].
      * by eapply list_elem_of_lookup_2.
      * by apply Hsub, Hin.
Qed.

(** What [random.sample] returns: [k] distinct members of the set. *)
Lemma sample_spec (population : gset Z) (k : Z) (g : rng) (l : list Z) (g' : rng) :
  sample population k g = Ok (l, g') →
  NoDup l ∧ Z.of_nat (length l) = k ∧ ∀ x, x ∈ l → x ∈ population.
Proof.
  unfold sample.
  destruct (Z.ltb_spec k 0) as [Hk0|Hk0]; [done|].
  destruct (Z.ltb_spec (Z.of_nat (length (elements population))) k)
    as [Hkn|Hkn]; [done|].
  cbn [orb]. intros H.
  pose proof (sample_pool_spec (Z.to_nat k) (elements population) g
                (NoDup_elements _) ltac:(lia)) as (Hnd & Hlen & Hin).
  injection H as E. rewrite E in Hnd, Hlen, Hin. cbn [fst] in *.
  split; [done|]. split; [lia|].
  intros x Hx. by apply elem_of_elements, Hin.
Qed.

Lemma sample_set (population : gset Z) (k : Z) (g : rng) (l : list Z) (g' : rng) :
  sample population k g = Ok (l, g') →
  (list_to_set l : gset Z) ⊆ population
  ∧ Z.of_nat (size (list_to_set l : gset Z)) = k.
Proof.
  intros (Hnd & Hlen & Hin)%sample_spec. split.
  - intros x Hx. apply elem_of_list_to_set in Hx. by apply Hin.
  - by rewrite size_list_to_set.
Qed.

Lemma random_double_unit g :
  ∃ q, (random_double g).1 = Fin q ∧ (0 <= q)%Q ∧ (q < 1)%Q.
Proof.
  unfold random_double.
  pose proof (randbelow_lt (2 ^ 53)%N g ltac:(done)) as Hlt.
  destruct (randbelow (2 ^ 53) g) as [m g1]. cbn [fst] in *.
  eexists. split; [reflexivity|].
  rewrite Qred_correct. unfold Qle, Qlt. cbn [Qnum Qden].
  change (2 ^ 53)%N with 9007199254740992%N in Hlt. lia.
Qed.

Lemma random_doubles_unit n g :
  Forall (λ x, ∃ q, x = Fin q ∧ (0 <= q)%Q ∧ (q < 1)%Q) (random_doubles n g).1.
Proof.
  revert g. induction n as [|n IH]; intros g; cbn [random_doubles].
  - constructor.
  - pose proof (random_double_unit g) as Hd.
    destruct (random_double g) as [x g1]. specialize (IH g1).
    destruct (random_doubles n g1) as [xs g2]. cbn [fst] in *.
    by constructor.
Qed.

Lemma random_double_stream g : random_double g = (draw_at g 0, drop 1 g).
Proof. by destruct g. Qed.

Lemma draw_at_drop (n : nat) g i : draw_at (drop n g) i = draw_at g (n + i).
Proof. unfold draw_at, rng. by rewrite lookup_drop. Qed.

(** The doubles of a draw of [n] are the first [n] numbers of the stream,
    one each, in order. *)
Lemma random_doubles_stream n g :
  random_doubles n g = (draw_at g <$> seq 0 n, drop n g).
Proof.
  revert g. induction n as [|n IH]; intros g; cbn [random_doubles].
  - done.
  - rewrite random_double_stream, IH, drop_drop.
    cbn [seq fmap list_fmap]. f_equal. f_equal.
    rewrite <- fmap_S_seq, <- list_fmap_compose.
    apply list_fmap_ext. intros _ i _. apply (draw_at_drop 1).
Qed.

End RngFacts.

Import RngFacts.

(** Facts on arrays and sums. *)

Module SitkFacts.

Lemma elem_of_range (n z : Z) : z ∈ range n ↔ 0 ≤ z < n.
Proof.
  unfold range. rewrite list_elem_of_fmap. split.
  - intros (k & -> & Hk). apply elem_of_seq in Hk. lia.
  - intros Hz. exists (Z.to_nat z). split; [lia|]. apply elem_of_seq. lia.
Qed.

Lemma length_range (n : Z) : length (range n) = Z.to_nat n.
Proof. unfold range. by rewrite length_fmap, length_seq. Qed.

Lemma range_split (n k : Z) :
  0 ≤ k < n → ∃ rest, range n = range k ++ k :: rest.
Proof.
  intros Hk. unfold range.
  replace (Z.to_nat n) with (Z.to_nat k + S (Z.to_nat n - Z.to_nat k - 1))%nat by lia.
  rewrite seq_app, fmap_app. cbn [seq]. rewrite fmap_cons.
  replace (Z.of_nat (0 + Z.to_nat k)) with k by lia. eauto.
Qed.

Lemma elem_of_cells (n0 n1 n2 a b c : Z) :
  (a, b, c) ∈ cells (n0, n1, n2) ↔ 0 ≤ a < n0 ∧ 0 ≤ b < n1 ∧ 0 ≤ c < n2.
Proof.
  unfold cells. rewrite list_elem_of_bind. split.
  - intros (a' & H1 & Ha). apply list_elem_of_bind in H1 as (b' & H2 & Hb).
    apply list_elem_of_bind in H2 as (c' & H3 & Hc).
    apply list_elem_of_singleton in H3. injection H3 as -> -> ->.
    by rewrite <- !elem_of_range.
  - intros (Ha & Hb & Hc). exists a. rewrite elem_of_range. split; [|done].
    apply list_elem_of_bind. exists b. rewrite elem_of_range. split; [|done].
    apply list_elem_of_bind. exists c. rewrite elem_of_range. split; [|done].
    by apply list_elem_of_singleton.
Qed.

Lemma np_sum_zeros (xs : list float) :
  Forall (λ x, ∃ q, x = Fin q ∧ (q == 0)%Q) xs →
  ∀ a, (a == 0)%Q → ∃ r, foldl add (Fin a) xs = Fin r ∧ (r == 0)%Q.
Proof.
  induction 1 as [|x xs (q & -> & Hq) _ IH]; intros a Ha; cbn [foldl].
  - eauto.
  - cbn [add]. rewrite binary64_zero; [by apply IH|].
    rewrite Ha, Hq. reflexivity.
Qed.

Lemma all_zero_sum (im : Image) :
  all_zero im →
  feqb (np_sum (flatten (GetArrayFromImage im))) (Fin 0) = true.
Proof.
  intros Hz. unfold np_sum.
  destruct (np_sum_zeros (flatten (GetArrayFromImage im))) with (a := 0%Q)
    as (r & -> & Hr); [|reflexivity|by apply Qeq_bool_iff].
  unfold flatten, GetArrayFromImage.
  destruct (GetSize im) as [[ni nj] nk] eqn:Hsz. cbn [shape at_].
  apply Forall_fmap, Forall_forall. intros [[a b] c] Hin.
  apply elem_of_cells in Hin as (Ha & Hb & Hc). cbn.
  apply Hz; rewrite Hsz; cbn; lia.
Qed.

Lemma np_random_rand_spec n0 n1 n2 g arr g' :
  np_random_rand (n0, n1, n2) g = Ok (arr, g') →
  shape arr = (n0, n1, n2)
  ∧ ∀ a b c, ∃ q, at_ arr a b c = Fin q ∧ (0 <= q)%Q ∧ (q < 1)%Q.
Proof.
  unfold np_random_rand.
  destruct ((n0 <? 0) || (n1 <? 0) || (n2 <? 0)); [done|].
  pose proof (random_doubles_unit (Z.to_nat (n0 * n1 * n2)) g) as Hu.
  destruct (random_doubles _ g) as [xs g1]. cbn [fst] in Hu.
  intros [= <- <-]. split; [done|]. intros a b c. cbn [at_].
  destruct (xs !! _) as [x|] eqn:Ex; cbn [default].
  - by apply (Forall_lookup_1 _ _ _ _ Hu Ex).
  - exists 0%Q. done.
Qed.

(** The position of a cell in array order, the last axis fastest. *)
Lemma flat_index_bound a b c n0 n1 n2 :
  0 ≤ a < n0 → 0 ≤ b < n1 → 0 ≤ c < n2 →
  0 ≤ (a * n1 + b) * n2 + c < n0 * n1 * n2.
Proof.
  intros Ha Hb Hc.
  assert (0 ≤ a * n1) by (apply Z.mul_nonneg_nonneg; lia).
  assert (0 ≤ (a * n1 + b) * n2) by (apply Z.mul_nonneg_nonneg; lia).
  assert ((a + 1) * n1 ≤ n0 * n1) by (apply Z.mul_le_mono_nonneg_r; lia).
  assert ((a * n1 + b + 1) * n2 ≤ n0 * n1 * n2)
    by (apply Z.mul_le_mono_nonneg_r; lia).
  lia.
Qed.

Lemma flat_index_inj a b c a' b' c' n1 n2 :
  0 ≤ b < n1 → 0 ≤ c < n2 → 0 ≤ b' < n1 → 0 ≤ c' < n2 →
  (a * n1 + b) * n2 + c = (a' * n1 + b') * n2 + c' →
  a = a' ∧ b = b' ∧ c = c'.
Proof.
  intros Hb Hc Hb' Hc' E.
  destruct (Z.div_mod_unique n2 (a * n1 + b) (a' * n1 + b') c c')
    as [E1 ->]; [lia..|].
  destruct (Z.div_mod_unique n1 a a' b b') as [-> ->]; [lia..|]. done.
Qed.

Lemma np_random_rand_stream n0 n1 n2 g arr g' :
  np_random_rand (n0, n1, n2) g = Ok (arr, g') →
  g' = drop (Z.to_nat (n0 * n1 * n2)) g
  ∧ ∀ a b c, 0 ≤ a < n0 → 0 ≤ b < n1 → 0 ≤ c < n2 →
      at_ arr a b c = draw_at g (Z.to_nat ((a * n1 + b) * n2 + c)).
Proof.
  unfold np_random_rand.
  destruct ((n0 <? 0) || (n1 <? 0) || (n2 <? 0)); [done|].
  rewrite random_doubles_stream. intros [= <- <-]. split; [done|].
  intros a b c Ha Hb Hc. cbn [at_].
  pose proof (flat_index_bound a b c n0 n1 n2 Ha Hb Hc).
  rewrite list_lookup_fmap, lookup_seq_lt; [done|]. lia.
Qed.

End SitkFacts.

Import SitkFacts.

(** ** 4.1 Resampler *)

Module ResamplerFacts.
Import Resampler.

Section Resample.
Variable interpolate : ResampleImageFilter → Image → Z → Z → Z → float.

Local Abbreviation Execute := (Resampler.Execute interpolate).
Local Abbreviation resample_image := (Resampler.resample_image interpolate).
Local Abbreviation resample_all_images :=
  (Resampler.resample_all_images interpolate).
Local Abbreviation resampled_entry := (Resampler.resampled_entry interpolate).



(** C10.  [resample_all_images] gives the same result whether
    [some_missing] is set or not; under either flag a returned list
    matches the input entry by entry: an empty entry stays empty and an
    image is resampled with [is_label] at its default [False]. *)
Theorem resample_all_images_flag_irrelevant
    (modality : list (option Image)) (out_spacing : triple Q) :
  resample_all_images modality out_spacing true
  = resample_all_images modality out_spacing false
  ∧ ∀ b out,
      resample_all_images modality out_spacing b = Ok out →
      Forall2 (resampled_entry out_spacing) modality out.
Proof.
  split; [reflexivity|].
  intros b out Hout.
  assert (Forall2 (λ e r,
            match e with
            | Some im => im' ← resample_image im out_spacing false; Ok (Some im')
            | None => Ok None
            end = Ok r) modality out) as HF.
  { apply comprehension_Forall2. by destruct b. }
  eapply Forall2_impl; [exact HF|].
  intros [im|] r; cbn.
  - destruct (resample_image im out_spacing false) as [im'|]; cbn; [|done].
    intros [= <-]. eauto.
  - by intros [= <-].
Qed.

End Resample.

End ResamplerFacts.

(** ** 4.2 Geometric cropper *)

Module CropperFacts.
Import Cropper.

Lemma window_extent (center offset extent : Z) :
  (window center offset extent).2 - (window center offset extent).1 = extent.
Proof.
  unfold window, ceil_half; cbn.
  pose proof (Z.div_mod extent 2 ltac:(lia)).
  pose proof (Z.div_mod (extent + 1) 2 ltac:(lia)).
  pose proof (Z.mod_pos_bound extent 2 ltac:(lia)).
  pose proof (Z.mod_pos_bound (extent + 1) 2 ltac:(lia)).
  assert ((extent + 1) mod 2 = 1 - extent mod 2).
  { rewrite Z.add_mod by lia.
    destruct (Z.eq_dec (extent mod 2) 0) as [->| ]; [done|].
    replace (extent mod 2) with 1 by lia. done. }
  lia.
Qed.

Lemma slice_indices_in_bounds (n : Z) (w : Z * Z) :
  in_bounds n w → slice_indices n w.1 w.2 = w.
Proof.
  destruct w as [lo hi]. unfold in_bounds, slice_indices, slice_bound; cbn.
  intros (H0 & H1 & H2).
  destruct (Z.ltb_spec lo 0), (Z.ltb_spec hi 0); try lia.
  f_equal; lia.
Qed.

Lemma slice3_in_bounds (im : Image) (ni nj nk : Z) (wi wj wk : Z * Z) :
  GetSize im = (ni, nj, nk) →
  in_bounds ni wi → in_bounds nj wj → in_bounds nk wk →
  GetSize (slice3 im wi wj wk) = (wi.2 - wi.1, wj.2 - wj.1, wk.2 - wk.1)
  ∧ ∀ a b c,
      GetPixel (slice3 im wi wj wk) a b c
      = GetPixel im (wi.1 + a) (wj.1 + b) (wk.1 + c).
Proof.
  intros Hsz Hi Hj Hk. unfold slice3. rewrite Hsz.
  rewrite (slice_indices_in_bounds _ _ Hi), (slice_indices_in_bounds _ _ Hj),
    (slice_indices_in_bounds _ _ Hk).
  destruct wi as [i0 i1], wj as [j0 j1], wk as [k0 k1]; cbn.
  unfold in_bounds in *; cbn in *.
  split; [|done]. repeat f_equal; lia.
Qed.

(** C3.  When every image has a centre and the three windows around it
    lie inside the image, [crop_from_center] returns one crop per image;
    the crop of an image has size [(width, height, depth)] and its voxel
    [(a, b, c)] is the voxel of the image at
    [(center_i - i_offset - width//2 + a, center_j - j_offset - height//2 + b,
      center_k - depth//2 + c)], so the crop is the sub-volume on
    [[center_i - i_offset - width//2, center_i - i_offset + ceil(width/2))]
    and the analogous ranges of [j] and [k].  The function has no other
    result: its arguments are values it only reads. *)
Theorem crop_from_center_in_bounds (images : list Image)
    (ijk : list (triple Z)) (width height depth i_offset j_offset : Z) :
  (length images ≤ length ijk)%nat →
  (∀ n im ci cj ck,
     images !! n = Some im → ijk !! n = Some (ci, cj, ck) →
     in_bounds (GetSize im).1.1 (window ci i_offset width)
     ∧ in_bounds (GetSize im).1.2 (window cj j_offset height)
     ∧ in_bounds (GetSize im).2 (window ck 0 depth)) →
  ∃ crop,
    crop_from_center images ijk width height depth i_offset j_offset = Ok crop
    ∧ length crop = length images
    ∧ ∀ n im ci cj ck,
        images !! n = Some im → ijk !! n = Some (ci, cj, ck) →
        ∃ out,
          crop !! n = Some out
          ∧ GetSize out = (width, height, depth)
          ∧ (window ci i_offset width).2
            = ci - i_offset - width / 2 + width
          ∧ ∀ a b c,
              GetPixel out a b c
              = GetPixel im (ci - i_offset - width / 2 + a)
                  (cj - j_offset - height / 2 + b)
                  (ck - depth / 2 + c).
Proof.
  intros Hlen Hin. unfold crop_from_center.
  set (f := λ '(idx, image), _).
  destruct (comprehension_total f (enumerate images)) as [crop Hcrop].
  { intros [idx im] Hx. apply list_elem_of_lookup in Hx as [n Hn].
    unfold enumerate in Hn. rewrite list_lookup_imap in Hn.
    destruct (images !! n) as [im'|] eqn:Him; [|done].
    injection Hn as <- <-.
    destruct (lookup_lt_is_Some_2 ijk n) as [[[ci cj] ck] Hc].
    { apply lookup_lt_Some in Him. lia. }
    cbn. rewrite (index_Ok _ _ _ Hc). cbn. eauto. }
  exists crop. split; [done|].
  apply comprehension_Forall2 in Hcrop.
  pose proof (Forall2_length _ _ _ Hcrop) as Hl.
  unfold enumerate in Hl. rewrite length_imap in Hl.
  split; [done|].
  intros n im ci cj ck Him Hc.
  destruct (lookup_lt_is_Some_2 crop n) as [out Hout].
  { apply lookup_lt_Some in Him. lia. }
  exists out. split; [done|].
  assert (f (Z.of_nat n, im) = Ok out) as Hf.
  { eapply (Forall2_lookup_lr (λ x y, f x = Ok y) _ _ n); [exact Hcrop| |exact Hout].
    unfold enumerate. by rewrite list_lookup_imap, Him. }
  unfold f in Hf. rewrite (index_Ok _ _ _ Hc) in Hf. cbn in Hf.
  injection Hf as <-.
  destruct (Hin n im ci cj ck Him Hc) as (Bi & Bj & Bk).
  destruct (GetSize im) as [[ni nj] nk] eqn:Hsz; cbn in Bi, Bj, Bk.
  destruct (slice3_in_bounds im ni nj nk _ _ _ Hsz Bi Bj Bk) as [Hs Hp].
  rewrite Hs, !window_extent. split; [done|].
  split.
  { pose proof (window_extent ci i_offset width) as E.
    unfold window in *; cbn in *. lia. }
  intros a b c. rewrite Hp. unfold window; cbn.
  f_equal; lia.
Qed.

Section Rotation.
Variable rotation3d : Image → Z → list float → Image.

(** C4.  [rotated_crop] takes one member of [degrees], rotates every
    input image by that one angle about [lps] with [rotation3d], takes two
    offsets, each an integer of [[-7, 7)], and returns what
    [crop_from_center] gives on the rotated images with the voxel centres
    it was handed, which are the centres computed before the rotation.
    The three choices are read from three successive draws: every member
    of [degrees] and every pair of offsets in the range is the outcome of
    some generator state. *)
Theorem rotated_crop_draws (patient_images : list Image)
    (crop_width crop_height crop_depth : Z) (degrees : list Z)
    (lps : list float) (ijk_values : list (triple Z)) :
  degrees ≠ [] →
  (∀ g, ∃ degree i_offset j_offset g',
     degree ∈ degrees
     ∧ -7 ≤ i_offset < 7 ∧ -7 ≤ j_offset < 7
     ∧ rotated_crop rotation3d patient_images crop_width crop_height
         crop_depth degrees lps ijk_values g
       = (crop ← crop_from_center
                   ((λ patient, rotation3d patient degree lps)
                      <$> patient_images)
                   ijk_values crop_width crop_height crop_depth
                   i_offset j_offset;
          Ok (crop, g')))
  ∧ (∀ n degree i_offset j_offset g',
       degrees !! n = Some degree →
       -7 ≤ i_offset < 7 → -7 ≤ j_offset < 7 →
       rotated_crop rotation3d patient_images crop_width crop_height
         crop_depth degrees lps ijk_values
         (N.of_nat n :: Z.to_N (i_offset + 7) :: Z.to_N (j_offset + 7) :: g')
       = (crop ← crop_from_center
                   ((λ patient, rotation3d patient degree lps)
                      <$> patient_images)
                   ijk_values crop_width crop_height crop_depth
                   i_offset j_offset;
          Ok (crop, g'))).
Proof.
  intros Hne. split.
  - intros g. unfold rotated_crop.
    destruct (choice_elem degrees g Hne) as (n & degree & Hn & ->).
    set (g1 := (randbelow _ g).2).
    destruct (randint_range (-7) 7 g1 ltac:(lia)) as (i & Hi & Ei).
    set (g2 := (randbelow _ g1).2) in *.
    destruct (randint_range (-7) 7 g2 ltac:(lia)) as (j & Hj & Ej).
    exists degree, i, j, (randbelow (Z.to_N (7 - -7)) g2).2.
    split; [by eapply list_elem_of_lookup_2|].
    split; [done|]. split; [done|].
    cbn [mbind result_bind Py.bind]. rewrite Ei.
    cbn [mbind result_bind Py.bind]. rewrite Ej.
    cbn [mbind result_bind Py.bind]. done.
  - intros n degree i j g' Hn Hi Hj. unfold rotated_crop, choice.
    pose proof (lookup_lt_Some _ _ _ Hn) as Hlt.
    cbn [randbelow].
    rewrite N.mod_small by lia. rewrite Nat2N.id, Hn. cbn [mbind result_bind Py.bind].
    unfold randint. cbn [Z.leb Z.compare randbelow mbind result_bind Py.bind].
    change (Z.to_N (7 - -7)) with 14%N.
    rewrite !N.mod_small by lia.
    rewrite !Z2N.id by lia.
    replace (-7 + (i + 7)) with i by lia.
    replace (-7 + (j + 7)) with j by lia.
    done.
Qed.

End Rotation.

End CropperFacts.

(** ** 4.3 Patch dataset builder *)

Module BuilderFacts.
Import Cropper Builder.

Section Library.
Variable py_int_of_str : string → result Z.
Variable py_float_of_str : string → result float.
Variable padding_Execute : Image → Image.
Variable TransformPhysicalPointToIndex : Image → list float → result (triple Z).
Variable rotation3d : Image → Z → list float → Image.

Local Abbreviation make_crop := (Builder.make_crop rotation3d).
Local Abbreviation crop_round := (Builder.crop_round rotation3d).
Local Abbreviation modality_volumes := (Builder.modality_volumes py_int_of_str).
Local Abbreviation parse_lps := (Builder.parse_lps py_float_of_str).
Local Abbreviation finding_inputs :=
  (Builder.finding_inputs py_int_of_str py_float_of_str padding_Execute
     TransformPhysicalPointToIndex).
Local Abbreviation finding_round :=
  (Builder.finding_round py_int_of_str py_float_of_str padding_Execute
     TransformPhysicalPointToIndex rotation3d).
Local Abbreviation findings_loop :=
  (Builder.findings_loop py_int_of_str py_float_of_str padding_Execute
     TransformPhysicalPointToIndex rotation3d).
Local Abbreviation image_cropper :=
  (Builder.image_cropper py_int_of_str py_float_of_str padding_Execute
     TransformPhysicalPointToIndex rotation3d).
Local Abbreviation processed :=
  (Builder.processed py_int_of_str py_float_of_str padding_Execute
     TransformPhysicalPointToIndex).
Local Abbreviation findings_of :=
  (Builder.findings_of py_int_of_str py_float_of_str padding_Execute
     TransformPhysicalPointToIndex).

(** *** Invalid findings in train mode *)

Lemma crop_round_invalid_mono train pid mk imgs lps ijk w h d k st st' :
  crop_round train pid mk imgs lps ijk w h d k st = Ok st' →
  invalid_keys st ⊆ invalid_keys st'.
Proof.
  unfold crop_round. intros H.
  apply bind_Ok in H as ([crop g1] & _ & H).
  destruct train.
  - apply bind_Ok in H as (marker & _ & H).
    case_bool_decide.
    + injection H as <-. cbn. set_solver.
    + apply bind_Ok in H as (first & _ & H). injection H as <-. cbn.
      destruct (zero_sum first); set_solver.
  - apply bind_Ok in H as (third & _ & H).
    apply bind_Ok in H as (first & _ & H).
    apply bind_Ok in H as ([crop' g2] & _ & H).
    by injection H as <-.
Qed.

Lemma rounds_invalid_mono train pid mk imgs lps ijk w h d nums st st' :
  for_each (crop_round train pid mk imgs lps ijk w h d) nums st = Ok st' →
  invalid_keys st ⊆ invalid_keys st'.
Proof.
  apply (for_each_invariant _ (λ a b, invalid_keys a ⊆ invalid_keys b)).
  - done.
  - set_solver.
  - intros ???. apply crop_round_invalid_mono.
Qed.

Lemma finding_round_invalid_mono train resampled w h d n patient st st' :
  finding_round train resampled w h d n patient st = Ok st' →
  invalid_keys st ⊆ invalid_keys st'.
Proof.
  unfold finding_round. intros H.
  apply bind_Ok in H as (inputs & _ & H).
  destruct inputs as [[[[mk imgs] lps] ijk]|]; [|by injection H as <-].
  by apply rounds_invalid_mono in H.
Qed.

Lemma findings_loop_invalid_mono train resampled w h d n df st st' :
  findings_loop train resampled w h d n df st = Ok st' →
  invalid_keys st ⊆ invalid_keys st'.
Proof.
  apply (for_each_invariant _ (λ a b, invalid_keys a ⊆ invalid_keys b)).
  - done.
  - set_solver.
  - intros ???. apply finding_round_invalid_mono.
Qed.

Lemma crop_round_marks pid marker imgs lps ijk w h d k st st' crop g1 :
  make_crop imgs lps ijk w h d k (gen st) = Ok (crop, g1) →
  bad_crop w h d crop →
  crop_round true pid (Some marker) imgs lps ijk w h d k st = Ok st' →
  train_key pid marker ∈ invalid_keys st'.
Proof.
  intros Hmk Hbad. unfold crop_round. rewrite Hmk.
  cbn [mbind result_bind Py.bind Py.of_option].
  case_bool_decide as Hsz.
  - intros [= <-]. cbn. set_solver.
  - destruct Hbad as [(im & Him & Hne)|(first & Hfirst & Hzero)].
    + exfalso. apply fmap_nil_inv in Hsz.
      assert (im ∈ filter (λ im, GetSize im ≠ (w, h, d)) crop) as Hin
        by (by apply list_elem_of_filter).
      rewrite Hsz in Hin. by apply not_elem_of_nil in Hin.
    + change 0 with (Z.of_nat 0). rewrite (index_Ok crop 0 first Hfirst).
      cbn [mbind result_bind Py.bind].
      unfold zero_sum. rewrite (all_zero_sum _ Hzero).
      intros [= <-]. cbn. set_solver.
Qed.

Lemma pops_remove (l : list string) (c out : gmap string (list entry)) :
  for_each pop_key l c = Ok out →
  ∀ key, key ∈ l ∨ c !! key = None → out !! key = None.
Proof.
  revert c. induction l as [|k l IH]; intros c H key Hkey; cbn in H.
  - injection H as <-. destruct Hkey as [Hin|]; [|done].
    by apply not_elem_of_nil in Hin.
  - unfold pop_key in H at 1. destruct (c !! k) eqn:Hk; [|done]. cbn in H.
    apply (IH _ H). destruct (decide (key = k)) as [->|Hne].
    + right. apply lookup_delete_eq.
    + destruct Hkey as [Hin|Hnone].
      * left. apply elem_of_cons in Hin as [|]; done.
      * right. by rewrite lookup_delete_ne.
Qed.

(** Train mode, for a run of [image_cropper] that returns a dictionary.
    Take a finding of the table that is not skipped and one of its crop
    rounds; if the crop made in that round has a patch whose size is not
    [(crop_width, crop_height, crop_depth)], or a first patch that is all
    zero, then the key of the finding is in [invalid_keys] when the loops
    end, and the returned dictionary has no entry under that key.  A run
    need not return: see [train_pop_of_absent_key]. *)
Theorem train_bad_crop_excluded
    (df_pre df_post : list finding) (patient : finding)
    (resampled : triple (list (option Image)))
    (w h d n k marker : Z) (g g' : rng)
    (imgs : list Image) (lps : list float) (ijk : list (triple Z))
    (st1 st2 : state) (crop : list Image) (g1 : rng)
    (out : gmap string (list entry)) :
  findings_loop true resampled w h d n df_pre
    {| crops := ∅; invalid_keys := ∅; gen := g |} = Ok st1 →
  finding_inputs true resampled patient
    = Ok (Some (Some marker, imgs, lps, ijk)) →
  0 ≤ k < n →
  for_each
    (crop_round true (patient_id patient) (Some marker) imgs lps ijk w h d)
    (range k) st1 = Ok st2 →
  make_crop imgs lps ijk w h d k (gen st2) = Ok (crop, g1) →
  bad_crop w h d crop →
  image_cropper (df_pre ++ patient :: df_post) resampled w h d n true g
    = Ok (out, g') →
  (∃ st_end,
     findings_loop true resampled w h d n (df_pre ++ patient :: df_post)
       {| crops := ∅; invalid_keys := ∅; gen := g |} = Ok st_end
     ∧ train_key (patient_id patient) marker ∈ invalid_keys st_end)
  ∧ out !! train_key (patient_id patient) marker = None.
Proof.
  intros Hpre Hin Hk Hrounds Hmk Hbad Hrun.
  unfold image_cropper in Hrun.
  destruct (n <? 1); [done|].
  apply bind_Ok in Hrun as (st_end & Hloop & Hrun).
  apply bind_Ok in Hrun as (crops' & Hpops & Hrun).
  injection Hrun as <- <-.
  assert (train_key (patient_id patient) marker ∈ invalid_keys st_end) as Hkey.
  { unfold findings_loop in Hloop, Hpre.
    rewrite for_each_app, Hpre in Hloop.
    cbn [mbind result_bind Py.bind for_each] in Hloop.
    change (Py.bind ?m ?f) with (m ≫= f) in Hloop.
    apply bind_Ok in Hloop as (st3 & Hround & Hpost).
    apply (findings_loop_invalid_mono true resampled w h d n df_post st3 st_end Hpost).
    unfold finding_round in Hround. rewrite Hin in Hround.
    cbn [mbind result_bind Py.bind] in Hround.
    destruct (range_split n k Hk) as [rest Hsplit].
    rewrite Hsplit, for_each_app, Hrounds in Hround.
    cbn [mbind result_bind Py.bind for_each] in Hround.
    change (Py.bind ?m ?f) with (m ≫= f) in Hround.
    apply bind_Ok in Hround as (st4 & Hstep & Hrest).
    pose proof (crop_round_marks _ _ _ _ _ _ _ _ _ _ _ _ _ Hmk Hbad Hstep) as Hmark.
    by apply (rounds_invalid_mono _ _ _ _ _ _ _ _ _ _ _ _ Hrest). }
  split; [eauto|].
  apply (pops_remove _ _ _ Hpops). left. by apply elem_of_elements.
Qed.

(** *** All-zero crops in test mode *)

Lemma entries_add_crop_eq key e c :
  entries (add_crop key e c) key = entries c key ++ [e].
Proof.
  unfold entries, add_crop.
  destruct (c !! key) eqn:E; by rewrite lookup_insert_eq.
Qed.

Lemma entries_add_crop_ne key key' e c :
  key ≠ key' → entries (add_crop key e c) key' = entries c key'.
Proof.
  intros Hne. unfold entries, add_crop.
  destruct (c !! key) eqn:E; by rewrite lookup_insert_ne.
Qed.

Lemma lookup_add_crop key e c :
  add_crop key e c !! key = Some (entries c key ++ [e]).
Proof.
  unfold entries, add_crop.
  destruct (c !! key) eqn:E; by rewrite lookup_insert_eq.
Qed.

Lemma dom_add_crop key e c : dom (add_crop key e c) = {[key]} ∪ dom c.
Proof. unfold add_crop. destruct (c !! key); by rewrite dom_insert_L. Qed.

Lemma noise_crop_spec w h d g noise g' :
  noise_crop w h d g = Ok (noise, g') →
  length noise = 3%nat ∧ Forall (noise_patch w h d) noise.
Proof.
  unfold noise_crop. intros H.
  apply bind_Ok in H as ([a0 g1] & H0 & H).
  apply bind_Ok in H as ([a1 g2] & H1 & H).
  apply bind_Ok in H as ([a2 g3] & H2 & H).
  injection H as <- <-. split; [done|].
  apply np_random_rand_spec in H0 as [S0 U0], H1 as [S1 U1], H2 as [S2 U2].
  repeat constructor; unfold GetImageFromArray;
    rewrite ?S0, ?S1, ?S2; cbn; auto.
Qed.

(** The three arrays of a noise crop are three successive draws, and
    each voxel is the double of its own number of the stream. *)
Lemma noise_crop_stream w h d g noise g' :
  noise_crop w h d g = Ok (noise, g') →
  ∃ a0 a1 a2 ga gb,
    np_random_rand (d, h, w) g = Ok (a0, ga)
    ∧ np_random_rand (d, h, w) ga = Ok (a1, gb)
    ∧ np_random_rand (d, h, w) gb = Ok (a2, g')
    ∧ noise = [GetImageFromArray a0; GetImageFromArray a1;
               GetImageFromArray a2]
    ∧ g' = drop (3 * Z.to_nat (d * h * w)) g
    ∧ ∀ (m : nat) patch i j k,
        noise !! m = Some patch →
        0 ≤ i < w → 0 ≤ j < h → 0 ≤ k < d →
        GetPixel patch i j k = draw_at g (noise_position w h d m i j k).
Proof.
  unfold noise_crop. intros H.
  apply bind_Ok in H as ([a0 ga] & H0 & H).
  apply bind_Ok in H as ([a1 gb] & H1 & H).
  apply bind_Ok in H as ([a2 g3] & H2 & H).
  injection H as <- <-. exists a0, a1, a2, ga, gb.
  split; [done|]. split; [done|]. split; [done|]. split; [done|].
  pose proof (np_random_rand_spec _ _ _ _ _ _ H0) as [S0 _].
  pose proof (np_random_rand_spec _ _ _ _ _ _ H1) as [S1 _].
  pose proof (np_random_rand_spec _ _ _ _ _ _ H2) as [S2 _].
  apply np_random_rand_stream in H0 as [-> C0].
  apply np_random_rand_stream in H1 as [-> C1].
  apply np_random_rand_stream in H2 as [-> C2].
  split; [rewrite !drop_drop; f_equal; lia|].
  intros m patch i j k Hm Hi Hj Hk. unfold noise_position.
  destruct m as [|[|[|m]]]; [..|done]; injection Hm as <-;
    unfold GetImageFromArray; rewrite ?S0, ?S1, ?S2; cbn [GetPixel].
  - rewrite C0 by done. f_equal.
  - rewrite C1 by done. rewrite draw_at_drop. f_equal. lia.
  - rewrite C2 by done. rewrite !draw_at_drop. f_equal. lia.
Qed.

(** No two voxels of a noise crop read the same number of the stream. *)
Lemma noise_position_inj w h d (m m' : nat) i j k i' j' k' :
  0 ≤ i < w → 0 ≤ j < h → 0 ≤ k < d →
  0 ≤ i' < w → 0 ≤ j' < h → 0 ≤ k' < d →
  noise_position w h d m i j k = noise_position w h d m' i' j' k' →
  m = m' ∧ i = i' ∧ j = j' ∧ k = k'.
Proof.
  intros Hi Hj Hk Hi' Hj' Hk'. unfold noise_position. intros E.
  pose proof (flat_index_bound k j i d h w Hk Hj Hi) as HF.
  pose proof (flat_index_bound k' j' i' d h w Hk' Hj' Hi') as HF'.
  destruct (Z.div_mod_unique (d * h * w) (Z.of_nat m) (Z.of_nat m')
              ((k * h + j) * w + i) ((k' * h + j') * w + i'))
    as [Em EF]; [lia..|].
  apply flat_index_inj in EF as (-> & -> & ->); [|lia..].
  split; [lia|done].
Qed.

Lemma crop_round_test pid mk imgs lps ijk w h d k st st' :
  crop_round false pid mk imgs lps ijk w h d k st = Ok st' →
  invalid_keys st' = invalid_keys st
  ∧ ∃ crop', crops st' = add_crop pid (crop', None) (crops st).
Proof.
  unfold crop_round. intros H.
  apply bind_Ok in H as ([crop g1] & _ & H).
  apply bind_Ok in H as (third & _ & H).
  apply bind_Ok in H as (first & _ & H).
  apply bind_Ok in H as ([crop' g2] & _ & H).
  injection H as <-. cbn. eauto.
Qed.

Lemma crop_round_test_zero pid mk imgs lps ijk w h d k st st' crop g1 first :
  make_crop imgs lps ijk w h d k (gen st) = Ok (crop, g1) →
  crop !! 0%nat = Some first → all_zero first →
  crop_round false pid mk imgs lps ijk w h d k st = Ok st' →
  ∃ noise g2,
    noise_crop w h d g1 = Ok (noise, g2)
    ∧ crops st' = add_crop pid (noise, None) (crops st)
    ∧ gen st' = g2.
Proof.
  intros Hmk Hfirst Hzero. unfold crop_round. rewrite Hmk.
  cbn [mbind result_bind Py.bind]. intros H.
  change (Py.bind ?m ?f) with (m ≫= f) in H.
  apply bind_Ok in H as (third & _ & H).
  change 0 with (Z.of_nat 0) in H. rewrite (index_Ok crop 0 first Hfirst) in H.
  cbn [mbind result_bind Py.bind] in H.
  unfold zero_sum in H. rewrite (all_zero_sum _ Hzero) in H.
  change (Py.bind ?m ?f) with (m ≫= f) in H.
  apply bind_Ok in H as ([noise g2] & Hn & H).
  injection H as <-. cbn. eauto.
Qed.

Lemma extends_by_refl st : extends_by (λ _, 0%nat) st st.
Proof.
  split; [done|]. intros pid. exists []. by rewrite app_nil_r.
Qed.

Lemma extends_by_trans c1 c2 a b c :
  extends_by c1 a b → extends_by c2 b c →
  extends_by (λ pid, (c1 pid + c2 pid)%nat) a c.
Proof.
  intros [I1 E1] [I2 E2]. split; [congruence|]. intros pid.
  destruct (E1 pid) as (es1 & H1 & L1 & F1).
  destruct (E2 pid) as (es2 & H2 & L2 & F2).
  exists (es1 ++ es2). rewrite H2, H1, app_assoc, length_app, Forall_app. auto.
Qed.

Lemma extends_by_ext c1 c2 a b :
  (∀ pid, c1 pid = c2 pid) → extends_by c1 a b → extends_by c2 a b.
Proof.
  intros Hc [I E]. split; [done|]. intros pid. rewrite <- Hc. apply E.
Qed.

Lemma rounds_test pid mk imgs lps ijk w h d nums st st' :
  for_each (crop_round false pid mk imgs lps ijk w h d) nums st = Ok st' →
  extends_by (λ key, if decide (key = pid) then length nums else 0%nat) st st'.
Proof.
  revert st. induction nums as [|k nums IH]; intros st H; cbn in H.
  - injection H as <-. eapply extends_by_ext; [|apply extends_by_refl].
    intros key. by destruct (decide _).
  - change (Py.bind ?m ?f) with (m ≫= f) in H.
    apply bind_Ok in H as (st1 & Hstep & Hrest).
    apply crop_round_test in Hstep as (Hinv & crop' & Hc).
    eapply extends_by_ext; [|eapply extends_by_trans; [|apply (IH _ Hrest)]].
    2:{ split; [exact Hinv|]. intros key. rewrite Hc.
        instantiate (1 := λ key, if decide (key = pid) then 1%nat else 0%nat).
        cbn beta. destruct (decide (key = pid)) as [->|Hne].
        - exists [(crop', None)]. rewrite entries_add_crop_eq.
          repeat split; auto.
        - exists []. rewrite entries_add_crop_ne, app_nil_r by done.
          repeat split; auto. }
    intros key. cbn beta. by destruct (decide _).
Qed.

Lemma finding_round_test resampled w h d n patient st st' :
  finding_round false resampled w h d n patient st = Ok st' →
  extends_by
    (λ key, Z.to_nat n * length (findings_of resampled [patient] key))%nat
    st st'.
Proof.
  unfold finding_round, findings_of. intros H.
  apply bind_Ok in H as (inputs & Hin & H).
  destruct inputs as [[[[mk imgs] lps] ijk]|].
  - assert (processed resampled patient = true) as Hp
      by (unfold processed; by rewrite Hin).
    apply rounds_test in H. eapply extends_by_ext; [|exact H].
    intros key. cbn beta. rewrite length_range.
    rewrite filter_cons, filter_nil.
    destruct (decide (key = patient_id patient)) as [->|Hne].
    + rewrite decide_True by done. cbn. lia.
    + rewrite decide_False by (intros [? _]; congruence). cbn. lia.
  - assert (processed resampled patient = false) as Hp
      by (unfold processed; by rewrite Hin).
    injection H as <-. eapply extends_by_ext; [|apply extends_by_refl].
    intros key. cbn beta. rewrite filter_cons, filter_nil.
    rewrite decide_False by (intros [_ ?]; congruence). cbn. lia.
Qed.

Lemma findings_loop_test resampled w h d n df st st' :
  findings_loop false resampled w h d n df st = Ok st' →
  extends_by
    (λ key, Z.to_nat n * length (findings_of resampled df key))%nat st st'.
Proof.
  unfold findings_loop. revert st.
  induction df as [|f df IH]; intros st H; cbn in H.
  - injection H as <-. eapply extends_by_ext; [|apply extends_by_refl].
    intros key. cbn. lia.
  - change (Py.bind ?m ?g) with (m ≫= g) in H.
    apply bind_Ok in H as (st1 & Hstep & Hrest).
    apply finding_round_test in Hstep. apply IH in Hrest.
    eapply extends_by_ext; [|eapply extends_by_trans; eassumption].
    intros key. cbn beta. unfold findings_of.
    rewrite (filter_cons _ f df), !filter_cons, !filter_nil.
    destruct (decide _); cbn [length]; lia.
Qed.

Lemma rounds_dom train pid mk imgs lps ijk w h d nums st st' :
  for_each (crop_round train pid mk imgs lps ijk w h d) nums st = Ok st' →
  dom (crops st') ⊆ {[match mk with
                       | Some m => if train then train_key pid m else pid
                       | None => pid
                       end]} ∪ dom (crops st).
Proof.
  revert st. induction nums as [|k nums IH]; intros st H; cbn in H.
  - injection H as <-. set_solver.
  - change (Py.bind ?m ?g) with (m ≫= g) in H.
    apply bind_Ok in H as (st1 & Hstep & Hrest).
    apply IH in Hrest. etrans; [exact Hrest|].
    apply union_least; [set_solver|].
    clear Hrest IH. unfold crop_round in Hstep.
    apply bind_Ok in Hstep as ([crop g1] & _ & H).
    destruct train.
    + apply bind_Ok in H as (marker & Hm & H).
      destruct mk as [m|]; [|done]. injection Hm as ->.
      case_bool_decide.
      * injection H as <-. cbn. set_solver.
      * apply bind_Ok in H as (first & _ & H). injection H as <-. cbn.
        rewrite dom_add_crop. set_solver.
    + apply bind_Ok in H as (third & _ & H).
      apply bind_Ok in H as (first & _ & H).
      apply bind_Ok in H as ([crop' g2] & _ & H).
      injection H as <-. cbn. rewrite dom_add_crop.
      destruct mk; set_solver.
Qed.

Lemma read_marker_test patient mk :
  read_marker false patient = Ok mk → mk = None.
Proof. by intros [= <-]. Qed.

Lemma finding_inputs_test resampled patient mk imgs lps ijk :
  finding_inputs false resampled patient = Ok (Some (mk, imgs, lps, ijk)) →
  mk = None.
Proof.
  unfold finding_inputs. intros H.
  apply bind_Ok in H as (vols & _ & H).
  apply bind_Ok in H as (mk' & Hm & H). apply read_marker_test in Hm as ->.
  destruct (existsb is_blank vols); [done|].
  apply bind_Ok in H as (lps' & _ & H).
  apply bind_Ok in H as (ijk' & _ & H).
  by injection H as <- _ _ _.
Qed.

Lemma findings_loop_test_dom resampled w h d n df st st' :
  findings_loop false resampled w h d n df st = Ok st' →
  ∀ key, key ∈ dom (crops st') →
         key ∈ dom (crops st) ∨ ∃ f, f ∈ df ∧ patient_id f = key.
Proof.
  unfold findings_loop. revert st.
  induction df as [|f df IH]; intros st H key Hkey; cbn in H.
  - injection H as <-. by left.
  - change (Py.bind ?m ?g) with (m ≫= g) in H.
    apply bind_Ok in H as (st1 & Hstep & Hrest).
    destruct (IH _ Hrest key Hkey) as [Hin|(f' & Hf' & <-)].
    + unfold finding_round in Hstep.
      apply bind_Ok in Hstep as (inputs & Hin' & Hstep).
      destruct inputs as [[[[mk imgs] lps] ijk]|].
      * apply finding_inputs_test in Hin' as ->.
        apply rounds_dom in Hstep.
        apply Hstep in Hin. apply elem_of_union in Hin as [Hin|Hin].
        -- apply elem_of_singleton in Hin as ->. right. exists f.
           split; [left|done].
        -- by left.
      * injection Hstep as <-. by left.
    + right. exists f'. split; [by right|done].
Qed.

Lemma entries_lookup (c : gmap string (list entry)) key l e l' :
  entries c key = l ++ e :: l' → c !! key = Some (l ++ e :: l').
Proof.
  unfold entries. destruct (c !! key); cbn; [congruence|].
  intros H. by destruct l.
Qed.

(** C7.  Test mode.  Take a run of [image_cropper] that returns a
    dictionary, a finding that is not skipped, and one of its crop rounds
    whose crop has an all-zero first patch.  The round stores, under the
    bare patient id, three patches made of three successive
    [np.random.rand] draws of the shape [(crop_depth, crop_height,
    crop_width)]: each patch has the size [(crop_width, crop_height,
    crop_depth)] and values in [[0, 1)], every voxel of every patch is
    the double of a number of the stream of its own, no two voxels reading
    the same number, and the generator moves on by three times the number
    of voxels of a patch.  The noise is in the returned dictionary at the
    position of that round.  Nothing is excluded: under every id the
    dictionary holds [num_crops_per_image] crops for each finding of that
    id that was not skipped; no entry carries a marker, and every key is
    the patient id of a row. *)
Theorem test_zero_crop_replaced
    (df_pre df_post : list finding) (patient : finding)
    (resampled : triple (list (option Image)))
    (w h d n k : Z) (g g' : rng) (mk : option Z)
    (imgs : list Image) (lps : list float) (ijk : list (triple Z))
    (st1 st2 : state) (crop : list Image) (g1 : rng) (first : Image)
    (out : gmap string (list entry)) :
  findings_loop false resampled w h d n df_pre
    {| crops := ∅; invalid_keys := ∅; gen := g |} = Ok st1 →
  finding_inputs false resampled patient = Ok (Some (mk, imgs, lps, ijk)) →
  0 ≤ k < n →
  for_each
    (crop_round false (patient_id patient) mk imgs lps ijk w h d)
    (range k) st1 = Ok st2 →
  make_crop imgs lps ijk w h d k (gen st2) = Ok (crop, g1) →
  crop !! 0%nat = Some first → all_zero first →
  image_cropper (df_pre ++ patient :: df_post) resampled w h d n false g
    = Ok (out, g') →
  ∃ a0 a1 a2 ga gb g2 noise after,
    np_random_rand (d, h, w) g1 = Ok (a0, ga)
    ∧ np_random_rand (d, h, w) ga = Ok (a1, gb)
    ∧ np_random_rand (d, h, w) gb = Ok (a2, g2)
    ∧ noise = [GetImageFromArray a0; GetImageFromArray a1;
               GetImageFromArray a2]
    ∧ g2 = drop (3 * Z.to_nat (d * h * w)) g1
    ∧ Forall (noise_patch w h d) noise
    ∧ (∀ (m : nat) patch i j k,
         noise !! m = Some patch →
         0 ≤ i < w → 0 ≤ j < h → 0 ≤ k < d →
         GetPixel patch i j k = draw_at g1 (noise_position w h d m i j k))
    ∧ (∀ (m m' : nat) i j k i' j' k',
         0 ≤ i < w → 0 ≤ j < h → 0 ≤ k < d →
         0 ≤ i' < w → 0 ≤ j' < h → 0 ≤ k' < d →
         noise_position w h d m i j k = noise_position w h d m' i' j' k' →
         m = m' ∧ i = i' ∧ j = j' ∧ k = k')
    ∧ out !! patient_id patient
      = Some (entries (crops st2) (patient_id patient)
                ++ (noise, None) :: after)
    ∧ (∀ pid,
         length (entries out pid)
         = (Z.to_nat n
            * length (findings_of resampled
                        (df_pre ++ patient :: df_post) pid))%nat)
    ∧ (∀ pid e, e ∈ entries out pid → e.2 = None)
    ∧ (∀ key, key ∈ dom out →
              ∃ f, f ∈ df_pre ++ patient :: df_post ∧ patient_id f = key).
Proof.
  intros Hpre Hin Hk Hrounds Hmk Hfirst Hzero Hrun.
  unfold image_cropper in Hrun.
  destruct (n <? 1); [done|].
  apply bind_Ok in Hrun as (st_end & Hloop & Hrun).
  apply bind_Ok in Hrun as (crops' & Hpops & Hrun).
  injection Hrun as <- <-.
  pose proof (findings_loop_test _ _ _ _ _ _ _ _ Hloop) as [Hinv Hall].
  cbn [invalid_keys crops] in Hinv, Hall.
  rewrite Hinv, elements_empty in Hpops. cbn in Hpops.
  injection Hpops as <-.
  pose proof (findings_loop_test_dom _ _ _ _ _ _ _ _ Hloop) as Hdom.
  unfold findings_loop in Hloop, Hpre.
  rewrite for_each_app, Hpre in Hloop.
  cbn [mbind result_bind Py.bind for_each] in Hloop.
  change (Py.bind ?m ?f) with (m ≫= f) in Hloop.
  apply bind_Ok in Hloop as (st3 & Hround & Hpost).
  apply (findings_loop_test resampled w h d n df_post) in Hpost as [_ Hpost].
  unfold finding_round in Hround. rewrite Hin in Hround.
  cbn [mbind result_bind Py.bind] in Hround.
  destruct (range_split n k Hk) as [rest Hsplit].
  rewrite Hsplit, for_each_app, Hrounds in Hround.
  cbn [mbind result_bind Py.bind for_each] in Hround.
  change (Py.bind ?m ?f) with (m ≫= f) in Hround.
  apply bind_Ok in Hround as (st4 & Hstep & Hrest).
  apply rounds_test in Hrest as [_ Hrest].
  destruct (crop_round_test_zero _ _ _ _ _ _ _ _ _ _ _ _ _ _ Hmk Hfirst Hzero Hstep)
    as (noise & g2 & Hnoise & Hc4 & _).
  destruct (noise_crop_spec _ _ _ _ _ _ Hnoise) as [Hlen Hpatches].
  destruct (Hrest (patient_id patient)) as (es1 & E1 & _ & _).
  destruct (Hpost (patient_id patient)) as (es2 & E2 & _ & _).
  destruct (noise_crop_stream _ _ _ _ _ _ Hnoise)
    as (a0 & a1 & a2 & ga & gb & H0 & H1 & H2 & Hparts & Hgen & Hcells).
  exists a0, a1, a2, ga, gb, g2, noise, (es1 ++ es2).
  split; [done|]. split; [done|]. split; [done|]. split; [done|].
  split; [done|]. split; [done|]. split; [done|].
  split; [apply noise_position_inj|].
  split.
  { apply entries_lookup.
    rewrite E2, E1, Hc4, entries_add_crop_eq.
    by rewrite <- !app_assoc. }
  split.
  { intros pid. destruct (Hall pid) as (es & E & L & _).
    rewrite E. unfold entries at 1. rewrite lookup_empty. cbn. done. }
  split.
  { intros pid e He. destruct (Hall pid) as (es & E & _ & F).
    rewrite E in He. unfold entries at 1 in He. rewrite lookup_empty in He.
    cbn in He. by apply (proj1 (Forall_forall _ _) F). }
  intros key Hkey. destruct (Hdom key Hkey) as [Hempty|]; [|done].
  cbn in Hempty. by rewrite dom_empty_L in Hempty.
Qed.

End Library.

End BuilderFacts.

(** ** 4.4 Fold partitioner *)

Module PartitionerFacts.
Import Builder Partitioner.

Lemma elem_of_expand (s : gset Z) (c i : Z) :
  i ∈ expand s c ↔ block_index s c i.
Proof.
  unfold expand, block_index. rewrite elem_of_list_to_set, list_elem_of_bind.
  split.
  - intros (p & Hi & Hp). apply list_elem_of_bind in Hi as (pos & Hi & Hpos).
    apply list_elem_of_singleton in Hi as ->.
    apply elem_of_elements in Hp. apply elem_of_range in Hpos. eauto.
  - intros (p & pos & Hp & Hpos & ->). exists p.
    rewrite elem_of_elements. split; [|done].
    apply list_elem_of_bind. exists pos. rewrite elem_of_range.
    split; [|done]. by apply list_elem_of_singleton.
Qed.

Lemma rekey_loop (l : list Z) (m : gmap Z Z) (k j : Z) :
  (foldl (λ '(mapping, key) image_index,
            (<[key := image_index]> mapping, key + 1)) (m, k) l).1 !! j
  = if decide (k ≤ j < k + Z.of_nat (length l))
    then l !! Z.to_nat (j - k) else m !! j.
Proof.
  revert m k. induction l as [|x l IH]; intros m k; cbn [foldl length].
  - cbn. rewrite decide_False by lia. done.
  - rewrite IH. destruct (decide (k + 1 ≤ j < k + 1 + Z.of_nat (length l))).
    + rewrite decide_True by lia.
      replace (Z.to_nat (j - k)) with (S (Z.to_nat (j - (k + 1)))) by lia.
      done.
    + destruct (decide (j = k)) as [->|Hne].
      * rewrite decide_True by lia. rewrite lookup_insert_eq.
        by replace (k - k) with 0 by lia.
      * rewrite decide_False by lia. by rewrite lookup_insert_ne.
Qed.

Lemma rekey_lookup (s : gset Z) (key : Z) :
  rekey s !! key
  = if decide (0 ≤ key < Z.of_nat (size s))
    then elements s !! Z.to_nat key else None.
Proof.
  unfold rekey. rewrite rekey_loop, lookup_empty.
  replace (key - 0) with key by lia.
  unfold size, set_size. cbn.
  destruct (decide (0 ≤ key < 0 + Z.of_nat (length (elements s))));
    destruct (decide (0 ≤ key < Z.of_nat (length (elements s))));
    done || lia.
Qed.

Lemma rekey_values (s : gset Z) : maps_onto (rekey s) (λ i, i ∈ s).
Proof.
  intros i. split.
  - intros (key & Hk). rewrite rekey_lookup in Hk.
    destruct (decide _); [|done].
    apply elem_of_elements. by eapply list_elem_of_lookup_2.
  - intros Hi. apply elem_of_elements, list_elem_of_lookup in Hi as [n Hn].
    exists (Z.of_nat n). rewrite rekey_lookup.
    pose proof (lookup_lt_Some _ _ _ Hn) as Hlt.
    unfold size, set_size. cbn. rewrite decide_True by lia.
    by rewrite Nat2Z.id.
Qed.

(** The re-keyed mapping is a bijection from [[0, n)] onto the set. *)
Lemma rekey_dense (s : gset Z) :
  (∀ key, is_Some (rekey s !! key) ↔ 0 ≤ key < Z.of_nat (size s))
  ∧ (∀ k1 k2 i, rekey s !! k1 = Some i → rekey s !! k2 = Some i → k1 = k2).
Proof.
  split.
  - intros key. rewrite rekey_lookup. destruct (decide _) as [Hk|Hk].
    + split; [done|]. intros _. apply lookup_lt_is_Some.
      unfold size, set_size in Hk. cbn in Hk. lia.
    + split; [by intros [? ?]|done].
  - intros k1 k2 i H1 H2. rewrite rekey_lookup in H1, H2.
    destruct (decide _); [|done]. destruct (decide _); [|done].
    pose proof (proj1 (NoDup_alt _) (NoDup_elements s) _ _ _ H1 H2). lia.
Qed.

Lemma select_label_spec label patient_images c s r :
  select_label label patient_images c s = Ok r →
  ∀ idx, idx ∈ r ↔ idx ∈ s ∧ label_of patient_images c idx = Ok label.
Proof.
  unfold select_label. intros H.
  apply bind_Ok in H as (kept & Hkept & H). injection H as <-.
  apply comprehension_Forall2 in Hkept.
  intros idx. rewrite elem_of_list_to_set, list_elem_of_fmap. split.
  - intros ([idx' b] & -> & Hp). apply list_elem_of_filter in Hp as [Hb Hp].
    cbn in Hb. subst b. cbn.
    apply list_elem_of_lookup in Hp as [n Hn].
    destruct (Forall2_lookup_r _ _ _ _ _ Hkept Hn) as (i & Hi & Hf).
    apply bind_Ok in Hf as (ch & Hch & Hf). injection Hf as -> Hb.
    apply bool_decide_eq_true in Hb as ->.
    split; [|done]. apply elem_of_elements. by eapply list_elem_of_lookup_2.
  - intros [Hs Hl]. apply elem_of_elements, list_elem_of_lookup in Hs as [n Hn].
    destruct (Forall2_lookup_l _ _ _ _ _ Hkept Hn) as (p' & Hp & Hf).
    rewrite Hl in Hf. cbn in Hf. injection Hf as <-.
    exists (idx, bool_decide (label = label)). split; [done|].
    apply list_elem_of_filter. split; [by apply bool_decide_eq_true|].
    by eapply list_elem_of_lookup_2.
Qed.

Lemma one_not_zero : one_char ≠ zero_char.
Proof. done. Qed.

(** The fold built by one round. *)
Lemma fold_round_balanced patient_images c patients N C n g fm tm g' :
  (∀ idx, idx ∈ N ↔ idx ∈ patients ∧ label_of patient_images c idx = Ok zero_char) →
  (∀ idx, idx ∈ C ↔ idx ∈ patients ∧ label_of patient_images c idx = Ok one_char) →
  fold_round patient_images c patients N C n g = Ok (fm, tm, g') →
  balanced_fold n patients N C c fm tm.
Proof.
  intros HN HC H. unfold fold_round in H.
  apply bind_Ok in H as ([ln g1] & Hn & H).
  apply bind_Ok in H as ([lc g2] & Hc & H).
  apply bind_Ok in H as (Cout & Hsel & H).
  apply bind_Ok in H as ([ls g3] & Hs & H).
  injection H as <- <- <-.
  apply sample_set in Hn as [Hn1 Hn2], Hc as [Hc1 Hc2], Hs as [Hs1 Hs2].
  pose proof (select_label_spec _ _ _ _ _ Hsel) as Hout.
  set (Vn := list_to_set ln : gset Z) in *.
  set (Vc := list_to_set lc : gset Z) in *.
  set (S := list_to_set ls : gset Z) in *.
  assert (N ## C) as Hdisj.
  { intros x Hx Hx'. apply HN in Hx as [_ Hx]. apply HC in Hx' as [_ Hx'].
    rewrite Hx in Hx'. injection Hx' as Hx'. by apply one_not_zero. }
  assert (Cout = C ∖ Vc) as ->.
  { apply set_eq. intros x. split.
    - intros Hx. apply Hout in Hx as [Hx Hl].
      apply elem_of_difference in Hx as [Hp Hnot].
      apply elem_of_difference. split; [by apply HC|].
      intros HxV. apply Hnot, elem_of_union. by right.
    - intros Hx. apply elem_of_difference in Hx as [HxC HxV].
      apply Hout. pose proof (proj1 (HC x) HxC) as [Hp Hl].
      split; [|done]. apply elem_of_difference. split; [done|].
      intros [Hx|Hx]%elem_of_union; [|done].
      apply Hn1 in Hx. by apply (Hdisj x). }
  exists Vn, Vc, S.
  split; [done|]. split; [done|]. split; [done|]. split; [done|].
  split.
  { intros x Hx. apply Hs1 in Hx.
    apply elem_of_difference in Hx as [Hx Hnc].
    apply elem_of_difference in Hx as [Hp Hnv].
    apply elem_of_difference. split; [apply elem_of_difference; split; [done|]|].
    - intros HxC. destruct (decide (x ∈ Vc)) as [HxV|HxV].
      + apply Hnv, elem_of_union. by right.
      + by apply Hnc, elem_of_difference.
    - intros HxV. apply Hnv, elem_of_union. by left. }
  split; [lia|].
  split; intros i; rewrite <- elem_of_expand; apply rekey_values.
Qed.

(** When every patient is in one of the two classes, the pool the
    training fill is drawn from is the non-cancer class itself. *)
Lemma non_cancer_pool_binary (patients N C Vn : gset Z) :
  N ∪ C = patients → N ## C → (patients ∖ C) ∖ Vn = N ∖ Vn.
Proof.
  intros <- Hdisj. apply set_eq. intros x.
  rewrite !elem_of_difference, elem_of_union. split.
  - intros [[[Hx|Hx] Hn] Hv]; done.
  - intros [Hx Hv]. split; [|done]. split; [by left|].
    intros HxC. by apply (Hdisj x).
Qed.

Lemma block_index_patient (s s' : gset Z) (c i : Z) :
  block_index s c i → block_index s' c i → ∃ p, p ∈ s ∧ p ∈ s'.
Proof.
  intros (p & pos & Hp & Hpos & ->) (p' & pos' & Hp' & Hpos' & E).
  assert (p = p') as -> by nia. eauto.
Qed.

Lemma folds_loop_balanced patient_images c patients N C n
    (nums : list Z) fs ts g fs' ts' g' :
  (∀ idx, idx ∈ N ↔ idx ∈ patients ∧ label_of patient_images c idx = Ok zero_char) →
  (∀ idx, idx ∈ C ↔ idx ∈ patients ∧ label_of patient_images c idx = Ok one_char) →
  for_each
    (λ _ '(folds, trains, g),
       '(fold_key_mapping, train_key_mapping, g1) ←
          fold_round patient_images c patients N C n g;
       Ok (folds ++ [fold_key_mapping], trains ++ [train_key_mapping], g1))
    nums (fs, ts, g) = Ok (fs', ts', g') →
  Forall2 (balanced_fold n patients N C c) fs ts →
  Forall2 (balanced_fold n patients N C c) fs' ts'
  ∧ length fs' = (length fs + length nums)%nat.
Proof.
  intros HN HC. revert fs ts g.
  induction nums as [|k nums IH]; intros fs ts g H HF; cbn in H.
  - injection H as <- <- <-. split; [done|]. cbn. lia.
  - change (Py.bind ?m ?f) with (m ≫= f) in H.
    apply bind_Ok in H as ([[fs1 ts1] g1] & Hstep & Hrest).
    apply bind_Ok in Hstep as ([[fm tm] g2] & Hround & Hstep).
    injection Hstep as <- <- <-.
    apply (fold_round_balanced _ _ _ _ _ _ _ _ _ _ HN HC) in Hround.
    destruct (IH _ _ _ Hrest) as [HF' Hlen].
    { apply Forall2_app; [done|]. by constructor. }
    split; [done|]. rewrite Hlen, length_app. cbn. lia.
Qed.

(** How a returned partition was built. *)
Lemma partition_folds cropped c K f g p g' :
  write_cropped_images_train_and_folds cropped c K f g = Ok (p, g') →
  let patient_images := flatten_patients cropped in
  let patients := patient_indices_of patient_images c in
  ∃ N C n,
    select_label zero_char patient_images c patients = Ok N
    ∧ select_label one_char patient_images c patients = Ok C
    ∧ N ## C
    ∧ num_each_class f C = Ok n
    ∧ length (fold_key_mappings p) = Z.to_nat K
    ∧ Forall2 (balanced_fold n patients N C c)
        (fold_key_mappings p) (train_key_mappings p).
Proof.
  intros H patient_images patients.
  unfold write_cropped_images_train_and_folds in H.
  apply bind_Ok in H as (written & _ & H).
  destruct (c =? 0); [done|].
  apply bind_Ok in H as (N & HN & H).
  apply bind_Ok in H as (C & HC & H).
  apply bind_Ok in H as (n & Hn & H).
  apply bind_Ok in H as ([[fs ts] g1] & Hloop & H).
  injection H as <- <-. cbn [fold_key_mappings train_key_mappings].
  exists N, C, n.
  pose proof (select_label_spec _ _ _ _ _ HN) as HN'.
  pose proof (select_label_spec _ _ _ _ _ HC) as HC'.
  apply (folds_loop_balanced _ _ _ _ _ _ _ _ _ _ _ _ _ HN' HC') in Hloop
    as [HF Hlen]; [|constructor].
  repeat split; try done.
  - intros x Hx Hx'. apply HN' in Hx as [_ Hx]. apply HC' in Hx' as [_ Hx'].
    rewrite Hx in Hx'. injection Hx' as Hx'. by apply one_not_zero.
  - rewrite Hlen, length_range. cbn. lia.
Qed.

(** C1.  In every partition the function returns there is one
    validation mapping and one training mapping per fold, and for each
    fold: no patch index is a value of both mappings, and every value of
    the training mapping lies in the block of a patient none of whose
    [num_crops] patch indices is a value of the validation mapping. *)
Theorem fold_disjoint_from_training
    (cropped_images : list (string * list entry))
    (num_crops num_folds : Z) (fold_fraction : float) (g g' : rng)
    (p : partition) :
  write_cropped_images_train_and_folds cropped_images num_crops num_folds
    fold_fraction g = Ok (p, g') →
  length (fold_key_mappings p) = Z.to_nat num_folds
  ∧ length (train_key_mappings p) = Z.to_nat num_folds
  ∧ ∀ k fold_mapping train_mapping,
      fold_key_mappings p !! k = Some fold_mapping →
      train_key_mappings p !! k = Some train_mapping →
      (∀ i key key',
         fold_mapping !! key = Some i → train_mapping !! key' ≠ Some i)
      ∧ (∀ i key,
           train_mapping !! key = Some i →
           ∃ patient pos,
             i = patient * num_crops + pos ∧ 0 ≤ pos < num_crops
             ∧ ∀ pos' key', 0 ≤ pos' < num_crops →
                 fold_mapping !! key' ≠ Some (patient * num_crops + pos')).
Proof.
  intros Hrun.
  destruct (partition_folds _ _ _ _ _ _ _ Hrun)
    as (N & C & n & _ & _ & Hdisj & _ & Hlen & HF).
  split; [done|]. split; [by rewrite <- (Forall2_length _ _ _ HF)|].
  intros k fm tm Hfm Htm.
  pose proof (Forall2_lookup_lr _ _ _ _ _ _ HF Hfm Htm)
    as (Vn & Vc & S & HVn & _ & HVc & _ & HS & _ & Hfold & Htrain).
  assert (∀ x, x ∈ Vn ∪ Vc → x ∈ (C ∖ Vc) ∪ S → False) as Hsep.
  { intros x [Hx|Hx]%elem_of_union [Hx'|Hx']%elem_of_union.
    - apply elem_of_difference in Hx' as [Hx' _]. by apply (Hdisj x); [apply HVn|].
    - apply HS in Hx'. by apply elem_of_difference in Hx' as [_ Hx'].
    - by apply elem_of_difference in Hx' as [_ Hx'].
    - apply HS in Hx'. apply elem_of_difference in Hx' as [Hx' _].
      apply elem_of_difference in Hx' as [_ Hx']. by apply Hx', HVc. }
  split.
  - intros i key key' Hi Hi'.
    assert (block_index (Vn ∪ Vc) num_crops i) as B by (apply Hfold; eauto).
    assert (block_index ((C ∖ Vc) ∪ S) num_crops i) as B' by (apply Htrain; eauto).
    destruct (block_index_patient _ _ _ _ B B') as (x & Hx & Hx'). eauto.
  - intros i key Hi.
    assert (block_index ((C ∖ Vc) ∪ S) num_crops i) as (x & pos & Hx & Hpos & ->)
      by (apply Htrain; eauto).
    exists x, pos. split; [done|]. split; [done|].
    intros pos' key' Hpos' Hv.
    assert (block_index (Vn ∪ Vc) num_crops (x * num_crops + pos')) as B
      by (apply Hfold; eauto).
    assert (block_index ((C ∖ Vc) ∪ S) num_crops (x * num_crops + pos')) as B'
      by (exists x, pos'; done).
    destruct (block_index_patient _ _ _ _ B B') as (y & Hy & Hy'). eauto.
Qed.


End PartitionerFacts.

(** ** 4.5 Sample provider *)

Module ProviderFacts.
Import Provider.

Section Disk.
Variable ReadImage : string → result Image.
Variable NormalizeImageFilter_Execute : Image → Image.

Local Abbreviation normalized_image :=
  (Provider.normalized_image ReadImage NormalizeImageFilter_Execute).
Local Abbreviation __getitem__ :=
  (Provider.__getitem__ ReadImage NormalizeImageFilter_Execute).

(** C8, as the code has it.  A read whose normalised array has a cell
    [[0, 0, 0]] returns uniform noise of the fixed shape [(3, 32, 32)],
    drawn from the generator, exactly when that one cell is a NaN;
    otherwise it returns the normalised array itself, whatever its other
    cells hold.  Either array is handed back as a single-precision
    tensor, with the label and the resolved index of the read. *)
Theorem getitem_checks_first_cell (self : ProstateImages) (index : Z)
    (g : rng) (arr : ndarray) (label : option Z) (idx : Z) (x : float) :
  normalized_image self index = Ok (arr, label, idx) →
  first_cell arr = Ok x →
  (isnan x = true →
   ∃ noise g',
     np_random_rand (3, 32, 32) g = Ok (noise, g')
     ∧ shape noise = (3, 32, 32)
     ∧ (∀ a b c, ∃ q, at_ noise a b c = Fin q ∧ (0 <= q)%Q ∧ (q < 1)%Q)
     ∧ __getitem__ self index g
       = Ok ({| s_image := to_tensor noise;
                s_cancer := label; s_index := idx |}, g'))
  ∧ (isnan x = false →
     __getitem__ self index g
     = Ok ({| s_image := to_tensor arr;
              s_cancer := label; s_index := idx |}, g)).
Proof.
  intros Hnorm Hfirst. unfold __getitem__. rewrite Hnorm.
  cbn [mbind result_bind Py.bind]. rewrite Hfirst.
  cbn [mbind result_bind Py.bind].
  split; intros ->; [|done].
  destruct (np_random_rand (3, 32, 32) g) as [[noise g']|e] eqn:Hrand.
  - exists noise, g'. split; [done|].
    apply np_random_rand_spec in Hrand as [Hs Hu]. done.
  - unfold np_random_rand in Hrand.
    change ((3 <? 0) || (32 <? 0) || (32 <? 0)) with false in Hrand.
    cbv iota in Hrand. by destruct (random_doubles _ g).
Qed.

End Disk.

End ProviderFacts.

(** ** 4.6 Training loop: the best-model bookkeeping *)

Module TrainingFacts.
Import Training.

Section Loop.
Context {W confusion : Type}.
Variable train_pass : W → result (W * float * float).
Variable validation_pass : W → result (float * float * confusion).
Variable initialize_CNN2 : W → result W.

Local Abbreviation epoch_round :=
  (Training.epoch_round train_pass validation_pass).
Local Abbreviation train_model :=
  (Training.train_model train_pass validation_pass initialize_CNN2).
Local Abbreviation weights_after := (Training.weights_after train_pass).
Local Abbreviation bookkeeping :=
  (Training.bookkeeping train_pass validation_pass).

(** While no validation AUC exceeds 0 nothing is retained. *)
Lemma epochs_without_positive_auc model nums st st' :
  (∀ w f1 auc conf,
     validation_pass w = Ok (f1, auc, conf) → gtb auc (Fin 0) = false) →
  best_auc st = Fin 0 → retained st = None →
  for_each (epoch_round model) nums st = Ok st' →
  best_auc st' = Fin 0 ∧ retained st' = None.
Proof.
  intros Hval Hb Hr H.
  revert H. apply (for_each_preserves (epoch_round model)
                     (λ s, best_auc s = Fin 0 ∧ retained s = None)); [|done].
  clear Hb Hr st st'. intros epoch st st' [Hb Hr] H. unfold epoch_round in H.
  apply bind_Ok in H as (w & _ & H).
  apply bind_Ok in H as ([[w' f1t] auct] & _ & H).
  apply bind_Ok in H as ([[f1e auce] conf] & Hv & H).
  rewrite Hb, (Hval _ _ _ _ Hv) in H. by injection H as <-.
Qed.

(** The missed case of the bookkeeping: when no epoch has a positive
    validation AUC the [return] reads names that were never bound. *)
Lemma train_model_unbound model epochs softmax h r :
  (∀ w f1 auc conf,
     validation_pass w = Ok (f1, auc, conf) → gtb auc (Fin 0) = false) →
  train_model model epochs softmax h ≠ Ok r.
Proof.
  intros Hval H. unfold train_model in H.
  apply bind_Ok in H as (h1 & _ & H).
  apply bind_Ok in H as (st & Hloop & H).
  apply (epochs_without_positive_auc _ _ _ _ Hval) in Hloop as [_ Hr];
    [|done..].
  by rewrite Hr in H.
Qed.

Lemma epoch_round_bookkeeping model w0 n epoch st st' :
  bookkeeping model w0 n st →
  epoch_round model epoch st = Ok st' →
  bookkeeping model w0 (S n) st'.
Proof.
  intros ((w & Hw & Hmodel) & Hmax & Hbest) H. unfold epoch_round in H.
  rewrite Hmodel in H. cbn [Py.of_option mbind result_bind Py.bind] in H.
  change (Py.bind ?m ?f) with (m ≫= f) in H.
  apply bind_Ok in H as ([[w' f1t] auct] & Htrain & H).
  apply bind_Ok in H as ([[f1e auce] conf] & Hval & H).
  assert (weights_after w0 (S n) = Ok w') as Hw'.
  { cbn [weights_after]. rewrite Hw. cbn [mbind result_bind Py.bind].
    by rewrite Htrain. }
  destruct (gtb auce (best_auc st)) eqn:Hgt.
  - unfold deepcopy in H. rewrite lookup_insert_eq in H.
    cbn [Py.of_option mbind result_bind Py.bind] in H. injection H as <-.
    set (copy := fresh (dom (<[model:=w']> (store st)))).
    assert (copy ≠ model) as Hne.
    { intros E. apply (is_fresh (dom (<[model:=w']> (store st)))).
      fold copy. rewrite E, dom_insert_L. apply elem_of_union_l.
      by apply elem_of_singleton. }
    split; [|split]; cbn [store best_auc retained best_model best_f1 conf_matrix].
    + exists w'. split; [done|]. rewrite lookup_insert_ne by done.
      apply lookup_insert_eq.
    + intros e w1 f1 auc conf1 He Hw1 Hv1.
      destruct (decide (e = n)) as [->|Hen].
      * rewrite Hw' in Hw1. injection Hw1 as <-. rewrite Hval in Hv1.
        injection Hv1 as <- <- <-. apply gtb_irrefl.
      * eapply gtb_raise; [|exact Hgt].
        eapply (Hmax e); [lia|done..].
    + exists n, w'. split; [lia|]. split; [done|]. split; [done|].
      split; [apply lookup_insert_eq | done].
  - injection H as <-.
    split; [|split]; cbn [store best_auc retained].
    + exists w'. split; [done|]. apply lookup_insert_eq.
    + intros e w1 f1 auc conf1 He Hw1 Hv1.
      destruct (decide (e = n)) as [->|Hen].
      * rewrite Hw' in Hw1. injection Hw1 as <-. rewrite Hval in Hv1.
        by injection Hv1 as <- <- <-.
      * eapply (Hmax e); [lia|done..].
    + destruct (retained st) as [b|]; [|done].
      destruct Hbest as (e & w1 & He & Hw1 & Hv1 & Hs & Hne).
      exists e, w1. split; [lia|]. split; [done|]. split; [done|].
      split; [by rewrite lookup_insert_ne | done].
Qed.

Lemma epochs_bookkeeping model w0 nums n st st' :
  bookkeeping model w0 n st →
  for_each (epoch_round model) nums st = Ok st' →
  bookkeeping model w0 (n + length nums) st'.
Proof.
  revert n st. induction nums as [|epoch nums IH]; intros n st Hinv H; cbn in H.
  - injection H as <-. by rewrite Nat.add_0_r.
  - change (Py.bind ?m ?f) with (m ≫= f) in H.
    apply bind_Ok in H as (st1 & Hstep & Hrest).
    apply (epoch_round_bookkeeping _ _ _ _ _ _ Hinv) in Hstep.
    apply (IH _ _ Hstep) in Hrest. cbn [length].
    by replace (n + S (length nums))%nat with (S n + length nums)%nat by lia.
Qed.

(** The part of C9 the code keeps.  When [train_model] returns, the best
    model is an object other than the trained one; it holds the weights
    the model had at the end of some epoch [e], untouched by the updates
    of the later epochs; the returned best AUC is the validation AUC of
    those weights, and no epoch of the run has a validation AUC above
    it. *)
Lemma train_model_snapshot model epochs h w0 b auc h' :
  h !! model = Some w0 →
  train_model model epochs false h = Ok (b, auc, h') →
  ∃ e w,
    (e < Z.to_nat epochs)%nat
    ∧ weights_after w0 (S e) = Ok w
    ∧ validation_pass w = Ok (best_f1 b, auc, conf_matrix b)
    ∧ h' !! best_model b = Some w
    ∧ best_model b ≠ model
    ∧ ∀ e' w' f1' auc' conf',
        (e' < Z.to_nat epochs)%nat → weights_after w0 (S e') = Ok w' →
        validation_pass w' = Ok (f1', auc', conf') → gtb auc' auc = false.
Proof.
  intros Hw0 H. unfold train_model in H.
  cbn [mbind result_bind Py.bind] in H.
  change (Py.bind ?m ?f) with (m ≫= f) in H.
  apply bind_Ok in H as (st & Hloop & H).
  apply (epochs_bookkeeping model w0 _ 0) in Hloop as (_ & Hmax & Hbest).
  - rewrite length_range in Hmax, Hbest. cbn [Nat.add] in Hmax, Hbest.
    destruct (retained st) as [b'|]; [|done]. injection H as <- <- <-.
    destruct Hbest as (e & w & He & Hw & Hv & Hs & Hne).
    exists e, w. repeat split; done.
  - split; [|split]; cbn [store best_auc retained].
    + exists w0. done.
    + intros e ????; lia.
    + done.
Qed.

End Loop.

End TrainingFacts.

Module CropperEdges.
Import Cropper CropperFacts.

Lemma slice_bound_range (n b : Z) : 0 ≤ n → 0 ≤ slice_bound n b ≤ n.
Proof. unfold slice_bound. destruct (b <? 0); lia. Qed.

Lemma slice_extent_le (n lo hi : Z) :
  lo ≤ hi →
  0 ≤ Z.max 0 (slice_bound n hi - slice_bound n lo)
    ≤ Z.min (Z.max 0 (hi - lo)) (Z.max 0 n).
Proof.
  unfold slice_bound. intros Hle.
  destruct (Z.ltb_spec hi 0), (Z.ltb_spec lo 0); lia.
Qed.

Lemma comprehension_enumerate {A B} (F : Z → A → result B) (l : list A)
    (ys : list B) :
  comprehension (λ '(idx, x), F idx x) (enumerate l) = Ok ys ↔
  length l = length ys
  ∧ ∀ (i : nat) x y, l !! i = Some x → ys !! i = Some y →
      F (Z.of_nat i) x = Ok y.
Proof.
  rewrite comprehension_Forall2, Forall2_same_length_lookup.
  unfold enumerate. rewrite length_imap. split; intros [Hlen H]; split; try done.
  - intros i x y Hx Hy.
    apply (H i (Z.of_nat i, x) y); [|done].
    by rewrite list_lookup_imap, Hx.
  - intros i [idx x] y Hx Hy. rewrite list_lookup_imap in Hx.
    destruct (l !! i) as [x'|] eqn:E; [|done]. injection Hx as <- <-.
    by apply H.
Qed.

Lemma crop_from_center_at_most (images : list Image)
    (ijk : list (triple Z)) (width height depth i_offset j_offset : Z)
    (crop : list Image) :
  0 ≤ width → 0 ≤ height → 0 ≤ depth →
  crop_from_center images ijk width height depth i_offset j_offset = Ok crop →
  Forall2
    (λ image patch,
       0 ≤ (GetSize patch).1.1
         ≤ Z.min (Z.max 0 width) (Z.max 0 (GetSize image).1.1)
       ∧ 0 ≤ (GetSize patch).1.2
           ≤ Z.min (Z.max 0 height) (Z.max 0 (GetSize image).1.2)
       ∧ 0 ≤ (GetSize patch).2
           ≤ Z.min (Z.max 0 depth) (Z.max 0 (GetSize image).2))
    images crop.
Proof.
  unfold crop_from_center. intros Hw0 Hh0 Hd0 H.
  apply (comprehension_enumerate
           (λ idx image,
              '(ci, cj, ck) ← Py.index ijk idx;
              Ok (slice3 image (window ci i_offset width)
                    (window cj j_offset height) (window ck 0 depth)))) in H
    as [Hlen H].
  apply Forall2_same_length_lookup. split; [done|].
  intros i image patch Hi Hp. specialize (H i image patch Hi Hp).
  apply bind_Ok in H as ([[ci cj] ck] & _ & H). injection H as <-.
  unfold slice3. destruct (GetSize image) as [[ni nj] nk]. cbn.
  pose proof (window_extent ci i_offset width) as Hw.
  pose proof (window_extent cj j_offset height) as Hh.
  pose proof (window_extent ck 0 depth) as Hd.
  pose proof (slice_extent_le ni (window ci i_offset width).1
                (window ci i_offset width).2 ltac:(lia)) as Hi'.
  pose proof (slice_extent_le nj (window cj j_offset height).1
                (window cj j_offset height).2 ltac:(lia)) as Hj'.
  pose proof (slice_extent_le nk (window ck 0 depth).1 (window ck 0 depth).2
                ltac:(lia)) as Hk'.
  rewrite Hw in Hi'. rewrite Hh in Hj'. rewrite Hd in Hk'. done.
Qed.


Lemma comprehension_raise {X Y} (f : X → result Y) (l1 l2 : list X) (x : X)
    (e : exn) :
  (∀ a, a ∈ l1 → ∃ y, f a = Ok y) → f x = Raise e →
  comprehension f (l1 ++ x :: l2) = Raise e.
Proof.
  intros Hl1 Hx. induction l1 as [|a l1 IH]; cbn.
  - by rewrite Hx.
  - destruct (Hl1 a) as [y Hy]; [left|]. rewrite Hy; cbn.
    rewrite IH; [done|]. intros b Hb. apply Hl1. by right.
Qed.

Lemma index_lt {A} (l : list A) (n : nat) :
  (n < length l)%nat → ∃ x, Py.index l (Z.of_nat n) = Ok x.
Proof.
  intros Hn. destruct (lookup_lt_is_Some_2 l n Hn) as [x Hx].
  exists x. by apply index_Ok.
Qed.

Lemma index_Ok_inv {A} (l : list A) (n : nat) (x : A) :
  Py.index l (Z.of_nat n) = Ok x → l !! n = Some x.
Proof.
  unfold Py.index.
  destruct (Z.ltb_spec (Z.of_nat n) 0); [lia|].
  destruct (Z.ltb_spec (Z.of_nat n) 0); [lia|].
  destruct (Z.leb_spec (Z.of_nat (length l)) (Z.of_nat n)); [done|].
  cbn. rewrite Nat2Z.id. by destruct (l !! n); intros [= <-].
Qed.

Lemma index_ge {A} (l : list A) (n : nat) :
  (length l ≤ n)%nat → Py.index l (Z.of_nat n) = Raise IndexError.
Proof.
  intros Hn. unfold Py.index.
  destruct (Z.ltb_spec (Z.of_nat n) 0); [lia|].
  destruct (Z.ltb_spec (Z.of_nat n) 0); [lia|].
  destruct (Z.leb_spec (Z.of_nat (length l)) (Z.of_nat n)); [done|lia].
Qed.

Lemma crop_from_center_by_position (images : list Image)
    (ijk : list (triple Z)) (width height depth i_offset j_offset : Z) :
  ((length images ≤ length ijk)%nat →
   ∃ crop,
     crop_from_center images ijk width height depth i_offset j_offset = Ok crop
     ∧ length crop = length images
     ∧ crop_from_center images (take (length images) ijk)
         width height depth i_offset j_offset = Ok crop)
  ∧ ((length ijk < length images)%nat →
     crop_from_center images ijk width height depth i_offset j_offset
       = Raise IndexError).
Proof.
  split; intros Hlen.
  - destruct (comprehension_total
                (λ '(idx, image),
                   '(ci, cj, ck) ← Py.index ijk idx;
                   Ok (slice3 image (window ci i_offset width)
                         (window cj j_offset height) (window ck 0 depth)))
                (enumerate images)) as [crop Hcrop].
    { intros [idx image] Hin. unfold enumerate in Hin.
      apply list_elem_of_lookup in Hin as [i Hi].
      rewrite list_lookup_imap in Hi.
      destruct (images !! i) eqn:Ei; [|done]. injection Hi as <- <-.
      apply lookup_lt_Some in Ei.
      destruct (index_lt ijk i ltac:(lia)) as [[[ci cj] ck] Hc].
      rewrite Hc. cbn. eauto. }
    exists crop. split; [done|].
    pose proof Hcrop as Hcrop'.
    apply (comprehension_enumerate
             (λ idx image,
                '(ci, cj, ck) ← Py.index ijk idx;
                Ok (slice3 image (window ci i_offset width)
                      (window cj j_offset height) (window ck 0 depth))))
      in Hcrop' as [Hl Hall].
    split; [done|]. unfold crop_from_center.
    apply (comprehension_enumerate
             (λ idx image,
                '(ci, cj, ck) ← Py.index (take (length images) ijk) idx;
                Ok (slice3 image (window ci i_offset width)
                      (window cj j_offset height) (window ck 0 depth)))).
    split; [done|]. intros i image y Hi Hy.
    specialize (Hall i image y Hi Hy).
    apply bind_Ok in Hall as (c & Hc & Hall).
    apply lookup_lt_Some in Hi.
    destruct (lookup_lt_is_Some_2 ijk i ltac:(lia)) as [c' Hc'].
    rewrite (index_Ok _ _ _ Hc') in Hc. injection Hc as ->.
    rewrite (index_Ok (take (length images) ijk) i c); [done|].
    by rewrite lookup_take_lt.
  - unfold crop_from_center, enumerate.
    rewrite <- (take_drop (length ijk) images) at 1.
    destruct (drop (length ijk) images) as [|x rest] eqn:Ed.
    { apply (f_equal length) in Ed. rewrite length_drop in Ed. cbn in Ed. lia. }
    rewrite imap_app. cbn [imap].
    apply comprehension_raise.
    + intros [idx image] Hin.
      apply list_elem_of_lookup in Hin as [i Hi].
      rewrite list_lookup_imap in Hi.
      destruct (take (length ijk) images !! i) eqn:Ei; [|done].
      injection Hi as <- <-. apply lookup_lt_Some in Ei.
      rewrite length_take in Ei.
      destruct (index_lt ijk i ltac:(lia)) as [[[ci cj] ck] Hc].
      rewrite Hc. cbn. eauto.
    + rewrite length_take, Nat.add_0_r.
      rewrite (index_ge ijk); [done|lia].
Qed.

(** X2.  [crop_from_center] reads one centre per image, by position: with
    at least as many centres as images it returns one crop per image and
    ignores the centres beyond, with fewer it raises IndexError. *)
Theorem crop_from_center_centres (images : list Image)
    (ijk : list (triple Z)) (width height depth i_offset j_offset : Z) :
  ((length images ≤ length ijk)%nat →
   ∃ crop,
     crop_from_center images ijk width height depth i_offset j_offset = Ok crop
     ∧ length crop = length images
     ∧ crop_from_center images (take (length images) ijk)
         width height depth i_offset j_offset = Ok crop)
  ∧ ((length ijk < length images)%nat →
     crop_from_center images ijk width height depth i_offset j_offset
       = Raise IndexError).
Proof. apply crop_from_center_by_position. Qed.

Section Rotation.
Variable rotation3d : Image → Z → list float → Image.
Local Abbreviation rotated_crop := (Cropper.rotated_crop rotation3d).

Lemma choice_nil {A} (g : rng) : choice (@nil A) g = Raise ValueError.
Proof. unfold choice. by destruct (randbelow (N.of_nat (length (@nil A))) g). Qed.

Lemma choice_total {A} (l : list A) (g : rng) :
  l ≠ [] → ∃ x g', choice l g = Ok (x, g').
Proof.
  intros Hl. unfold choice.
  pose proof (randbelow_lt (N.of_nat (length l)) g) as Hlt.
  destruct (randbelow (N.of_nat (length l)) g) as [j g1].
  destruct l as [|a l]; [done|].
  destruct (lookup_lt_is_Some_2 (a :: l) (N.to_nat j)) as [x Hx].
  { cbn in *. specialize (Hlt ltac:(lia)). cbn in Hlt. lia. }
  rewrite Hx. eauto.
Qed.

Lemma randint_total (low high : Z) (g : rng) :
  low < high → ∃ x g', randint low high g = Ok (x, g').
Proof.
  intros Hlt. unfold randint.
  destruct (Z.leb_spec high low); [lia|].
  destruct (randbelow (Z.to_N (high - low)) g). eauto.
Qed.

(** X3.  [rotated_crop] with [show_result] left at its default False,
    the branch the embedding covers, and a rotation that returns: the
    call raises ValueError for an empty list of candidate angles and
    IndexError for fewer centres than images, and for any other
    arguments and any state of the generator it returns one crop per
    image. *)
Theorem rotated_crop_failures (patient_images : list Image)
    (crop_width crop_height crop_depth : Z) (degrees : list Z)
    (lps : list float) (ijk_values : list (triple Z)) (g : rng) :
  (degrees = [] →
   rotated_crop patient_images crop_width crop_height crop_depth degrees
     lps ijk_values g = Raise ValueError)
  ∧ (degrees ≠ [] → (length ijk_values < length patient_images)%nat →
     rotated_crop patient_images crop_width crop_height crop_depth degrees
       lps ijk_values g = Raise IndexError)
  ∧ (degrees ≠ [] → (length patient_images ≤ length ijk_values)%nat →
     ∃ crop g',
       rotated_crop patient_images crop_width crop_height crop_depth degrees
         lps ijk_values g = Ok (crop, g')
       ∧ length crop = length patient_images).
Proof.
  unfold rotated_crop, Cropper.rotated_crop. split; [|split].
  - intros ->. by rewrite choice_nil.
  - intros Hd Hlen. destruct (choice_total degrees g Hd) as (degree & g1 & ->).
    cbn [mbind result_bind Py.bind].
    destruct (randint_total (-7) 7 g1 ltac:(lia)) as (io & g2 & ->).
    cbn [mbind result_bind Py.bind].
    destruct (randint_total (-7) 7 g2 ltac:(lia)) as (jo & g3 & ->).
    cbn [mbind result_bind Py.bind].
    rewrite (proj2 (crop_from_center_by_position _ _ _ _ _ _ _));
      [done|by rewrite length_fmap].
  - intros Hd Hlen. destruct (choice_total degrees g Hd) as (degree & g1 & ->).
    cbn [mbind result_bind Py.bind].
    destruct (randint_total (-7) 7 g1 ltac:(lia)) as (io & g2 & ->).
    cbn [mbind result_bind Py.bind].
    destruct (randint_total (-7) 7 g2 ltac:(lia)) as (jo & g3 & ->).
    cbn [mbind result_bind Py.bind].
    destruct (proj1 (crop_from_center_by_position
                ((λ patient, rotation3d patient degree lps) <$> patient_images)
                ijk_values crop_width crop_height crop_depth io jo))
      as (crop & -> & Hl & _); [by rewrite length_fmap|].
    cbn. exists crop, g3. split; [done|]. by rewrite Hl, length_fmap.
Qed.

End Rotation.

End CropperEdges.

Module BuilderInvariants.
Import Cropper Builder CropperFacts BuilderFacts CropperEdges.

Section Library.
Variable py_int_of_str : string → result Z.
Variable py_float_of_str : string → result float.
Variable padding_Execute : Image → Image.
Variable TransformPhysicalPointToIndex : Image → list float → result (triple Z).
Variable rotation3d : Image → Z → list float → Image.

Local Abbreviation make_crop := (Builder.make_crop rotation3d).
Local Abbreviation crop_round := (Builder.crop_round rotation3d).
Local Abbreviation modality_volumes := (Builder.modality_volumes py_int_of_str).
Local Abbreviation finding_inputs :=
  (Builder.finding_inputs py_int_of_str py_float_of_str padding_Execute
     TransformPhysicalPointToIndex).
Local Abbreviation finding_round :=
  (Builder.finding_round py_int_of_str py_float_of_str padding_Execute
     TransformPhysicalPointToIndex rotation3d).
Local Abbreviation findings_loop :=
  (Builder.findings_loop py_int_of_str py_float_of_str padding_Execute
     TransformPhysicalPointToIndex rotation3d).
Local Abbreviation image_cropper :=
  (Builder.image_cropper py_int_of_str py_float_of_str padding_Execute
     TransformPhysicalPointToIndex rotation3d).

(** What train mode keeps true of the dictionary while it is filled:
    every stored entry is a triple of patches of the configured size that
    carries the marker of a row of the table, under the key of that row,
    and the key of an entry whose first patch sums to zero is marked. *)
Local Abbreviation sound_entry df w h d key :=
  (λ e : entry,
     length e.1 = 3%nat
     ∧ Forall (λ im, GetSize im = (w, h, d)) e.1
     ∧ ∃ f marker,
         f ∈ df ∧ ClinSig f = Some marker ∧ e.2 = Some marker
         ∧ key = train_key (patient_id f) marker).

Local Abbreviation sound df w h d st :=
  (∀ key l, crops st !! key = Some l →
     l ≠ []
     ∧ Forall (λ e : entry,
                 sound_entry df w h d key e
                 ∧ ∀ first, e.1 !! 0%nat = Some first →
                     zero_sum first = true → key ∈ invalid_keys st) l).

Lemma for_each_preserves_in {X S} (body : X → S → result S) (P : S → Prop)
    (l : list X) :
  (∀ x st st', x ∈ l → P st → body x st = Ok st' → P st') →
  ∀ st st', P st → for_each body l st = Ok st' → P st'.
Proof.
  induction l as [|x l IH]; intros Hstep st st' HP H; cbn in H.
  - by injection H as <-.
  - change (Py.bind ?m ?f) with (m ≫= f) in H.
    apply bind_Ok in H as (st1 & H1 & H2).
    apply (IH (λ y a b Hy, Hstep y a b (list_elem_of_further _ _ _ Hy)) st1);
      [|done].
    apply (Hstep x st st1); [left|done|done].
Qed.

Lemma crop_from_center_length images ijk w h d io jo crop :
  crop_from_center images ijk w h d io jo = Ok crop →
  length crop = length images.
Proof.
  unfold crop_from_center. intros H.
  apply (comprehension_enumerate
           (λ idx image,
              '(ci, cj, ck) ← Py.index ijk idx;
              Ok (slice3 image (window ci io w) (window cj jo h)
                    (window ck 0 d)))) in H as [Hlen _].
  done.
Qed.

Lemma make_crop_length imgs lps ijk w h d k g crop g1 :
  make_crop imgs lps ijk w h d k g = Ok (crop, g1) →
  length crop = length imgs.
Proof.
  unfold make_crop, Builder.make_crop. destruct (k =? 0); intros H.
  - apply bind_Ok in H as (c & Hc & H). injection H as <- <-.
    by apply crop_from_center_length in Hc.
  - unfold rotated_crop in H.
    apply bind_Ok in H as ([degree g2] & _ & H).
    apply bind_Ok in H as ([io g3] & _ & H).
    apply bind_Ok in H as ([jo g4] & _ & H).
    apply bind_Ok in H as (c & Hc & H). injection H as <- <-.
    apply crop_from_center_length in Hc. by rewrite length_fmap in Hc.
Qed.

Lemma lookup_add_crop_ne key key' e (c : gmap string (list entry)) :
  key ≠ key' → add_crop key e c !! key' = c !! key'.
Proof.
  intros Hne. unfold add_crop.
  destruct (c !! key); by rewrite lookup_insert_ne.
Qed.

Lemma crop_round_sound (df : list finding) w h d patient marker imgs lps ijk k st st' :
  patient ∈ df → ClinSig patient = Some marker → length imgs = 3%nat →
  sound df w h d st →
  crop_round true (patient_id patient) (Some marker) imgs lps ijk w h d k st
    = Ok st' →
  sound df w h d st'.
Proof.
  intros Hin Hm Hlen Hst H. unfold crop_round, Builder.crop_round in H.
  apply bind_Ok in H as ([crop g1] & Hmk & H).
  apply make_crop_length in Hmk. cbn [mbind result_bind Py.bind Py.of_option] in H.
  case_bool_decide as Hsz.
  - injection H as <-. cbn. intros key l Hl.
    destruct (Hst key l Hl) as [Hne Hall]. split; [done|].
    eapply Forall_impl; [exact Hall|]. cbn. intros e [He Hz]. split; [done|].
    intros first Hf Hzero. apply elem_of_union_r. by apply (Hz first).
  - apply bind_Ok in H as (first & Hfirst & H). injection H as <-. cbn.
    assert (Forall (λ im, GetSize im = (w, h, d)) crop) as Hsizes.
    { apply Forall_forall. intros im Him.
      destruct (decide (GetSize im = (w, h, d))) as [|Hne]; [done|].
      exfalso. apply fmap_nil_inv in Hsz.
      assert (im ∈ filter (λ im, GetSize im ≠ (w, h, d)) crop) as Hin'
        by (by apply list_elem_of_filter).
      rewrite Hsz in Hin'. by apply not_elem_of_nil in Hin'. }
    assert (∀ key l, crops st !! key = Some l →
              Forall (λ e : entry,
                        sound_entry df w h d key e
                        ∧ ∀ first0, e.1 !! 0%nat = Some first0 →
                            zero_sum first0 = true →
                            key ∈ (if zero_sum first
                                   then {[train_key (patient_id patient) marker]}
                                          ∪ invalid_keys st
                                   else invalid_keys st)) l) as Hold.
    { intros key l Hl. destruct (Hst key l Hl) as [_ Hall].
      eapply Forall_impl; [exact Hall|]. cbn. intros e [He Hz]. split; [done|].
      intros first0 Hf Hzero. specialize (Hz first0 Hf Hzero).
      destruct (zero_sum first); [by apply elem_of_union_r|done]. }
    intros key l Hl.
    destruct (decide (train_key (patient_id patient) marker = key)) as [<-|Hne].
    + rewrite lookup_add_crop in Hl. injection Hl as <-. split.
      { by destruct (entries (crops st) (train_key (patient_id patient) marker)). }
      apply Forall_app. split.
      * unfold entries.
        destruct (crops st !! train_key (patient_id patient) marker) as [l0|] eqn:E;
          cbn; [|constructor].
        by apply Hold.
      * constructor; [|constructor]. cbn. split.
        { split; [lia|]. split; [done|]. by exists patient, marker. }
        intros first0 Hf Hzero.
        assert (first0 = first) as ->.
        { apply (index_Ok_inv crop 0) in Hfirst. congruence. }
        rewrite Hzero. apply elem_of_union_l. by apply elem_of_singleton.
    + rewrite lookup_add_crop_ne in Hl by done. split.
      * by destruct (Hst key l Hl).
      * by apply Hold.
Qed.

Lemma finding_inputs_train resampled patient mk imgs lps ijk :
  finding_inputs true resampled patient = Ok (Some (mk, imgs, lps, ijk)) →
  (∃ marker, ClinSig patient = Some marker ∧ mk = Some marker)
  ∧ length imgs = 3%nat.
Proof.
  unfold finding_inputs, Builder.finding_inputs. intros H.
  apply bind_Ok in H as (vols & Hvols & H).
  apply bind_Ok in H as (mk' & Hmk & H).
  destruct (existsb is_blank vols) eqn:Hblank; [done|].
  apply bind_Ok in H as (lps' & _ & H).
  apply bind_Ok in H as (ijk' & _ & H).
  injection H as <- <- <- <-. split.
  - unfold read_marker in Hmk. destruct (ClinSig patient) as [m|]; [|done].
    injection Hmk as <-. eauto.
  - unfold Builder.modality_volumes in Hvols.
    destruct resampled as [[t2s adcs] bvals].
    apply bind_Ok in Hvols as (n0 & _ & Hvols).
    apply bind_Ok in Hvols as (t2 & _ & Hvols).
    apply bind_Ok in Hvols as (n1 & _ & Hvols).
    apply bind_Ok in Hvols as (adc & _ & Hvols).
    apply bind_Ok in Hvols as (n2 & _ & Hvols).
    apply bind_Ok in Hvols as (bval & _ & Hvols).
    injection Hvols as <-. rewrite length_fmap.
    destruct t2, adc, bval; cbn in Hblank; try done.
Qed.

Lemma finding_round_sound (df : list finding) resampled w h d n patient st st' :
  patient ∈ df → sound df w h d st →
  finding_round true resampled w h d n patient st = Ok st' →
  sound df w h d st'.
Proof.
  intros Hin Hst H. unfold finding_round, Builder.finding_round in H.
  apply bind_Ok in H as (inputs & Hinputs & H).
  destruct inputs as [[[[mk imgs] lps] ijk]|]; [|by injection H as <-].
  apply finding_inputs_train in Hinputs as [(marker & Hm & ->) Hlen].
  revert Hst H.
  apply (for_each_preserves
           (Builder.crop_round rotation3d true (patient_id patient)
              (Some marker) imgs lps ijk w h d)
           (λ st, sound df w h d st)).
  intros k a b Ha Hab. by apply (crop_round_sound df w h d patient marker
                                   imgs lps ijk k a b).
Qed.

Lemma findings_loop_sound (df : list finding) resampled w h d n st st' :
  sound df w h d st →
  findings_loop true resampled w h d n df st = Ok st' →
  sound df w h d st'.
Proof.
  apply (for_each_preserves_in
           (Builder.finding_round py_int_of_str py_float_of_str
              padding_Execute TransformPhysicalPointToIndex rotation3d true
              resampled w h d n)
           (λ st, sound df w h d st)).
  intros patient a b Hin Ha Hab.
  by apply (finding_round_sound df resampled w h d n patient a b).
Qed.

Lemma pops_keep (l : list string) (c out : gmap string (list entry)) key v :
  for_each pop_key l c = Ok out → out !! key = Some v →
  c !! key = Some v ∧ key ∉ l.
Proof.
  revert c. induction l as [|k l IH]; intros c H Hout; cbn in H.
  - injection H as <-. split; [done|]. apply not_elem_of_nil.
  - unfold pop_key in H at 1. destruct (c !! k) eqn:Hk; [|done]. cbn in H.
    destruct (IH _ H Hout) as [Hdel Hnot].
    apply lookup_delete_Some in Hdel as [Hne Hc]. split; [done|].
    intros Hin. apply elem_of_cons in Hin as [->|Hin]; done.
Qed.

Lemma train_output_sound (df : list finding)
    (resampled : triple (list (option Image))) (w h d n : Z) (g g' : rng)
    (out : gmap string (list entry)) :
  image_cropper df resampled w h d n true g = Ok (out, g') →
  ∀ key l, out !! key = Some l →
    l ≠ []
    ∧ Forall
        (λ e : entry,
           length e.1 = 3%nat
           ∧ Forall (λ im, GetSize im = (w, h, d)) e.1
           ∧ (∃ first, e.1 !! 0%nat = Some first ∧ zero_sum first = false)
           ∧ ∃ f marker,
               f ∈ df ∧ ClinSig f = Some marker ∧ e.2 = Some marker
               ∧ key = train_key (patient_id f) marker) l.
Proof.
  intros Hrun key l Hl. unfold image_cropper, Builder.image_cropper in Hrun.
  destruct (n <? 1); [done|].
  apply bind_Ok in Hrun as (st & Hloop & Hrun).
  apply bind_Ok in Hrun as (crops' & Hpops & Hrun).
  injection Hrun as <- <-.
  destruct (pops_keep _ _ _ _ _ Hpops Hl) as [Hst Hvalid].
  assert (sound df w h d st) as Hsound.
  { apply (findings_loop_sound df resampled w h d n
             {| crops := ∅; invalid_keys := ∅; gen := g |} st); [|exact Hloop].
    cbn. intros ? ? Hempty. by rewrite lookup_empty in Hempty. }
  destruct (Hsound key l Hst) as [Hne Hall]. split; [done|].
  eapply Forall_impl; [exact Hall|]. cbn.
  intros e [(Hlen & Hsz & Hrow) Hzero].
  split; [done|]. split; [done|]. split; [|done].
  destruct (lookup_lt_is_Some_2 e.1 0) as [first Hfirst]; [lia|].
  exists first. split; [done|].
  destruct (zero_sum first) eqn:Ez; [|done].
  exfalso. apply Hvalid. apply elem_of_elements. by apply (Hzero first).
Qed.

(** X4.  Train mode.  In the dictionary [image_cropper] returns no list
    is empty, and every entry is a triple of patches that all have the
    size [(crop_width, crop_height, crop_depth)], whose first patch does
    not sum to zero, stored with the [ClinSig] marker of a row of the
    table under the key made of that row's patient id and marker. *)
Theorem train_entries_sound (df : list finding)
    (resampled : triple (list (option Image))) (w h d n : Z) (g g' : rng)
    (out : gmap string (list entry)) :
  image_cropper df resampled w h d n true g = Ok (out, g') →
  ∀ key l, out !! key = Some l →
    l ≠ []
    ∧ Forall
        (λ e : entry,
           length e.1 = 3%nat
           ∧ Forall (λ im, GetSize im = (w, h, d)) e.1
           ∧ (∃ first, e.1 !! 0%nat = Some first ∧ zero_sum first = false)
           ∧ ∃ f marker,
               f ∈ df ∧ ClinSig f = Some marker ∧ e.2 = Some marker
               ∧ key = train_key (patient_id f) marker) l.
Proof. apply train_output_sound. Qed.

(** *** Keys marked invalid with nothing stored *)

Lemma pops_absent (l : list string) (c : gmap string (list entry)) key :
  key ∈ l → c !! key = None → for_each pop_key l c = Raise KeyError.
Proof.
  revert c. induction l as [|k l IH]; intros c Hin Hc; cbn.
  - by apply not_elem_of_nil in Hin.
  - unfold pop_key at 1. destruct (c !! k) eqn:Hk; [|done]. cbn.
    apply IH.
    + apply elem_of_cons in Hin as [->|Hin]; [congruence|done].
    + destruct (decide (key = k)) as [->|Hne]; [congruence|].
      by rewrite lookup_delete_ne.
Qed.

Lemma crop_round_other_key pid marker imgs lps ijk w h d k st st' key :
  crops st !! key = None →
  train_key pid marker ≠ key
  ∨ (∀ g0 crop g1, make_crop imgs lps ijk w h d k g0 = Ok (crop, g1) →
       ∃ im, im ∈ crop ∧ GetSize im ≠ (w, h, d)) →
  crop_round true pid (Some marker) imgs lps ijk w h d k st = Ok st' →
  crops st' !! key = None.
Proof.
  intros Hkey Hor H. unfold crop_round, Builder.crop_round in H.
  apply bind_Ok in H as ([crop g1] & Hmk & H).
  cbn [mbind result_bind Py.bind Py.of_option] in H.
  case_bool_decide as Hsz; [by injection H as <-|].
  apply bind_Ok in H as (first & Hfirst & H). injection H as <-. cbn.
  destruct Hor as [Hne|Hbad].
  - by rewrite lookup_add_crop_ne.
  - exfalso. destruct (Hbad _ _ _ Hmk) as (im & Him & Hne).
    apply fmap_nil_inv in Hsz.
    assert (im ∈ filter (λ im, GetSize im ≠ (w, h, d)) crop) as Hin
      by (by apply list_elem_of_filter).
    rewrite Hsz in Hin. by apply not_elem_of_nil in Hin.
Qed.

(** X5.  Train mode.  If every crop that can be made for the findings of
    one key has a patch of another size than the configured one, and the
    table has such a finding, the key is marked invalid while nothing is
    ever stored under it, and the final [crops.pop(key)] raises KeyError:
    a run whose loops end does not return. *)
Theorem train_all_crops_misshapen (df : list finding)
    (resampled : triple (list (option Image))) (w h d n : Z) (g : rng)
    (st : state) (key : string) :
  1 ≤ n →
  findings_loop true resampled w h d n df
    {| crops := ∅; invalid_keys := ∅; gen := g |} = Ok st →
  (∃ f marker imgs lps ijk,
     f ∈ df
     ∧ finding_inputs true resampled f = Ok (Some (Some marker, imgs, lps, ijk))
     ∧ train_key (patient_id f) marker = key) →
  (∀ f marker imgs lps ijk,
     f ∈ df →
     finding_inputs true resampled f = Ok (Some (Some marker, imgs, lps, ijk)) →
     train_key (patient_id f) marker = key →
     ∀ k g0 crop g1,
       make_crop imgs lps ijk w h d k g0 = Ok (crop, g1) →
       ∃ im, im ∈ crop ∧ GetSize im ≠ (w, h, d)) →
  image_cropper df resampled w h d n true g = Raise KeyError.
Proof.
  intros Hn Hloop (f0 & m0 & imgs0 & lps0 & ijk0 & Hin0 & Hinputs0 & Hkey0) Hall.
  assert (crops st !! key = None) as Hnone.
  { revert Hloop.
    apply (for_each_preserves_in
             (Builder.finding_round py_int_of_str py_float_of_str
                padding_Execute TransformPhysicalPointToIndex rotation3d true
                resampled w h d n)
             (λ st, crops st !! key = None)); [|done].
    intros f a b Hf Ha Hab. unfold Builder.finding_round in Hab.
    apply bind_Ok in Hab as (inputs & Hinputs & Hab).
    destruct inputs as [[[[mk imgs] lps] ijk]|]; [|by injection Hab as <-].
    destruct (finding_inputs_train _ _ _ _ _ _ Hinputs) as [(marker & Hm & ->) _].
    revert Ha Hab.
    apply (for_each_preserves
             (Builder.crop_round rotation3d true (patient_id f)
                (Some marker) imgs lps ijk w h d)
             (λ st, crops st !! key = None)).
    intros k a' b' Ha' Hab'.
    apply (crop_round_other_key _ _ _ _ _ _ _ _ _ _ _ _ Ha') in Hab'; [done|].
    destruct (decide (train_key (patient_id f) marker = key)) as [Heq|Hne];
      [right|by left].
    intros g0 crop g1. by apply (Hall f marker imgs lps ijk). }
  assert (key ∈ invalid_keys st) as Hmarked.
  { apply list_elem_of_split in Hin0 as (pre & post & Hdf).
    unfold Builder.findings_loop in Hloop. rewrite Hdf, for_each_app in Hloop.
    apply bind_Ok in Hloop as (st1 & _ & Hloop). cbn [for_each] in Hloop.
    change (Py.bind ?m ?f) with (m ≫= f) in Hloop.
    apply bind_Ok in Hloop as (st2 & Hround & Hpost).
    apply (findings_loop_invalid_mono py_int_of_str py_float_of_str
             padding_Execute TransformPhysicalPointToIndex rotation3d
             true resampled w h d n post st2 st Hpost).
    unfold Builder.finding_round in Hround. rewrite Hinputs0 in Hround.
    cbn [mbind result_bind Py.bind] in Hround.
    destruct (range_split n 0 ltac:(lia)) as [rest Hsplit].
    rewrite Hsplit in Hround. cbn [range app for_each] in Hround.
    change (for_each ?b (range 0 ++ ?l) ?s) with (for_each b l s) in Hround.
    cbn [for_each] in Hround.
    change (Py.bind ?m ?f) with (m ≫= f) in Hround.
    apply bind_Ok in Hround as (st3 & Hstep & Hrest).
    apply (rounds_invalid_mono py_int_of_str py_float_of_str padding_Execute
             TransformPhysicalPointToIndex rotation3d
             _ _ _ _ _ _ _ _ _ _ _ _ Hrest).
    pose proof Hstep as Hstep'. unfold Builder.crop_round in Hstep'.
    apply bind_Ok in Hstep' as ([crop g1] & Hmk & _).
    rewrite <- Hkey0.
    apply (crop_round_marks py_int_of_str py_float_of_str padding_Execute
             TransformPhysicalPointToIndex rotation3d
             _ _ _ _ _ _ _ _ _ _ _ _ _ Hmk); [|done].
    left. apply (Hall f0 m0 imgs0 lps0 ijk0) with (k := 0) (g0 := gen st1)
                                                   (g1 := g1); try done.
    rewrite Hdf. apply elem_of_app. right. left. }
  unfold Builder.image_cropper.
  destruct (Z.ltb_spec n 1); [lia|].
  unfold Builder.findings_loop in Hloop |- *. rewrite Hloop.
  cbn [mbind result_bind Py.bind].
  rewrite (pops_absent _ _ key); [done| |done].
  by apply elem_of_elements.
Qed.

(** *** Findings with a blank modality *)

(** X6.  A row of the table one of whose three modality entries is the
    blank [""] is skipped without a trace: provided its volumes can be
    looked up (and, in train mode, it has a [ClinSig]), the call gives
    what it gives on the table without that row, generator included. *)
Theorem blank_finding_skipped (train : bool) (df_pre df_post : list finding)
    (patient : finding) (resampled : triple (list (option Image)))
    (w h d n : Z) (g : rng) (vols : list (option Image)) :
  modality_volumes resampled patient = Ok vols →
  None ∈ vols →
  (train = true → is_Some (ClinSig patient)) →
  image_cropper (df_pre ++ patient :: df_post) resampled w h d n train g
  = image_cropper (df_pre ++ df_post) resampled w h d n train g.
Proof.
  intros Hvols Hblank Hsig.
  assert (∀ st, finding_round train resampled w h d n patient st = Ok st)
    as Hskip.
  { intros st. unfold Builder.finding_round, Builder.finding_inputs.
    rewrite Hvols. cbn [mbind result_bind Py.bind].
    assert (existsb is_blank vols = true) as ->.
    { apply existsb_exists. exists None. split; [|done].
      by apply list_elem_of_In. }
    unfold read_marker. destruct train; [|done].
    destruct (Hsig eq_refl) as [m ->]. done. }
  unfold Builder.image_cropper. destruct (n <? 1); [done|].
  unfold Builder.findings_loop. rewrite !for_each_app. cbn [for_each].
  destruct (for_each _ df_pre _) as [st1|e]; [|done].
  cbn [mbind result_bind Py.bind]. by rewrite Hskip.
Qed.

(** *** One crop per finding *)

Local Abbreviation with_gen g st :=
  {| crops := crops st; invalid_keys := invalid_keys st; gen := g |}.

Lemma centred_round_no_draw pid mk imgs lps ijk w h d st st' :
  crop_round true pid mk imgs lps ijk w h d 0 st = Ok st' →
  gen st' = gen st
  ∧ ∀ g2, crop_round true pid mk imgs lps ijk w h d 0 (with_gen g2 st)
          = Ok (with_gen g2 st').
Proof.
  unfold crop_round, Builder.crop_round, Builder.make_crop.
  cbn [Z.eqb gen]. intros H.
  destruct (crop_from_center imgs ijk w h d 0 0) as [crop|]; [|done].
  cbn [mbind result_bind Py.bind] in H |- *.
  destruct mk as [marker|]; [|done].
  cbn [mbind result_bind Py.bind Py.of_option] in H |- *.
  case_bool_decide; [by injection H as <-|].
  destruct (Py.index crop 0) as [first|]; [|done].
  cbn [mbind result_bind Py.bind] in H |- *. by injection H as <-.
Qed.

Lemma single_round_no_draw resampled w h d patient st st' :
  finding_round true resampled w h d 1 patient st = Ok st' →
  gen st' = gen st
  ∧ ∀ g2, finding_round true resampled w h d 1 patient (with_gen g2 st)
          = Ok (with_gen g2 st').
Proof.
  unfold finding_round, Builder.finding_round. intros H.
  destruct (finding_inputs true resampled patient)
    as [[[[[mk imgs] lps] ijk]|]|]; [| |done].
  - cbn [mbind result_bind Py.bind] in H |- *.
    change (range 1) with [0] in H |- *. cbn [for_each] in H |- *.
    change (Py.bind ?m ?f) with (m ≫= f) in H.
    apply bind_Ok in H as (st1 & H1 & H2). injection H2 as <-.
    apply centred_round_no_draw in H1 as [Hg H1]. split; [done|].
    intros g2. by rewrite H1.
  - cbn [mbind result_bind Py.bind] in H |- *. by injection H as <-.
Qed.

Lemma single_loop_no_draw resampled w h d df st st' :
  findings_loop true resampled w h d 1 df st = Ok st' →
  gen st' = gen st
  ∧ ∀ g2, findings_loop true resampled w h d 1 df (with_gen g2 st)
          = Ok (with_gen g2 st').
Proof.
  unfold findings_loop, Builder.findings_loop.
  revert st. induction df as [|patient df IH]; intros st H; cbn [for_each] in *.
  - injection H as <-. done.
  - change (Py.bind ?m ?f) with (m ≫= f) in H.
    apply bind_Ok in H as (st1 & H1 & H2).
    apply single_round_no_draw in H1 as [Hg1 H1].
    apply IH in H2 as [Hg2 H2]. split; [congruence|].
    intros g2. rewrite H1. cbn [Py.bind]. apply H2.
Qed.

(** X7.  Train mode with one crop per finding, the default: the only
    crop of a finding is the centred one, so the builder draws nothing.
    The generator comes back as it went in, and the dictionary returned
    is the same for every state of the generator. *)
Theorem single_crop_train_draws_nothing (df : list finding)
    (resampled : triple (list (option Image))) (w h d : Z) (g g' : rng)
    (out : gmap string (list entry)) :
  image_cropper df resampled w h d 1 true g = Ok (out, g') →
  g' = g
  ∧ ∀ g2, image_cropper df resampled w h d 1 true g2 = Ok (out, g2).
Proof.
  unfold image_cropper, Builder.image_cropper. cbn [Z.ltb Z.compare Pos.compare].
  intros H. apply bind_Ok in H as (st & Hloop & H).
  apply bind_Ok in H as (crops' & Hpops & H). injection H as <- <-.
  apply single_loop_no_draw in Hloop as [Hg Hloop]. split; [done|].
  intros g2. specialize (Hloop g2). cbn [crops invalid_keys] in Hloop.
  rewrite Hloop. cbn [mbind result_bind Py.bind crops invalid_keys gen].
  by rewrite Hpops.
Qed.

(** *** Entries per key *)

Lemma crop_round_count pid marker imgs lps ijk w h d k st st' :
  crop_round true pid (Some marker) imgs lps ijk w h d k st = Ok st' →
  (∀ key, key ≠ train_key pid marker →
     entries (crops st') key = entries (crops st) key)
  ∧ (train_key pid marker ∈ invalid_keys st'
     ∨ length (entries (crops st') (train_key pid marker))
       = S (length (entries (crops st) (train_key pid marker))))
  ∧ invalid_keys st ⊆ invalid_keys st'.
Proof.
  intros H. unfold crop_round, Builder.crop_round in H.
  apply bind_Ok in H as ([crop g1] & _ & H).
  cbn [mbind result_bind Py.bind Py.of_option] in H.
  case_bool_decide as Hsz.
  - injection H as <-. cbn [crops invalid_keys]. split; [done|]. split.
    + left. apply elem_of_union_l. by apply elem_of_singleton.
    + apply union_subseteq_r.
  - apply bind_Ok in H as (first & _ & H). injection H as <-.
    cbn [crops invalid_keys]. split; [|split].
    + intros key Hne. by apply entries_add_crop_ne.
    + right. rewrite entries_add_crop_eq, length_app. cbn. lia.
    + destruct (zero_sum first); [apply union_subseteq_r|done].
Qed.

Lemma rounds_count pid marker imgs lps ijk w h d nums st st' :
  for_each (crop_round true pid (Some marker) imgs lps ijk w h d) nums st
    = Ok st' →
  (∀ key, key ≠ train_key pid marker →
     entries (crops st') key = entries (crops st) key)
  ∧ (train_key pid marker ∈ invalid_keys st'
     ∨ length (entries (crops st') (train_key pid marker))
       = (length (entries (crops st) (train_key pid marker))
          + length nums)%nat)
  ∧ invalid_keys st ⊆ invalid_keys st'.
Proof.
  revert st. induction nums as [|k nums IH]; intros st H; cbn [for_each] in H.
  - injection H as <-. split; [done|]. split; [right; cbn; lia|done].
  - change (Py.bind ?m ?f) with (m ≫= f) in H.
    apply bind_Ok in H as (st1 & Hstep & Hrest).
    apply crop_round_count in Hstep as (Hother1 & Hkey1 & Hmono1).
    apply IH in Hrest as (Hother & Hkey & Hmono).
    split; [|split].
    + intros key Hne. by rewrite Hother, Hother1.
    + destruct Hkey as [Hkey|Hkey]; [by left|].
      destruct Hkey1 as [Hkey1|Hkey1]; [left; by apply Hmono|].
      right. rewrite Hkey, Hkey1. cbn [length]. lia.
    + by etrans.
Qed.

Lemma finding_round_multiples resampled w h d n patient st st' :
  (∀ key, key ∉ invalid_keys st →
     ∃ m, length (entries (crops st) key) = (m * Z.to_nat n)%nat) →
  finding_round true resampled w h d n patient st = Ok st' →
  ∀ key, key ∉ invalid_keys st' →
    ∃ m, length (entries (crops st') key) = (m * Z.to_nat n)%nat.
Proof.
  intros Hst H key Hkey. unfold finding_round, Builder.finding_round in H.
  apply bind_Ok in H as (inputs & Hinputs & H).
  destruct inputs as [[[[mk imgs] lps] ijk]|]; [|injection H as <-; by apply Hst].
  apply finding_inputs_train in Hinputs as [(marker & Hm & ->) _].
  apply rounds_count in H as (Hother & Hthis & Hmono).
  rewrite length_range in Hthis.
  destruct (Hst key) as [m Hlen]; [intros Hin; by apply Hkey, Hmono|].
  destruct (decide (key = train_key (patient_id patient) marker)) as [->|Hne].
  - destruct Hthis as [Hin|Hlen']; [done|].
    exists (S m). rewrite Hlen', Hlen. lia.
  - exists m. by rewrite Hother.
Qed.

(** The number of entries under a key of the returned dictionary is a
    positive multiple of the number of crops per finding. *)
Lemma train_output_multiples (df : list finding)
    (resampled : triple (list (option Image))) (w h d n : Z) (g g' : rng)
    (out : gmap string (list entry)) :
  image_cropper df resampled w h d n true g = Ok (out, g') →
  1 ≤ n
  ∧ ∀ key l, out !! key = Some l →
      ∃ m, (0 < m)%nat ∧ length l = (m * Z.to_nat n)%nat.
Proof.
  intros Hrun. pose proof Hrun as Hsound.
  unfold image_cropper, Builder.image_cropper in Hrun.
  destruct (Z.ltb_spec n 1); [done|]. split; [done|].
  apply bind_Ok in Hrun as (st & Hloop & Hrun).
  apply bind_Ok in Hrun as (crops' & Hpops & Hrun).
  injection Hrun as <- <-. intros key l Hl.
  destruct (train_output_sound _ _ _ _ _ _ _ _ _ Hsound key l Hl) as [Hne _].
  destruct (pops_keep _ _ _ _ _ Hpops Hl) as [Hst Hvalid].
  assert (∀ key, key ∉ invalid_keys st →
            ∃ m, length (entries (crops st) key) = (m * Z.to_nat n)%nat)
    as Hmult.
  { revert Hloop.
    apply (for_each_preserves
             (Builder.finding_round py_int_of_str py_float_of_str
                padding_Execute TransformPhysicalPointToIndex rotation3d true
                resampled w h d n)
             (λ st, ∀ key, key ∉ invalid_keys st →
                      ∃ m, length (entries (crops st) key)
                           = (m * Z.to_nat n)%nat)).
    - intros patient a b Ha Hab. by apply (finding_round_multiples resampled w h d n patient a).
    - intros key' _. exists 0%nat. by cbn. }
  destruct (Hmult key) as [m Hm].
  { intros Hin. by apply Hvalid, elem_of_elements. }
  unfold entries in Hm. rewrite Hst in Hm. cbn in Hm.
  exists m. split; [|done]. destruct m; [|lia]. by destruct l.
Qed.

End Library.
End BuilderInvariants.

Module PartitionerEdges.
Import Cropper Builder Partitioner PartitionerFacts CropperEdges.

Lemma sample_raises (population : gset Z) (k : Z) (g : rng) (e : exn) :
  sample population k g = Raise e → e = ValueError.
Proof.
  unfold sample.
  destruct ((k <? 0) || (Z.of_nat (length (elements population)) <? k));
    [by intros [= <-]|done].
Qed.

Lemma sample_short (population : gset Z) (k : Z) (g : rng) :
  Z.of_nat (size population) < k → sample population k g = Raise ValueError.
Proof.
  intros Hk. unfold sample.
  destruct (Z.ltb_spec k 0); [done|].
  destruct (Z.ltb_spec (Z.of_nat (length (elements population))) k); [done|].
  unfold size, set_size in Hk. cbn in Hk. lia.
Qed.

Lemma select_label_subset label patient_images c (s s' : gset Z) r :
  select_label label patient_images c s = Ok r → s' ⊆ s →
  ∃ r', select_label label patient_images c s' = Ok r'.
Proof.
  unfold select_label. intros H Hsub.
  apply bind_Ok in H as (kept & Hkept & _).
  apply comprehension_Forall2 in Hkept.
  destruct (comprehension_total
              (λ idx, c0 ← label_of patient_images c idx;
                      Ok (idx, bool_decide (c0 = label)))
              (elements s')) as [kept' ->]; [|cbn; eauto].
  intros idx Hidx. apply elem_of_elements, Hsub, elem_of_elements in Hidx.
  apply list_elem_of_lookup in Hidx as [n Hn].
  destruct (Forall2_lookup_l _ _ _ _ _ Hkept Hn) as (y & _ & Hy). eauto.
Qed.

Lemma fold_round_majority patient_images c (patients N C : gset Z) n g :
  (∀ idx, idx ∈ N ↔ idx ∈ patients ∧ label_of patient_images c idx = Ok zero_char) →
  (∀ idx, idx ∈ C ↔ idx ∈ patients ∧ label_of patient_images c idx = Ok one_char) →
  select_label one_char patient_images c patients = Ok C →
  (size patients < 2 * size C)%nat →
  fold_round patient_images c patients N C n g = Raise ValueError.
Proof.
  intros HN HC Hsel Hmaj. unfold fold_round.
  destruct (sample N n g) as [[ln g1]|e] eqn:E1;
    [|by rewrite (sample_raises _ _ _ _ E1)].
  cbn [mbind result_bind Py.bind].
  destruct (sample C n g1) as [[lc g2]|e] eqn:E2;
    [|by rewrite (sample_raises _ _ _ _ E2)].
  cbn [mbind result_bind Py.bind].
  apply sample_set in E1 as [Hn1 Hn2], E2 as [Hc1 Hc2].
  set (Vn := list_to_set ln : gset Z) in *.
  set (Vc := list_to_set lc : gset Z) in *.
  destruct (select_label_subset one_char patient_images c patients
              (patients ∖ (Vn ∪ Vc)) C Hsel) as [Cout Hout];
    [apply subseteq_difference_l; done|].
  rewrite Hout. cbn [mbind result_bind Py.bind].
  pose proof (select_label_spec _ _ _ _ _ Hout) as Hspec.
  assert (N ## C) as Hdisj.
  { intros x Hx Hx'. apply HN in Hx as [_ Hx]. apply HC in Hx' as [_ Hx'].
    rewrite Hx in Hx'. injection Hx' as Hx'. by apply one_not_zero. }
  assert (C ⊆ patients) as HCp by (intros x Hx; by apply HC in Hx as [? _]).
  assert (N ⊆ patients) as HNp by (intros x Hx; by apply HN in Hx as [? _]).
  assert (Cout = C ∖ Vc) as ->.
  { apply set_eq. intros x. rewrite Hspec, !elem_of_difference, elem_of_union.
    rewrite (HC x). split.
    - intros [[Hp Hnot] Hl]. split; [done|]. intros Hv. apply Hnot. by right.
    - intros [[Hp Hl] Hv]. split; [|done]. split; [done|].
      intros [Hx|Hx]; [|done]. apply Hn1 in Hx.
      apply (Hdisj x); [done|]. by apply HC. }
  assert ((patients ∖ (Vn ∪ Vc)) ∖ (C ∖ Vc) = patients ∖ (Vn ∪ C)) as ->.
  { apply set_eq. intros x. rewrite !elem_of_difference, !elem_of_union.
    split.
    - intros [[Hp Hnot] Hc]. split; [done|]. intros [Hx|Hx].
      + apply Hnot. by left.
      + destruct (decide (x ∈ Vc)) as [Hv|Hv]; [apply Hnot; by right|].
        by apply Hc.
    - intros [Hp Hnot]. split; [split; [done|]|].
      + intros [Hx|Hx]; apply Hnot; [by left|right; by apply Hc1].
      + intros [Hx _]. apply Hnot. by right. }
  rewrite sample_short; [done|].
  assert (Vn ## C) as Hdisj'.
  { intros x Hx Hx'. apply (Hdisj x); [by apply Hn1|done]. }
  pose proof (size_union _ _ Hdisj') as Hu.
  pose proof (size_difference C Vc Hc1) as Hd1.
  assert (Vn ∪ C ⊆ patients) as Hsub.
  { apply union_least; [|done]. by etrans. }
  pose proof (size_difference patients (Vn ∪ C) Hsub) as Hd2.
  pose proof (subseteq_size _ _ Hsub).
  pose proof (subseteq_size _ _ Hc1).
  lia.
Qed.

(** X8.  When the patients whose key ends in ['1'] are more than half of
    all patients, the first fold cannot fill the training set with as many
    other patients as cancer patients outside the fold: every call that
    gets as far as the folds raises ValueError from [random.sample]. *)
Theorem cancer_majority_raises
    (cropped_images : list (string * list entry))
    (num_crops num_folds : Z) (fold_fraction : float) (g : rng)
    (written : list (list (string * Image))) (N C : gset Z) (n : Z) :
  let patient_images := flatten_patients cropped_images in
  let patients := patient_indices_of patient_images num_crops in
  comprehension (λ '(p_id, item), write_patch p_id item)
    (Cropper.enumerate patient_images) = Ok written →
  num_crops ≠ 0 → 1 ≤ num_folds →
  select_label zero_char patient_images num_crops patients = Ok N →
  select_label one_char patient_images num_crops patients = Ok C →
  num_each_class fold_fraction C = Ok n →
  (size patients < 2 * size C)%nat →
  write_cropped_images_train_and_folds cropped_images num_crops num_folds
    fold_fraction g = Raise ValueError.
Proof.
  intros patient_images patients Hw Hc HK HN HC Hn Hmaj.
  unfold write_cropped_images_train_and_folds.
  fold patient_images. rewrite Hw. cbn [mbind result_bind Py.bind].
  destruct (Z.eqb_spec num_crops 0); [done|].
  fold patients. rewrite HN. cbn [mbind result_bind Py.bind].
  rewrite HC. cbn [mbind result_bind Py.bind].
  rewrite Hn. cbn [mbind result_bind Py.bind].
  destruct (range_split num_folds 0 ltac:(lia)) as [rest ->].
  cbn [range app for_each].
  change (range 0 ++ 0 :: rest) with (0 :: rest). cbn [for_each].
  rewrite (fold_round_majority patient_images num_crops patients N C n g);
    try done.
  - by apply select_label_spec.
  - by apply select_label_spec.
Qed.

(** *** The mappings of a returned partition *)

Lemma size_rekey (s : gset Z) : size (rekey s) = size s.
Proof.
  rewrite <- size_dom.
  assert (dom (rekey s) = list_to_set (range (Z.of_nat (size s)))) as ->.
  { apply set_eq. intros key.
    rewrite elem_of_dom, elem_of_list_to_set, elem_of_range.
    apply (proj1 (rekey_dense s)). }
  rewrite size_list_to_set.
  - rewrite length_range. lia.
  - unfold range. apply NoDup_fmap; [apply _|apply NoDup_seq].
Qed.

Lemma size_expand (s : gset Z) (c : Z) :
  size (expand s c) = (size s * Z.to_nat c)%nat.
Proof.
  unfold expand. rewrite size_list_to_set.
  - change (size s) with (length (elements s)).
    assert (∀ (x : Z) (r : list Z),
              length (r ≫= λ pos, [x * c + pos]) = length r) as Hinner.
    { intros x r. induction r as [|y r IH]; [done|].
      rewrite bind_cons, length_app, IH. done. }
    induction (elements s) as [|x l IH]; [done|].
    rewrite bind_cons, length_app, IH, Hinner, length_range. cbn [length]. lia.
  - apply NoDup_bind.
    + intros x1 x2 y Hx1 Hx2 H1 H2.
      apply list_elem_of_bind in H1 as (p1 & H1 & Hp1).
      apply list_elem_of_bind in H2 as (p2 & H2 & Hp2).
      apply list_elem_of_singleton in H1, H2.
      apply elem_of_range in Hp1, Hp2. nia.
    + intros x _. apply NoDup_bind.
      * intros p1 p2 y _ _ H1 H2.
        apply list_elem_of_singleton in H1, H2. lia.
      * intros. apply NoDup_singleton.
      * unfold range. apply NoDup_fmap; [apply _|apply NoDup_seq].
    + apply NoDup_elements.
Qed.

Lemma rekey_onto (s : gset Z) (P : Z → Prop) :
  maps_onto (rekey s) P → ∀ i, i ∈ s ↔ P i.
Proof.
  intros H i. rewrite <- (H i). symmetry. apply rekey_values.
Qed.

Lemma fold_round_rekeyed patient_images c patients N C n g fm tm g' :
  fold_round patient_images c patients N C n g = Ok (fm, tm, g') →
  ∃ F T : gset Z, fm = rekey F ∧ tm = rekey T.
Proof.
  unfold fold_round. intros H.
  apply bind_Ok in H as ([ln g1] & _ & H).
  apply bind_Ok in H as ([lc g2] & _ & H).
  apply bind_Ok in H as (Cout & _ & H).
  apply bind_Ok in H as ([ls g3] & _ & H).
  injection H as <- <- <-. eauto.
Qed.

Lemma folds_loop_rekeyed patient_images c patients N C n
    (nums : list Z) fs ts g fs' ts' g' :
  for_each
    (λ _ '(folds, trains, g),
       '(fold_key_mapping, train_key_mapping, g1) ←
          fold_round patient_images c patients N C n g;
       Ok (folds ++ [fold_key_mapping], trains ++ [train_key_mapping], g1))
    nums (fs, ts, g) = Ok (fs', ts', g') →
  Forall (λ m, ∃ s : gset Z, m = rekey s) (fs ++ ts) →
  Forall (λ m, ∃ s : gset Z, m = rekey s) (fs' ++ ts').
Proof.
  revert fs ts g.
  induction nums as [|k nums IH]; intros fs ts g H HF; cbn in H.
  - by injection H as <- <- <-.
  - change (Py.bind ?m ?f) with (m ≫= f) in H.
    apply bind_Ok in H as ([[fs1 ts1] g1] & Hstep & Hrest).
    apply bind_Ok in Hstep as ([[fm tm] g2] & Hround & Hstep).
    injection Hstep as <- <- <-.
    apply fold_round_rekeyed in Hround as (F & T & -> & ->).
    apply (IH _ _ _ Hrest).
    apply Forall_app in HF as [HF1 HF2].
    rewrite !Forall_app. repeat split; try done; repeat constructor; eauto.
Qed.

Lemma partition_rekeyed cropped c K f g p g' :
  write_cropped_images_train_and_folds cropped c K f g = Ok (p, g') →
  Forall (λ m, ∃ s : gset Z, m = rekey s)
    (fold_key_mappings p ++ train_key_mappings p).
Proof.
  intros H. unfold write_cropped_images_train_and_folds in H.
  apply bind_Ok in H as (written & _ & H).
  destruct (c =? 0); [done|].
  apply bind_Ok in H as (N & HN & H).
  apply bind_Ok in H as (C & HC & H).
  apply bind_Ok in H as (n & Hn & H).
  apply bind_Ok in H as ([[fs ts] g1] & Hloop & H).
  injection H as <- <-. cbn [fold_key_mappings train_key_mappings].
  by apply (folds_loop_rekeyed _ _ _ _ _ _ _ _ _ _ _ _ _ Hloop).
Qed.

(** X9.  The sizes of the mappings, for a positive number of crops per
    patient: with [C] the patients whose key ends in ['1'] and
    [n = int(fold_fraction * |C|)], every validation mapping of a returned
    partition has [2 * n * num_crops] entries and every training mapping
    [2 * (|C| - n) * num_crops]. *)
Theorem fold_mapping_sizes
    (cropped_images : list (string * list entry))
    (num_crops num_folds : Z) (fold_fraction : float) (g g' : rng)
    (p : partition) :
  0 < num_crops →
  write_cropped_images_train_and_folds cropped_images num_crops num_folds
    fold_fraction g = Ok (p, g') →
  let patient_images := flatten_patients cropped_images in
  let patients := patient_indices_of patient_images num_crops in
  ∃ C n,
    select_label one_char patient_images num_crops patients = Ok C
    ∧ num_each_class fold_fraction C = Ok n
    ∧ ∀ k fold_mapping train_mapping,
        fold_key_mappings p !! k = Some fold_mapping →
        train_key_mappings p !! k = Some train_mapping →
        Z.of_nat (size fold_mapping) = 2 * n * num_crops
        ∧ Z.of_nat (size train_mapping)
          = 2 * (Z.of_nat (size C) - n) * num_crops.
Proof.
  intros Hc Hrun patient_images patients.
  destruct (partition_folds _ _ _ _ _ _ _ Hrun)
    as (N & C & n & HN & HC & Hdisj & Hn & Hlen & HF).
  pose proof (partition_rekeyed _ _ _ _ _ _ _ Hrun) as Hre.
  apply Forall_app in Hre as [Hre1 Hre2].
  exists C, n. split; [done|]. split; [done|].
  intros k fm tm Hfm Htm.
  pose proof (Forall2_lookup_lr _ _ _ _ _ _ HF Hfm Htm)
    as (Vn & Vc & S & HVn & HVn' & HVc & HVc' & HS & HS' & Hfold & Htrain).
  destruct (proj1 (Forall_lookup _ _) Hre1 _ _ Hfm) as [F ->].
  destruct (proj1 (Forall_lookup _ _) Hre2 _ _ Htm) as [T ->].
  pose proof (rekey_onto _ _ Hfold) as HF'.
  pose proof (rekey_onto _ _ Htrain) as HT'.
  assert (F = expand (Vn ∪ Vc) num_crops) as ->.
  { apply set_eq. intros i. by rewrite HF', elem_of_expand. }
  assert (T = expand ((C ∖ Vc) ∪ S) num_crops) as ->.
  { apply set_eq. intros i. by rewrite HT', elem_of_expand. }
  rewrite !size_rekey, !size_expand.
  assert (Vn ## Vc) as D1.
  { intros x Hx Hx'. apply (Hdisj x); [by apply HVn|by apply HVc]. }
  assert (C ∖ Vc ## S) as D2.
  { intros x Hx Hx'. apply HS in Hx'.
    apply elem_of_difference in Hx as [Hx _].
    apply elem_of_difference in Hx' as [Hx' _].
    by apply elem_of_difference in Hx' as [_ Hx']. }
  rewrite (size_union _ _ D1), (size_union _ _ D2), <- HS'.
  pose proof (size_difference C Vc HVc) as Hd.
    pose proof (subseteq_size _ _ HVc). nia.
Qed.

End PartitionerEdges.

Module PathFacts.
Import Builder Partitioner Provider Dataset.

Lemma split_on_cons (sep : Ascii.ascii) (s : string) :
  ∃ h t, split_on sep s = h :: t.
Proof.
  induction s as [|c s (h & t & IH)]; cbn; [eauto|].
  destruct (decide (c = sep)); [eauto|]. rewrite IH. eauto.
Qed.

Lemma split_on_free (sep : Ascii.ascii) (pre rest : string) :
  free_of sep pre = true →
  split_on sep (pre +:+ String sep rest) = pre :: split_on sep rest.
Proof.
  induction pre as [|a pre IH]; cbn [free_of]; intros H.
  - change ("" +:+ String sep rest) with (String sep rest). cbn [split_on].
    by rewrite decide_True.
  - apply andb_true_iff in H as [Ha H]. apply negb_true_iff in Ha.
    apply Ascii.eqb_neq in Ha.
    change (String a pre +:+ String sep rest)
      with (String a (pre +:+ String sep rest)).
    cbn [split_on]. rewrite decide_False by done. by rewrite (IH H).
Qed.

Lemma free_of_app (c : Ascii.ascii) (s1 s2 : string) :
  free_of c (s1 +:+ s2) = free_of c s1 && free_of c s2.
Proof.
  induction s1 as [|a s1 IH]; [done|].
  change (String a s1 +:+ s2) with (String a (s1 +:+ s2)). cbn [free_of].
  by rewrite IH, andb_assoc.
Qed.

Lemma pretty_N_char_free (c : Ascii.ascii) (x : N) :
  Ascii.is_nat c = None → Ascii.eqb (pretty_N_char x) c = false.
Proof.
  intros Hc. apply Ascii.eqb_neq. intros <-.
  unfold pretty_N_char in Hc. by repeat case_match.
Qed.

Lemma pretty_N_go_free (c : Ascii.ascii) (x : N) (s : string) :
  Ascii.is_nat c = None → free_of c (pretty_N_go x s) = free_of c s.
Proof.
  intros Hc. revert s. induction (N.lt_wf_0 x) as [x _ IH]; intros s.
  assert (x = 0 ∨ 0 < x)%N as [->|?] by lia.
  - by rewrite pretty_N_go_0.
  - rewrite pretty_N_go_step by done.
    rewrite IH by (by apply N.div_lt). cbn [free_of].
    by rewrite pretty_N_char_free.
Qed.

Lemma pretty_Z_free (c : Ascii.ascii) (z : Z) :
  Ascii.is_nat c = None → c ≠ dash → free_of c (pretty z) = true.
Proof.
  intros Hc Hd.
  assert (∀ p : positive, free_of c (pretty p) = true) as Hpos.
  { intros p. unfold pretty, pretty_positive, pretty, pretty_N.
    case_decide; [done|]. by rewrite pretty_N_go_free. }
  destruct z as [|p|p]; unfold pretty, pretty_Z.
  - change (free_of c (String (pretty_N_char 0) "") = true). cbn [free_of].
    by rewrite pretty_N_char_free.
  - apply Hpos.
  - rewrite free_of_app, Hpos.
    change (free_of c "-") with (negb (Ascii.eqb dash c) && true).
    destruct (Ascii.eqb_spec dash c) as [E|_]; [by symmetry in E|done].
Qed.

Lemma append_assoc (s1 s2 s3 : string) :
  (s1 +:+ s2) +:+ s3 = s1 +:+ (s2 +:+ s3).
Proof.
  induction s1 as [|a s1 IH]; [done|].
  change ((String a s1 +:+ s2) +:+ s3) with (String a ((s1 +:+ s2) +:+ s3)).
  by rewrite IH.
Qed.

Lemma last_char_app (s t : string) :
  t ≠ EmptyString → last_char (s +:+ t) = last_char t.
Proof.
  intros Ht. induction s as [|a s IH]; [done|].
  change (String a s +:+ t) with (String a (s +:+ t)). cbn [last_char].
  destruct (s +:+ t) eqn:E; [|done].
  destruct s; [|done]. by destruct t.
Qed.

Lemma pretty_N_go_last (x : N) (s : string) :
  s ≠ EmptyString → last_char (pretty_N_go x s) = last_char s.
Proof.
  revert s. induction (N.lt_wf_0 x) as [x _ IH]; intros s Hs.
  assert (x = 0 ∨ 0 < x)%N as [->|?] by lia.
  - by rewrite pretty_N_go_0.
  - rewrite pretty_N_go_step by done.
    rewrite IH; [|by apply N.div_lt|done]. by destruct s.
Qed.

Lemma pretty_positive_last (p : positive) :
  last_char (pretty p) = Ok (pretty_N_char (N.pos p mod 10))
  ∧ pretty p ≠ EmptyString.
Proof.
  unfold pretty, pretty_positive, pretty, pretty_N.
  case_decide; [done|]. rewrite pretty_N_go_step by lia. split.
  - by rewrite pretty_N_go_last.
  - intros E.
    pose proof (pretty_N_go_free dot (N.pos p `div` 10)
                  (String (pretty_N_char (N.pos p `mod` 10)) "") eq_refl) as F.
    assert (last_char (pretty_N_go (N.pos p `div` 10)
                         (String (pretty_N_char (N.pos p `mod` 10)) ""))
            = Ok (pretty_N_char (N.pos p `mod` 10)))
      as L by (by rewrite pretty_N_go_last).
    by rewrite E in L.
Qed.

Lemma pretty_Z_last (z : Z) :
  last_char (pretty z) = Ok (pretty_N_char (Z.to_N (Z.abs z) mod 10)).
Proof.
  destruct z as [|p|p]; unfold pretty at 1, pretty_Z.
  - done.
  - apply pretty_positive_last.
  - destruct (pretty_positive_last p) as [L Hne].
    by rewrite last_char_app.
Qed.

Lemma digit_value_char (n : N) :
  (n < 10)%N → digit_value (pretty_N_char n) = Ok (Z.of_N n).
Proof.
  intros Hn.
  assert (n = 0 ∨ n = 1 ∨ n = 2 ∨ n = 3 ∨ n = 4 ∨ n = 5 ∨ n = 6 ∨ n = 7
          ∨ n = 8 ∨ n = 9)%N as H by lia.
  by repeat destruct H as [->|H]; [..|subst].
Qed.

Lemma valid_modality_free (modality : string) :
  modality ∈ ["t2"; "bval"; "adc"] → free_of dot modality = true.
Proof.
  intros Hm. rewrite !elem_of_cons in Hm.
  by destruct Hm as [->|[->|[->|Hm]]]; [| | |apply not_elem_of_nil in Hm].
Qed.

Lemma pretty_Z_nonempty (z : Z) (s : string) :
  last_char (s +:+ pretty z) = last_char (pretty z).
Proof.
  apply last_char_app. intros E.
  pose proof (pretty_Z_last z) as L. by rewrite E in L.
Qed.

Lemma label_of_train_path (modality : string) (index label : Z) :
  modality ∈ ["t2"; "bval"; "adc"] →
  label_of_path (train_path modality index label) = Ok (Z.abs label mod 10).
Proof.
  intros Hm. unfold label_of_path, train_path.
  rewrite <- !append_assoc.
  change ".nrrd" with (String dot "nrrd").
  rewrite split_on_free.
  - change (Py.index (?a :: ?l) 0) with (Ok a).
    cbn [mbind result_bind Py.bind].
    rewrite pretty_Z_nonempty, pretty_Z_last.
    cbn [mbind result_bind Py.bind].
    rewrite digit_value_char by (apply N.mod_lt; lia).
    f_equal. rewrite N2Z.inj_mod, Z2N.id by lia. done.
  - rewrite !free_of_app, (valid_modality_free _ Hm).
    by rewrite !pretty_Z_free.
Qed.

Lemma split_first (c : Ascii.ascii) (s1 s2 t1 t2 : string) :
  free_of c s1 = true → free_of c s2 = true →
  s1 +:+ String c t1 = s2 +:+ String c t2 → s1 = s2 ∧ t1 = t2.
Proof.
  revert s2. induction s1 as [|a s1 IH]; intros [|b s2] H1 H2 E.
  - by injection E as <-.
  - exfalso. injection E as <- _. cbn in H2.
    by rewrite Ascii.eqb_refl in H2.
  - exfalso. injection E as -> _. cbn in H1.
    by rewrite Ascii.eqb_refl in H1.
  - injection E as <- E. cbn in H1, H2.
    apply andb_true_iff in H1 as [_ H1], H2 as [_ H2].
    destruct (IH s2 H1 H2 E) as [-> ->]. done.
Qed.

Lemma patch_path_train_path (modality : string) (index label : Z) :
  patch_path modality index label = train_path modality index label.
Proof. reflexivity. Qed.

Lemma patch_path_inj (m1 m2 : string) (i1 i2 l1 l2 : Z) :
  m1 ∈ ["t2"; "adc"; "bval"] → m2 ∈ ["t2"; "adc"; "bval"] →
  patch_path m1 i1 l1 = patch_path m2 i2 l2 →
  m1 = m2 ∧ i1 = i2 ∧ l1 = l2.
Proof.
  intros H1 H2 E. unfold patch_path in E.
  apply (inj (String.append destination)) in E.
  assert (m1 = m2
          ∧ pretty i1 +:+ String underscore (pretty l1 +:+ String dot "nrrd")
            = pretty i2 +:+ String underscore (pretty l2 +:+ String dot "nrrd"))
    as [-> E'].
  { rewrite !elem_of_cons in H1, H2.
    destruct H1 as [->|[->|[->|H1]]]; [| | |by apply not_elem_of_nil in H1];
      destruct H2 as [->|[->|[->|H2]]]; try (by apply not_elem_of_nil in H2);
      try (by injection E); done. }
  split; [done|].
  apply split_first in E' as [Ei El]; [|by apply pretty_Z_free..].
  apply split_first in El as [El _]; [|by apply pretty_Z_free..].
  split; [by apply (inj pretty)|by apply (inj pretty)].
Qed.

End PathFacts.

Module DatasetFacts.
Import Cropper Builder Partitioner Provider Dataset PathFacts PartitionerFacts CropperEdges PartitionerEdges.

Section Disk.
Variable ReadImage : string → result Image.
Variable NormalizeImageFilter_Execute : Image → Image.

Local Abbreviation normalized_image :=
  (Provider.normalized_image ReadImage NormalizeImageFilter_Execute).
Local Abbreviation __getitem__ :=
  (Provider.__getitem__ ReadImage NormalizeImageFilter_Execute).

(** X10.  Train mode, for a modality the constructor accepts.  The label
    of a sample is read off the name of the file that was opened, and the
    file of label 0 is tried first: a read that returns has label 0 when
    that file can be read, and label 1 when it cannot and the file of
    label 1 can; no other label is ever returned. *)
Theorem train_read_label (self : ProstateImages) (index : Z) (g g' : rng)
    (s : sample) :
  train self = true →
  modality self ∈ ["t2"; "bval"; "adc"] →
  __getitem__ self index g = Ok (s, g') →
  (∃ d, Py.index (mapping self) (map_num self) = Ok d
        ∧ d !! (index + first_index self) = Some (s_index s))
  ∧ ((s_cancer s = Some 0
      ∧ ∃ image, ReadImage (train_path (modality self) (s_index s) 0) = Ok image)
     ∨ (s_cancer s = Some 1
        ∧ (∃ e, ReadImage (train_path (modality self) (s_index s) 0) = Raise e)
        ∧ ∃ image,
            ReadImage (train_path (modality self) (s_index s) 1) = Ok image)).
Proof.
  intros Htrain Hm H. unfold __getitem__, Provider.__getitem__ in H.
  apply bind_Ok in H as ([[arr label] resolved] & Hn & H).
  apply bind_Ok in H as (x & _ & H).
  apply bind_Ok in H as ([arr' g1] & _ & H).
  injection H as <- <-. cbn [s_cancer s_index].
  unfold Provider.normalized_image in Hn. rewrite Htrain in Hn.
  apply bind_Ok in Hn as ([[image label'] resolved'] & Hread & Hn).
  apply bind_Ok in Hn as (arr0 & _ & Hn). injection Hn as _ <- <-.
  apply bind_Ok in Hread as (d & Hd & Hread).
  apply bind_Ok in Hread as (i & Hi & Hread).
  split.
  - exists d. split; [done|].
    destruct (d !! (index + first_index self)) as [i'|] eqn:E; [|done].
    injection Hi as ->.
    destruct (ReadImage (train_path (modality self) i 0)).
    + apply bind_Ok in Hread as (? & _ & Hread). by injection Hread as _ _ <-.
    + apply bind_Ok in Hread as (? & _ & Hread).
      apply bind_Ok in Hread as (? & _ & Hread). by injection Hread as _ _ <-.
  - destruct (ReadImage (train_path (modality self) i 0)) as [im0|e] eqn:E0.
    + apply bind_Ok in Hread as (l & Hl & Hread).
      rewrite (label_of_train_path _ _ _ Hm) in Hl. injection Hl as <-.
      injection Hread as _ <- <-. left. eauto.
    + apply bind_Ok in Hread as (im1 & E1 & Hread).
      apply bind_Ok in Hread as (l & Hl & Hread).
      rewrite (label_of_train_path _ _ _ Hm) in Hl. injection Hl as <-.
      injection Hread as _ <- <-. right. rewrite E0. eauto.
Qed.

End Disk.

(** *** The fold in use *)

Lemma sorted_keys_first (d : gmap Z Z) :
  match sorted_keys d with
  | [] => d = ∅
  | first :: _ =>
      is_Some (d !! first) ∧ ∀ key, is_Some (d !! key) → first ≤ key
  end.
Proof.
  unfold sorted_keys.
  pose proof (merge_sort_Permutation Z.le (elements (dom d))) as Hperm.
  pose proof (StronglySorted_merge_sort Z.le (elements (dom d))) as Hsort.
  destruct (merge_sort Z.le (elements (dom d))) as [|first rest].
  - apply Permutation_nil_l in Hperm. symmetry in Hperm.
    apply elements_empty_inv in Hperm.
    apply dom_empty_inv_L. by apply leibniz_equiv.
  - apply StronglySorted_inv in Hsort as [_ Hle].
    assert (∀ key, key ∈ first :: rest ↔ is_Some (d !! key)) as Hkeys.
    { intros key. rewrite Hperm, elem_of_elements. apply elem_of_dom. }
    split; [apply Hkeys; left|].
    intros key Hkey. apply Hkeys, elem_of_cons in Hkey as [->|Hkey]; [done|].
    by apply (proj1 (Forall_forall _ _) Hle).
Qed.

Lemma rekey_empty (s : gset Z) : rekey s = ∅ ↔ s = ∅.
Proof.
  split.
  - intros E. apply leibniz_equiv, size_empty_inv.
    rewrite <- size_rekey, E. apply map_size_empty.
  - intros ->. done.
Qed.

Lemma change_map_num_rekeyed (self : ProstateImages) (k : nat) (s : gset Z) :
  train self = true → mapping self !! k = Some (rekey s) →
  (s = ∅ → change_map_num self (Z.of_nat k) = Raise IndexError)
  ∧ (s ≠ ∅ →
     ∃ self',
       change_map_num self (Z.of_nat k) = Ok self'
       ∧ train self' = true
       ∧ modality self' = modality self
       ∧ mapping self' !! k = Some (rekey s)
       ∧ map_num self' = Z.of_nat k
       ∧ first_index self' = 0
       ∧ __len__ self' = Z.of_nat (size s)).
Proof.
  intros Htrain Hk. unfold change_map_num. rewrite Htrain.
  rewrite (index_Ok _ _ _ Hk). cbn [mbind result_bind Py.bind].
  pose proof (sorted_keys_first (rekey s)) as Hfirst.
  destruct (sorted_keys (rekey s)) as [|first rest]; split.
  - done.
  - intros Hs. by apply rekey_empty in Hfirst.
  - intros ->. destruct Hfirst as [Hin _].
    apply (proj1 (rekey_dense ∅)) in Hin. rewrite size_empty in Hin. lia.
  - intros Hs. destruct Hfirst as [Hin Hmin].
    change (Py.index (first :: rest) 0) with (@Ok Z first).
    cbn [mbind result_bind Py.bind]. eexists. split; [done|].
    cbn [train modality mapping map_num first_index __len__ length_].
    repeat split; try done.
    + apply (proj1 (rekey_dense s)) in Hin.
      assert (is_Some (rekey s !! 0)) as H0.
      { apply (proj1 (rekey_dense s)).
        assert (size s ≠ 0%nat) by (by intros ?%size_empty_inv%leibniz_equiv).
        lia. }
      specialize (Hmin 0 H0). lia.
    + by rewrite size_rekey.
Qed.

(** X11.  A provider in train mode on the validation or the training
    mappings of a returned partition, switched to fold [k]: when the
    mapping of the fold is empty [change_map_num] raises IndexError;
    otherwise the first index is 0, the length is the number of entries
    of the mapping, every index from 0 up to the length resolves to a
    patch index of the mapping, and a read at any other index raises
    KeyError, a negative index included. *)
Theorem fold_reads_resolve
    (cropped_images : list (string * list entry))
    (num_crops num_folds : Z) (fold_fraction : float) (g g' : rng)
    (p : partition) (self : ProstateImages) (validation : bool) (k : Z) :
  write_cropped_images_train_and_folds cropped_images num_crops num_folds
    fold_fraction g = Ok (p, g') →
  train self = true →
  mapping self
    = (if validation then fold_key_mappings p else train_key_mappings p) →
  0 ≤ k < num_folds →
  ∃ d,
    mapping self !! Z.to_nat k = Some d
    ∧ (d = ∅ → change_map_num self k = Raise IndexError)
    ∧ (d ≠ ∅ →
       ∃ self',
         change_map_num self k = Ok self'
         ∧ first_index self' = 0
         ∧ __len__ self' = Z.of_nat (size d)
         ∧ ∀ idx,
             (0 ≤ idx < __len__ self' →
              ∃ i, d !! (idx + first_index self') = Some i)
             ∧ (¬ 0 ≤ idx < __len__ self' →
                ∀ ReadImage NormalizeImageFilter_Execute,
                  normalized_image ReadImage NormalizeImageFilter_Execute
                    self' idx = Raise KeyError)).
Proof.
  intros Hrun Htrain Hmap Hk.
  destruct (partition_folds _ _ _ _ _ _ _ Hrun)
    as (N & C & n & _ & _ & _ & _ & Hlen & HF).
  pose proof (Forall2_length _ _ _ HF) as Hlen'.
  pose proof (partition_rekeyed _ _ _ _ _ _ _ Hrun) as Hre.
  apply Forall_app in Hre as [Hre1 Hre2].
  assert (∃ d, mapping self !! Z.to_nat k = Some d ∧ ∃ s, d = rekey s)
    as (d & Hd & s & ->).
  { rewrite Hmap. destruct validation.
    - destruct (lookup_lt_is_Some_2 (fold_key_mappings p) (Z.to_nat k))
        as [d Hd]; [lia|].
      exists d. split; [done|]. exact (proj1 (Forall_lookup _ _) Hre1 _ _ Hd).
    - destruct (lookup_lt_is_Some_2 (train_key_mappings p) (Z.to_nat k))
        as [d Hd]; [lia|].
      exists d. split; [done|]. exact (proj1 (Forall_lookup _ _) Hre2 _ _ Hd). }
  exists (rekey s). split; [done|].
  destruct (change_map_num_rekeyed self (Z.to_nat k) s Htrain Hd) as [He Hne].
  rewrite Z2Nat.id in He, Hne by lia. split.
  - intros E. by apply He, rekey_empty.
  - intros E. destruct Hne as (self' & Hch & Ht & _ & Hm & Hnum & Hfirst & Hl).
    { intros ->. by apply E. }
    exists self'. rewrite size_rekey.
    split; [done|]. split; [done|]. split; [done|]. intros idx. split.
    + intros Hi. apply (proj1 (rekey_dense s)). lia.
    + intros Hi ReadImage Norm. unfold normalized_image. rewrite Ht, Hnum.
      rewrite <- (Z2Nat.id k) at 1 by lia.
      rewrite (index_Ok _ _ _ Hm). cbn [mbind result_bind Py.bind].
      assert (rekey s !! (idx + first_index self') = None) as ->; [|done].
      apply eq_None_not_Some. intros Hsome.
      apply (proj1 (rekey_dense s)) in Hsome. lia.
Qed.

Lemma sorted_keys_empty : sorted_keys ∅ = [].
Proof. unfold sorted_keys. by rewrite dom_empty_L, elements_empty. Qed.

(** The constructor on mappings that are all empty, or on none. *)
Lemma init_empty_mappings (np_load : string → result ndarray)
    (os_listdir : string → result (list string))
    (py_int_of_str : string → result Z) (modality device : string)
    (normalize_strategy : Z) (mappings : list (gmap Z Z)) :
  Forall (λ d, d = ∅) mappings →
  (∃ e, __init__ np_load os_listdir py_int_of_str modality true device
          normalize_strategy (Some mappings) = Raise e)
  ∧ (modality ∈ ["t2"; "bval"; "adc"] → normalize_strategy = 1 →
     __init__ np_load os_listdir py_int_of_str modality true device
       normalize_strategy (Some mappings) = Raise IndexError).
Proof.
  intros Hall.
  assert (∀ mean std : option ndarray,
            (mapping ← Py.of_option TypeError (Some mappings);
             d ← Py.index mapping 0;
             first ← Py.index (sorted_keys d) 0;
             Ok {| modality := modality; train := true; device := device;
                   normalize_strategy := normalize_strategy;
                   mean_tensor := mean; std_tensor := std;
                   mapping := mapping; map_num := 0; first_index := first;
                   length_ := Z.of_nat (size d) |})
            = Raise IndexError) as Htail.
  { intros mean std. cbn [Py.of_option mbind result_bind Py.bind].
    destruct Hall as [|d rest -> _]; [done|].
    change (Py.index (∅ :: rest) 0) with (@Ok (gmap Z Z) ∅).
    cbn [mbind result_bind Py.bind]. by rewrite sorted_keys_empty. }
  unfold __init__. split.
  - destruct (negb (bool_decide (modality ∈ ["t2"; "bval"; "adc"])));
      [by eexists|].
    destruct (negb (bool_decide (normalize_strategy ∈ [1; 2])));
      [by eexists|].
    destruct (normalize_strategy =? 1).
    + cbn [mbind result_bind Py.bind]. rewrite Htail. by eexists.
    + destruct (np_load (tensor_paths modality).1) as [mean|e];
        [|by eexists].
      cbn [mbind result_bind Py.bind].
      destruct (np_load (tensor_paths modality).2) as [std|e];
        [|by eexists].
      cbn [mbind result_bind Py.bind]. rewrite Htail. by eexists.
  - intros Hm ->. rewrite (bool_decide_eq_true_2 _ Hm).
    cbn [negb Z.eqb Pos.eqb mbind result_bind Py.bind].
    rewrite bool_decide_eq_true_2 by left.
    cbn [negb mbind result_bind Py.bind]. apply Htail.
Qed.

(** X12.  When the per-class size [int(fold_fraction * |C|)] is 0, as it
    is for the default fraction 0.2 and fewer than five cancer patients,
    the partition has one validation mapping per fold and every one of
    them is empty.  No train-mode provider can then be built on the
    validation mappings, as [A3.py] builds its validation provider: the
    constructor raises, IndexError at [sorted(self.mapping[0])[0]] for
    an accepted modality under strategy 1. *)
Theorem empty_validation_fold
    (cropped_images : list (string * list entry))
    (num_crops num_folds : Z) (fold_fraction : float) (g g' : rng)
    (p : partition) (C : gset Z) :
  0 < num_crops →
  write_cropped_images_train_and_folds cropped_images num_crops num_folds
    fold_fraction g = Ok (p, g') →
  select_label one_char (flatten_patients cropped_images) num_crops
    (patient_indices_of (flatten_patients cropped_images) num_crops) = Ok C →
  num_each_class fold_fraction C = Ok 0 →
  length (fold_key_mappings p) = Z.to_nat num_folds
  ∧ Forall (λ d, d = ∅) (fold_key_mappings p)
  ∧ ∀ (np_load : string → result ndarray)
      (os_listdir : string → result (list string))
      (py_int_of_str : string → result Z) (modality device : string)
      (normalize_strategy : Z),
      (∃ e, __init__ np_load os_listdir py_int_of_str modality true device
              normalize_strategy (Some (fold_key_mappings p)) = Raise e)
      ∧ (modality ∈ ["t2"; "bval"; "adc"] → normalize_strategy = 1 →
         __init__ np_load os_listdir py_int_of_str modality true device
           normalize_strategy (Some (fold_key_mappings p))
         = Raise IndexError).
Proof.
  intros Hc Hrun HC Hn.
  destruct (partition_folds _ _ _ _ _ _ _ Hrun)
    as (N & C' & n & _ & HC' & _ & Hn' & Hlen & HF).
  rewrite HC in HC'. injection HC' as <-. rewrite Hn in Hn'. injection Hn' as <-.
  assert (Forall (λ d, d = ∅) (fold_key_mappings p)) as Hall.
  { apply Forall_lookup. intros k d Hd.
    destruct (lookup_lt_is_Some_2 (train_key_mappings p) k) as [t Ht].
    { rewrite <- (Forall2_length _ _ _ HF). by apply lookup_lt_Some in Hd. }
    pose proof (Forall2_lookup_lr _ _ _ _ _ _ HF Hd Ht)
      as (Vn & Vc & S & _ & HVn & _ & HVc & _ & _ & Hfold & _).
    apply map_empty. intros key. apply eq_None_not_Some. intros [i Hi].
    assert (block_index (Vn ∪ Vc) num_crops i) as (x & pos & Hx & _)
      by (apply Hfold; eauto).
    assert (Vn = ∅) as -> by (apply leibniz_equiv, size_empty_inv; lia).
    assert (Vc = ∅) as -> by (apply leibniz_equiv, size_empty_inv; lia).
    by apply elem_of_union in Hx as [Hx|Hx]. }
  split; [done|]. split; [done|].
  intros. by apply init_empty_mappings.
Qed.

(** *** The files of a partition *)

Lemma write_patch_spec (i : Z) (item : string * entry)
    (fs : list (string * Image)) :
  write_patch i item = Ok fs ↔
  ∃ marker t2 adc bval,
    item.2.2 = Some marker
    ∧ item.2.1 !! 0%nat = Some t2 ∧ item.2.1 !! 1%nat = Some adc
    ∧ item.2.1 !! 2%nat = Some bval
    ∧ fs = [(patch_path "t2" i marker, t2); (patch_path "adc" i marker, adc);
            (patch_path "bval" i marker, bval)].
Proof.
  destruct item as [nm [crop mk]]. unfold write_patch. cbn [fst snd]. split.
  - intros H. apply bind_Ok in H as (marker & Hm & H).
    apply bind_Ok in H as (t2 & H0 & H).
    apply bind_Ok in H as (adc & H1 & H).
    apply bind_Ok in H as (bval & H2 & H). injection H as <-.
    destruct mk as [m|]; [|done]. injection Hm as ->.
    apply (index_Ok_inv crop 0) in H0. apply (index_Ok_inv crop 1) in H1.
    apply (index_Ok_inv crop 2) in H2.
    exists marker, t2, adc, bval. done.
  - intros (marker & t2 & adc & bval & -> & H0 & H1 & H2 & ->).
    cbn [Py.of_option mbind result_bind Py.bind].
    change (Py.index crop 0) with (Py.index crop (Z.of_nat 0)).
    change (Py.index crop 1) with (Py.index crop (Z.of_nat 1)).
    change (Py.index crop 2) with (Py.index crop (Z.of_nat 2)).
    rewrite (index_Ok crop 0 _ H0), (index_Ok crop 1 _ H1),
      (index_Ok crop 2 _ H2). done.
Qed.

Lemma files_spec (patient_images : list (string * entry))
    (written : list (list (string * Image))) :
  comprehension (λ '(p_id, item), write_patch p_id item)
    (Cropper.enumerate patient_images) = Ok written →
  (∀ (j : nat) item, patient_images !! j = Some item →
     ∃ marker, item.2.2 = Some marker
       ∧ ∀ md, md ∈ ["t2"; "adc"; "bval"] →
           ∃ image, item.2.1 !! modality_position md = Some image
             ∧ (patch_path md (Z.of_nat j) marker, image) ∈ concat written)
  ∧ (∀ path image, (path, image) ∈ concat written →
       ∃ (j : nat) item marker md,
         patient_images !! j = Some item ∧ item.2.2 = Some marker
         ∧ md ∈ ["t2"; "adc"; "bval"]
         ∧ item.2.1 !! modality_position md = Some image
         ∧ path = patch_path md (Z.of_nat j) marker).
Proof.
  intros H. apply (comprehension_enumerate write_patch) in H as [Hlen H].
  split.
  - intros j item Hj.
    destruct (lookup_lt_is_Some_2 written j) as [fs Hfs].
    { rewrite <- Hlen. by apply lookup_lt_Some in Hj. }
    pose proof (H j item fs Hj Hfs) as Hw.
    apply write_patch_spec in Hw
      as (marker & t2 & adc & bval & Hm & H0 & H1 & H2 & ->).
    exists marker. split; [done|]. intros md Hmd.
    assert (∀ x, x ∈ [(patch_path "t2" (Z.of_nat j) marker, t2);
                      (patch_path "adc" (Z.of_nat j) marker, adc);
                      (patch_path "bval" (Z.of_nat j) marker, bval)] →
                 x ∈ concat written) as Hin.
    { intros x Hx. apply list_elem_of_In, in_concat. eexists.
      split; apply list_elem_of_In; [by eapply list_elem_of_lookup_2|done]. }
    rewrite !elem_of_cons in Hmd.
    destruct Hmd as [->|[->|[->|Hmd]]]; [| | |by apply not_elem_of_nil in Hmd].
    + exists t2. split; [done|]. apply Hin. left.
    + exists adc. split; [done|]. apply Hin. right. left.
    + exists bval. split; [done|]. apply Hin. right. right. left.
  - intros path image Hin.
    apply list_elem_of_In, in_concat in Hin as (fs & Hfs & Hin).
    apply list_elem_of_In, list_elem_of_lookup in Hfs as [j Hfs].
    apply list_elem_of_In in Hin.
    destruct (lookup_lt_is_Some_2 patient_images j) as [item Hj].
    { rewrite Hlen. by apply lookup_lt_Some in Hfs. }
    pose proof (H j item fs Hj Hfs) as Hw.
    apply write_patch_spec in Hw
      as (marker & t2 & adc & bval & Hm & H0 & H1 & H2 & ->).
    exists j, item, marker.
    rewrite !elem_of_cons in Hin.
    destruct Hin as [[= -> ->]|[[= -> ->]|[[= -> ->]|Hin]]];
      [| | |by apply not_elem_of_nil in Hin].
    + exists "t2". repeat split; try done. left.
    + exists "adc". repeat split; try done. right. left.
    + exists "bval". repeat split; try done. right. right. left.
Qed.

Lemma partition_files cropped c K f g p g' :
  write_cropped_images_train_and_folds cropped c K f g = Ok (p, g') →
  ∃ written,
    comprehension (λ '(p_id, item), write_patch p_id item)
      (Cropper.enumerate (flatten_patients cropped)) = Ok written
    ∧ files p = concat written.
Proof.
  intros H. unfold write_cropped_images_train_and_folds in H.
  apply bind_Ok in H as (written & Hw & H).
  destruct (c =? 0); [done|].
  apply bind_Ok in H as (N & HN & H).
  apply bind_Ok in H as (C & HC & H).
  apply bind_Ok in H as (n & Hn & H).
  apply bind_Ok in H as ([[fs ts] g1] & Hloop & H).
  injection H as <- <-. eauto.
Qed.

Lemma mapped_index_in_range cropped c K f g p g' (k : nat) (d : gmap Z Z)
    (key i : Z) :
  write_cropped_images_train_and_folds cropped c K f g = Ok (p, g') →
  fold_key_mappings p !! k = Some d ∨ train_key_mappings p !! k = Some d →
  d !! key = Some i →
  0 ≤ i < Z.of_nat (length (flatten_patients cropped)).
Proof.
  intros Hrun Hd Hi.
  destruct (partition_folds _ _ _ _ _ _ _ Hrun)
    as (N & C & n & HN & HC & _ & _ & Hlen & HF).
  pose proof (select_label_spec _ _ _ _ _ HN) as HN'.
  pose proof (select_label_spec _ _ _ _ _ HC) as HC'.
  set (patients := patient_indices_of (flatten_patients cropped) c) in *.
  assert (∃ X : gset Z, X ⊆ patients ∧ block_index X c i)
    as (X & HX & x & pos & Hx & Hpos & ->).
  { destruct Hd as [Hd|Hd].
    - destruct (lookup_lt_is_Some_2 (train_key_mappings p) k) as [t Ht].
      { rewrite <- (Forall2_length _ _ _ HF). by apply lookup_lt_Some in Hd. }
      pose proof (Forall2_lookup_lr _ _ _ _ _ _ HF Hd Ht)
        as (Vn & Vc & S & HVn & _ & HVc & _ & _ & _ & Hfold & _).
      exists (Vn ∪ Vc). split; [|apply Hfold; eauto].
      apply union_least; intros y Hy.
      + by apply HVn, HN' in Hy as [? _].
      + by apply HVc, HC' in Hy as [? _].
    - destruct (lookup_lt_is_Some_2 (fold_key_mappings p) k) as [t Ht].
      { rewrite (Forall2_length _ _ _ HF). by apply lookup_lt_Some in Hd. }
      pose proof (Forall2_lookup_lr _ _ _ _ _ _ HF Ht Hd)
        as (Vn & Vc & S & _ & _ & _ & _ & HS & _ & _ & Htrain).
      exists ((C ∖ Vc) ∪ S). split; [|apply Htrain; eauto].
      apply union_least; intros y Hy.
      + apply elem_of_difference in Hy as [Hy _]. by apply HC' in Hy as [? _].
      + apply HS in Hy. apply elem_of_difference in Hy as [Hy _].
        by apply elem_of_difference in Hy as [? _]. }
  apply HX in Hx. unfold patients, patient_indices_of in Hx.
  apply elem_of_list_to_set, elem_of_range in Hx.
  pose proof (Z.mul_div_le (Z.of_nat (length (flatten_patients cropped))) c
                ltac:(lia)).
  nia.
Qed.

(** X13.  Every patch index a mapping of a returned partition hands out
    is the position of a patch of the flattened dictionary, and the three
    files of that patch, one per modality, named by the index and the
    marker of the patch, are among the files written. *)
Theorem mapped_patches_written
    (cropped_images : list (string * list entry))
    (num_crops num_folds : Z) (fold_fraction : float) (g g' : rng)
    (p : partition) :
  write_cropped_images_train_and_folds cropped_images num_crops num_folds
    fold_fraction g = Ok (p, g') →
  ∀ (k : nat) (d : gmap Z Z) (key i : Z),
    fold_key_mappings p !! k = Some d ∨ train_key_mappings p !! k = Some d →
    d !! key = Some i →
    0 ≤ i
    ∧ ∃ name crop marker,
        flatten_patients cropped_images !! Z.to_nat i
          = Some (name, (crop, Some marker))
        ∧ ∀ md, md ∈ ["t2"; "adc"; "bval"] →
            ∃ image,
              crop !! modality_position md = Some image
              ∧ (patch_path md i marker, image) ∈ files p.
Proof.
  intros Hrun k d key i Hd Hi.
  pose proof (mapped_index_in_range _ _ _ _ _ _ _ _ _ _ _ Hrun Hd Hi) as Hrange.
  split; [lia|].
  destruct (partition_files _ _ _ _ _ _ _ Hrun) as (written & Hw & ->).
  destruct (lookup_lt_is_Some_2 (flatten_patients cropped_images) (Z.to_nat i))
    as [[name [crop mk]] Hitem]; [lia|].
  destruct (proj1 (files_spec _ _ Hw) _ _ Hitem) as (marker & Hm & Hfiles).
  cbn in Hm. subst mk. exists name, crop, marker. split; [done|].
  intros md Hmd. destruct (Hfiles md Hmd) as (image & Him & Hin).
  rewrite Z2Nat.id in Hin by lia. eauto.
Qed.

Lemma written_at_elem files path image :
  written_at files path = Some image → (path, image) ∈ files.
Proof.
  induction files as [|[p0 im0] rest IH]; cbn; [done|].
  destruct (written_at rest path) as [later|].
  - intros [= <-]. right. by apply IH.
  - destruct (String.eqb_spec p0 path) as [->|]; [|done].
    intros [= <-]. left.
Qed.

Lemma written_at_None files path :
  (∀ image, (path, image) ∉ files) → written_at files path = None.
Proof.
  intros H. destruct (written_at files path) as [image|] eqn:E; [|done].
  apply written_at_elem in E. by apply H in E.
Qed.

Lemma written_at_unique files path image :
  (path, image) ∈ files →
  (∀ image', (path, image') ∈ files → image' = image) →
  written_at files path = Some image.
Proof.
  intros Hin Huniq.
  destruct (written_at files path) as [image'|] eqn:E.
  - apply written_at_elem in E. by rewrite (Huniq _ E).
  - exfalso. clear Huniq.
    induction files as [|[p0 im0] rest IH]; [by apply not_elem_of_nil in Hin|].
    cbn in E. destruct (written_at rest path); [done|].
    apply elem_of_cons in Hin as [[= <- <-]|Hin]; [|by apply IH].
    by rewrite String.eqb_refl in E.
Qed.

(** The read up to the normalisation, on what a partition wrote. *)
Lemma written_patch_normalized
    (cropped_images : list (string * list entry))
    (num_crops num_folds : Z) (fold_fraction : float) (g g' : rng)
    (p : partition) (NormalizeImageFilter_Execute : Image → Image)
    (self : ProstateImages) (idx : Z) (d : gmap Z Z) (i : nat)
    (name : string) (crop : list Image) (marker : Z) :
  write_cropped_images_train_and_folds cropped_images num_crops num_folds
    fold_fraction g = Ok (p, g') →
  train self = true →
  modality self ∈ ["t2"; "adc"; "bval"] →
  normalize_strategy self = 1 →
  Py.index (mapping self) (map_num self) = Ok d →
  d !! (idx + first_index self) = Some (Z.of_nat i) →
  flatten_patients cropped_images !! i = Some (name, (crop, Some marker)) →
  marker = 0 ∨ marker = 1 →
  ∃ image,
    crop !! modality_position (modality self) = Some image
    ∧ (∀ l image',
         (train_path (modality self) (Z.of_nat i) l, image') ∈ files p
         ↔ l = marker ∧ image' = image)
    ∧ ReadImage_of (files p) (train_path (modality self) (Z.of_nat i) marker)
      = Ok image
    ∧ normalized_image (ReadImage_of (files p)) NormalizeImageFilter_Execute
        self idx
      = Ok (GetArrayFromImage (NormalizeImageFilter_Execute image),
            Some marker, Z.of_nat i).
Proof.
  intros Hrun Htrain Hmod Hstrat Hd Hi Hitem Hmarker.
  destruct (partition_files _ _ _ _ _ _ _ Hrun) as (written & Hw & ->).
  destruct (files_spec _ _ Hw) as [Hto Hfrom].
  destruct (Hto _ _ Hitem) as (marker' & Hm & Hfiles). cbn in Hm.
  injection Hm as <-. cbn [fst snd] in Hfiles.
  destruct (Hfiles _ Hmod) as (image & Him & Hin).
  exists image. split; [done|].
  assert (∀ image' l,
            (train_path (modality self) (Z.of_nat i) l, image')
              ∈ concat written → l = marker ∧ image' = image) as Huniq.
  { intros image' l Hin'.
    destruct (Hfrom _ _ Hin') as (j & item & mk & md & Hj & Hmk & Hmd & Him' & E).
    rewrite <- patch_path_train_path in E.
    apply patch_path_inj in E as (<- & Hij & <-); [|done..].
    apply Nat2Z.inj in Hij as <-. rewrite Hitem in Hj. injection Hj as <-.
    cbn in Hmk, Him'. injection Hmk as <-. split; [done|]. congruence. }
  assert (written_at (concat written)
            (train_path (modality self) (Z.of_nat i) marker) = Some image)
    as Hread.
  { apply written_at_unique; [done|].
    intros image' Hin'. by apply Huniq in Hin' as [_ ->]. }
  split.
  { intros l image'. split; [apply Huniq|]. intros [-> ->].
    by rewrite <- patch_path_train_path. }
  split; [unfold ReadImage_of; by rewrite Hread|].
  unfold normalized_image. rewrite Htrain, Hd.
  cbn [mbind result_bind Py.bind]. rewrite Hi.
  cbn [Py.of_option mbind result_bind Py.bind].
  rewrite !label_of_train_path by (rewrite !elem_of_cons in *; tauto).
  destruct Hmarker as [->| ->].
  - unfold ReadImage_of at 1. rewrite Hread. cbn [Py.of_option].
    cbn [mbind result_bind Py.bind]. rewrite Hstrat. done.
  - unfold ReadImage_of at 1. rewrite written_at_None.
    + cbn [Py.of_option]. unfold ReadImage_of. rewrite Hread.
      cbn [Py.of_option mbind result_bind Py.bind]. rewrite Hstrat. done.
    + intros image' Hin'. by apply Huniq in Hin' as [? _].
Qed.


Lemma first_cell_cases (arr : ndarray) :
  (∃ x, first_cell arr = Ok x) ∨ first_cell arr = Raise IndexError.
Proof.
  unfold first_cell. destruct (shape arr) as [[n0 n1] n2].
  destruct ((0 <? n0) && (0 <? n1) && (0 <? n2)); eauto.
Qed.

Lemma np_random_rand_patch (g : rng) :
  ∃ noise g', np_random_rand (3, 32, 32) g = Ok (noise, g').
Proof.
  unfold np_random_rand.
  change ((3 <? 0) || (32 <? 0) || (32 <? 0)) with false. cbv iota.
  destruct (random_doubles _ g). eauto.
Qed.

(** X14.  Writing, then reading.  The patch directory holds what a
    returned partition wrote, and a train-mode read under strategy 1
    resolves its index to the patch at position [i], of marker 0 or 1.
    Of the files written, the only one under a name the read can try is
    the file of the patch's own marker, and it holds the patch of the
    provider's modality as it was written; no two patches, modalities or
    markers share a file name.  The read returns the marker as the label
    and [i] as the index.  Its image is the normalised written patch as a
    single-precision tensor, unless the cell [[0, 0, 0]] of the normalised
    array is a NaN: then it is noise of the shape [(3, 32, 32)] drawn
    from the generator.  A normalised array without a first cell raises
    IndexError. *)
Theorem written_patch_read_back
    (cropped_images : list (string * list entry))
    (num_crops num_folds : Z) (fold_fraction : float) (g g' : rng)
    (p : partition) (NormalizeImageFilter_Execute : Image → Image)
    (self : ProstateImages) (idx : Z) (d : gmap Z Z) (i : nat)
    (name : string) (crop : list Image) (marker : Z) (g0 : rng) :
  write_cropped_images_train_and_folds cropped_images num_crops num_folds
    fold_fraction g = Ok (p, g') →
  train self = true →
  modality self ∈ ["t2"; "adc"; "bval"] →
  normalize_strategy self = 1 →
  Py.index (mapping self) (map_num self) = Ok d →
  d !! (idx + first_index self) = Some (Z.of_nat i) →
  flatten_patients cropped_images !! i = Some (name, (crop, Some marker)) →
  marker = 0 ∨ marker = 1 →
  ∃ image,
    crop !! modality_position (modality self) = Some image
    ∧ (∀ l image',
         (train_path (modality self) (Z.of_nat i) l, image') ∈ files p
         ↔ l = marker ∧ image' = image)
    ∧ (∀ m1 m2 i1 i2 l1 l2,
         m1 ∈ ["t2"; "adc"; "bval"] → m2 ∈ ["t2"; "adc"; "bval"] →
         patch_path m1 i1 l1 = patch_path m2 i2 l2 →
         m1 = m2 ∧ i1 = i2 ∧ l1 = l2)
    ∧ ((∃ x, first_cell
               (GetArrayFromImage (NormalizeImageFilter_Execute image))
             = Ok x)
       ∨ first_cell (GetArrayFromImage (NormalizeImageFilter_Execute image))
         = Raise IndexError)
    ∧ (∀ x,
         first_cell (GetArrayFromImage (NormalizeImageFilter_Execute image))
           = Ok x →
         isnan x = false →
         Provider.__getitem__ (ReadImage_of (files p))
           NormalizeImageFilter_Execute self idx g0
         = Ok ({| s_image :=
                    to_tensor
                      (GetArrayFromImage (NormalizeImageFilter_Execute image));
                  s_cancer := Some marker;
                  s_index := Z.of_nat i |}, g0))
    ∧ (∀ x,
         first_cell (GetArrayFromImage (NormalizeImageFilter_Execute image))
           = Ok x →
         isnan x = true →
         ∃ noise g1,
           np_random_rand (3, 32, 32) g0 = Ok (noise, g1)
           ∧ shape noise = (3, 32, 32)
           ∧ (∀ a b c, ∃ q, at_ noise a b c = Fin q ∧ (0 <= q)%Q ∧ (q < 1)%Q)
           ∧ Provider.__getitem__ (ReadImage_of (files p))
               NormalizeImageFilter_Execute self idx g0
             = Ok ({| s_image := to_tensor noise;
                      s_cancer := Some marker;
                      s_index := Z.of_nat i |}, g1))
    ∧ (first_cell (GetArrayFromImage (NormalizeImageFilter_Execute image))
         = Raise IndexError →
       Provider.__getitem__ (ReadImage_of (files p))
         NormalizeImageFilter_Execute self idx g0
       = Raise IndexError).
Proof.
  intros Hrun Htrain Hmod Hstrat Hd Hi Hitem Hmarker.
  destruct (written_patch_normalized _ _ _ _ _ _ _
              NormalizeImageFilter_Execute _ _ _ _ _ _ _
              Hrun Htrain Hmod Hstrat Hd Hi Hitem Hmarker)
    as (image & Him & Huniq & _ & Hnorm).
  exists image. split; [done|]. split; [done|].
  split; [apply patch_path_inj|].
  split; [apply first_cell_cases|].
  unfold Provider.__getitem__. rewrite Hnorm.
  cbn [mbind result_bind Py.bind].
  split; [|split].
  - intros x Hx Hn. rewrite Hx. cbn [mbind result_bind Py.bind].
    by rewrite Hn.
  - intros x Hx Hn. rewrite Hx. cbn [mbind result_bind Py.bind].
    rewrite Hn. destruct (np_random_rand_patch g0) as (noise & g1 & Hrand).
    exists noise, g1. rewrite Hrand. split; [done|].
    apply np_random_rand_spec in Hrand as [Hs Hu]. done.
  - intros Hx. by rewrite Hx.
Qed.

End DatasetFacts.

Module TrainingOrder.
Import Training TrainingFacts.

Lemma gtb_not_nan (x y : float) :
  gtb x y = true → isnan x = false ∧ isnan y = false.
Proof. by destruct x as [|[]|p], y as [|[]|q]. Qed.

Lemma gtb_asym (x y : float) : gtb x y = true → gtb y x = false.
Proof.
  destruct x as [|[]|p], y as [|[]|q]; cbn; try done.
  intros H. apply negb_true_iff in H. apply negb_false_iff, Qle_bool_iff.
  destruct (Qlt_le_dec p q) as [Hlt|Hle]; [|done].
  exfalso. apply Qlt_le_weak, Qle_bool_iff in Hlt. congruence.
Qed.

(** [x > y] and not [z > y], for a [z] that is a number: [x > z]. *)
Lemma gtb_above (x y z : float) :
  gtb x y = true → gtb z y = false → isnan z = false → gtb x z = true.
Proof.
  destruct x as [|[]|p], y as [|[]|q], z as [|[]|r]; cbn; try done.
  intros H1 H2 _. apply negb_true_iff in H1.
  apply negb_false_iff, Qle_bool_iff in H2. apply negb_true_iff.
  destruct (Qle_bool p r) eqn:E; [|done].
  apply Qle_bool_iff in E. exfalso.
  assert (Qle_bool p q = true) as E'; [|congruence].
  apply Qle_bool_iff. by apply (Qle_trans _ r).
Qed.

Section Loop.
Context {W confusion : Type}.
Variable train_pass : W → result (W * float * float).
Variable validation_pass : W → result (float * float * confusion).
Variable initialize_CNN2 : W → result W.

Local Abbreviation epoch_round :=
  (Training.epoch_round train_pass validation_pass).
Local Abbreviation train_model :=
  (Training.train_model train_pass validation_pass initialize_CNN2).
Local Abbreviation weights_after := (Training.weights_after train_pass).

(** What holds after [n] epochs on the objects [h0] held at the start:
    beside the facts of the bookkeeping, the other objects are untouched,
    the best AUC is a number that is not negative, and a snapshot is of
    the first epoch that reached its AUC. *)
Local Abbreviation first_best model w0 h0 n st :=
  ((∃ w, weights_after w0 n = Ok w ∧ store st !! model = Some w)
   ∧ isnan (best_auc st) = false
   ∧ gtb (Fin 0) (best_auc st) = false
   ∧ (∀ loc, loc ≠ model → loc ∈ dom h0 → store st !! loc = h0 !! loc)
   ∧ dom h0 ⊆ dom (store st)
   ∧ (∀ e w f1 auc conf,
        (e < n)%nat → weights_after w0 (S e) = Ok w →
        validation_pass w = Ok (f1, auc, conf) →
        gtb auc (best_auc st) = false)
   ∧ match retained st with
     | None => True
     | Some b =>
         ∃ e w,
           (e < n)%nat
           ∧ weights_after w0 (S e) = Ok w
           ∧ validation_pass w = Ok (best_f1 b, best_auc st, conf_matrix b)
           ∧ store st !! best_model b = Some w
           ∧ best_model b ≠ model
           ∧ (best_model b ∉ dom h0)
           ∧ gtb (best_auc st) (Fin 0) = true
           ∧ ∀ e' w' f1' auc' conf',
               (e' < e)%nat → weights_after w0 (S e') = Ok w' →
               validation_pass w' = Ok (f1', auc', conf') →
               isnan auc' = false → gtb (best_auc st) auc' = true
     end).

Lemma epoch_round_first_best model w0 (h0 : gmap nat W) n epoch st st' :
  first_best model w0 h0 n st →
  epoch_round model epoch st = Ok st' →
  first_best model w0 h0 (S n) st'.
Proof.
  intros ((w & Hw & Hmodel) & Hnan & Hpos & Hframe & Hdom & Hmax & Hbest) H.
  unfold epoch_round, Training.epoch_round in H.
  rewrite Hmodel in H. cbn [Py.of_option mbind result_bind Py.bind] in H.
  change (Py.bind ?m ?f) with (m ≫= f) in H.
  apply bind_Ok in H as ([[w' f1t] auct] & Htrain & H).
  apply bind_Ok in H as ([[f1e auce] conf] & Hval & H).
  assert (weights_after w0 (S n) = Ok w') as Hw'.
  { cbn [Training.weights_after]. rewrite Hw. cbn [mbind result_bind Py.bind].
    by rewrite Htrain. }
  destruct (gtb auce (best_auc st)) eqn:Hgt.
  - unfold deepcopy in H. rewrite lookup_insert_eq in H.
    cbn [Py.of_option mbind result_bind Py.bind] in H. injection H as <-.
    set (copy := fresh (dom (<[model:=w']> (store st)))).
    assert (copy ∉ dom (<[model:=w']> (store st))) as Hfresh by apply is_fresh.
    rewrite dom_insert_L in Hfresh.
    assert (copy ≠ model) as Hne.
    { intros E. apply Hfresh. rewrite E. apply elem_of_union_l.
      by apply elem_of_singleton. }
    assert (copy ∉ dom h0) as Hnew.
    { intros Hin. apply Hfresh, elem_of_union_r. by apply Hdom. }
    destruct (gtb_not_nan _ _ Hgt) as [Hnan' _].
    pose proof (gtb_above _ _ (Fin 0) Hgt Hpos eq_refl) as Hpos'.
    cbn [store best_auc retained best_model best_f1 conf_matrix].
    split; [|split; [|split; [|split; [|split; [|split]]]]].
    + exists w'. split; [done|]. rewrite lookup_insert_ne by done.
      apply lookup_insert_eq.
    + done.
    + by apply gtb_asym.
    + intros loc Hloc Hin. rewrite !lookup_insert_ne; [by apply Hframe|done|].
      intros <-. done.
    + rewrite !dom_insert_L. intros x Hx. do 2 apply elem_of_union_r.
      by apply Hdom.
    + intros e w1 f1 auc conf1 He Hw1 Hv1.
      destruct (decide (e = n)) as [->|Hen].
      * rewrite Hw' in Hw1. injection Hw1 as <-. rewrite Hval in Hv1.
        injection Hv1 as <- <- <-. apply gtb_irrefl.
      * eapply gtb_raise; [|exact Hgt].
        eapply (Hmax e); [lia|done..].
    + exists n, w'. split; [lia|]. split; [done|]. split; [done|].
      split; [apply lookup_insert_eq|]. split; [done|]. split; [done|].
      split; [done|].
      intros e' w1 f1' auc' conf' He' Hw1 Hv1 Hnan1.
      apply (gtb_above _ (best_auc st)); [done| |done].
      by apply (Hmax e' w1 f1' auc' conf').
  - injection H as <-. cbn [store best_auc retained].
    split; [|split; [|split; [|split; [|split; [|split]]]]]; try done.
    + exists w'. split; [done|]. apply lookup_insert_eq.
    + intros loc Hloc Hin. rewrite lookup_insert_ne by done. by apply Hframe.
    + rewrite dom_insert_L. intros x Hx. apply elem_of_union_r. by apply Hdom.
    + intros e w1 f1 auc conf1 He Hw1 Hv1.
      destruct (decide (e = n)) as [->|Hen].
      * rewrite Hw' in Hw1. injection Hw1 as <-. rewrite Hval in Hv1.
        by injection Hv1 as <- <- <-.
      * eapply (Hmax e); [lia|done..].
    + destruct (retained st) as [b|]; [|done].
      destruct Hbest as (e & w1 & He & Hw1 & Hv1 & Hs & Hne & Hnew & Hp & He').
      exists e, w1. split; [lia|]. split; [done|]. split; [done|].
      split; [by rewrite lookup_insert_ne|done].
Qed.

Lemma epochs_first_best model w0 (h0 : gmap nat W) nums n st st' :
  first_best model w0 h0 n st →
  for_each (epoch_round model) nums st = Ok st' →
  first_best model w0 h0 (n + length nums) st'.
Proof.
  revert n st. induction nums as [|epoch nums IH]; intros n st Hinv H; cbn in H.
  - injection H as <-. by rewrite Nat.add_0_r.
  - change (Py.bind ?m ?f) with (m ≫= f) in H.
    apply bind_Ok in H as (st1 & Hstep & Hrest).
    apply (epoch_round_first_best _ _ _ _ _ _ _ Hinv) in Hstep.
    apply (IH _ _ Hstep) in Hrest. cbn [length].
    by replace (n + S (length nums))%nat with (S n + length nums)%nat by lia.
Qed.

(** All that a returning call of [train_model] leaves. *)
Lemma train_model_outcome (model : nat) (epochs : Z) (softmax : bool)
    (h h' : gmap nat W) (w0 w1 : W) (b : best) (auc : float) :
  h !! model = Some w0 →
  (if softmax then initialize_CNN2 w0 else Ok w0) = Ok w1 →
  train_model model epochs softmax h = Ok (b, auc, h') →
  (∃ w_end,
     weights_after w1 (Z.to_nat epochs) = Ok w_end ∧ h' !! model = Some w_end)
  ∧ (∀ loc, loc ≠ model → loc ∈ dom h → h' !! loc = h !! loc)
  ∧ dom h ⊆ dom h'
  ∧ (∀ e w f1' auc' conf',
       (e < Z.to_nat epochs)%nat → weights_after w1 (S e) = Ok w →
       validation_pass w = Ok (f1', auc', conf') → gtb auc' auc = false)
  ∧ ∃ e w,
      (e < Z.to_nat epochs)%nat
      ∧ weights_after w1 (S e) = Ok w
      ∧ validation_pass w = Ok (best_f1 b, auc, conf_matrix b)
      ∧ h' !! best_model b = Some w
      ∧ best_model b ≠ model
      ∧ (best_model b ∉ dom h)
      ∧ gtb auc (Fin 0) = true
      ∧ ∀ e' w' f1' auc' conf',
          (e' < e)%nat → weights_after w1 (S e') = Ok w' →
          validation_pass w' = Ok (f1', auc', conf') →
          isnan auc' = false → gtb auc auc' = true.
Proof.
  intros Hw0 Hstart H. unfold train_model, Training.train_model in H.
  apply bind_Ok in H as (h1 & Hh1 & H).
  apply bind_Ok in H as (st & Hloop & H).
  assert (h1 !! model = Some w1 ∧ dom h1 = dom h
          ∧ ∀ loc, loc ≠ model → h1 !! loc = h !! loc) as (Hm1 & Hd1 & Hf1).
  { destruct softmax.
    - rewrite Hw0 in Hh1. cbn [Py.of_option mbind result_bind Py.bind] in Hh1.
      rewrite Hstart in Hh1. cbn [mbind result_bind Py.bind] in Hh1.
      injection Hh1 as <-. split; [apply lookup_insert_eq|]. split.
      + rewrite dom_insert_L. apply elem_of_dom_2 in Hw0.
        apply set_eq. intros x. rewrite elem_of_union, elem_of_singleton.
        split; [by intros [->|?]|by right].
      + intros loc Hloc. by rewrite lookup_insert_ne.
    - injection Hh1 as <-. injection Hstart as <-. done. }
  apply (epochs_first_best model w1 h1 _ 0) in Hloop
    as (Hend & _ & _ & Hframe & Hdom & Hmax & Hbest).
  - rewrite length_range in Hend, Hmax, Hbest. cbn [Nat.add] in Hend, Hmax, Hbest.
    destruct (retained st) as [b'|]; [|done]. injection H as <- <- <-.
    split; [done|]. split.
    { intros loc Hloc Hin. rewrite Hframe; [by apply Hf1|done|by rewrite Hd1]. }
    split; [by rewrite <- Hd1|]. split; [done|].
    destruct Hbest as (e & w & He & Hw & Hv & Hs & Hne & Hnew & Hp & He').
    exists e, w. rewrite <- Hd1. done.
  - cbn [store best_auc retained].
    split; [by exists w1|]. split; [done|]. split; [done|].
    split; [done|]. split; [done|]. split; [|done].
    intros e ????; lia.
Qed.

(** X15.  What a returning [train_model] hands back.  The best model is
    an object made during the call, other than the trained one; it holds
    the weights the model had at the end of an epoch whose validation AUC
    is the best AUC returned.  That AUC is above 0, no epoch of the run
    has a higher one, and every earlier epoch whose AUC is a number has a
    lower one: of the epochs that tie for the best, the first is kept.
    The trained object itself holds the weights of the last epoch. *)
Theorem train_model_keeps_first_best
    (model : nat) (epochs : Z) (softmax : bool) (h h' : gmap nat W)
    (w0 w1 : W) (b : best) (auc : float) :
  h !! model = Some w0 →
  (if softmax then initialize_CNN2 w0 else Ok w0) = Ok w1 →
  train_model model epochs softmax h = Ok (b, auc, h') →
  (∃ w_end,
     weights_after w1 (Z.to_nat epochs) = Ok w_end ∧ h' !! model = Some w_end)
  ∧ ∃ e w,
      (e < Z.to_nat epochs)%nat
      ∧ weights_after w1 (S e) = Ok w
      ∧ validation_pass w = Ok (best_f1 b, auc, conf_matrix b)
      ∧ h' !! best_model b = Some w
      ∧ best_model b ≠ model
      ∧ (best_model b ∉ dom h)
      ∧ gtb auc (Fin 0) = true
      ∧ (∀ e' w' f1' auc' conf',
           (e' < Z.to_nat epochs)%nat → weights_after w1 (S e') = Ok w' →
           validation_pass w' = Ok (f1', auc', conf') → gtb auc' auc = false)
      ∧ ∀ e' w' f1' auc' conf',
          (e' < e)%nat → weights_after w1 (S e') = Ok w' →
          validation_pass w' = Ok (f1', auc', conf') →
          isnan auc' = false → gtb auc auc' = true.
Proof.
  intros Hw0 Hstart H.
  destruct (train_model_outcome _ _ _ _ _ _ _ _ _ Hw0 Hstart H)
    as (Hend & _ & _ & Hmax & e & w & He & Hw & Hv & Hs & Hne & Hnew & Hp & He').
  split; [done|]. exists e, w. done.
Qed.

End Loop.
End TrainingOrder.

Module CrossValidationFacts.
Import Provider Dataset Training TrainingFacts TrainingOrder CrossValidation.

Lemma range_from_cons (low high : Z) :
  low < high → range_from low high = low :: range_from (low + 1) high.
Proof.
  intros Hlt. unfold range_from.
  destruct (range_split (high - low) 0 ltac:(lia)) as [rest Hsplit].
  assert (range (high - low) = 0 :: ((λ i, 1 + i) <$> range (high - (low + 1))))
    as ->.
  { unfold range. replace (Z.to_nat (high - low))
      with (S (Z.to_nat (high - (low + 1)))) by lia.
    cbn [seq fmap list_fmap]. f_equal.
    rewrite <- fmap_S_seq, <- !list_fmap_compose.
    apply list_fmap_ext. intros _ i _. cbn. lia. }
  rewrite fmap_cons, <- list_fmap_compose. f_equal; [lia|].
  apply list_fmap_ext. intros _ i _. cbn. lia.
Qed.

Lemma length_range_from (low high : Z) :
  length (range_from low high) = Z.to_nat (high - low).
Proof. unfold range_from. by rewrite length_fmap, length_range. Qed.

Section Folds.
Context {W confusion : Type}.
Variable train_pass : ProstateImages → W → result (W * float * float).
Variable validation_pass :
  ProstateImages → W → result (float * float * confusion).
Variable initialize_CNN2 : W → result W.
Variable load_checkpoint : result W.
Variable str : float → string.

Local Abbreviation fold_round :=
  (CrossValidation.fold_round train_pass validation_pass initialize_CNN2).
Local Abbreviation k_fold_cross_validation :=
  (CrossValidation.k_fold_cross_validation train_pass validation_pass
     initialize_CNN2 load_checkpoint str).
Local Abbreviation starting_weights :=
  (CrossValidation.starting_weights initialize_CNN2).

Lemma train_model_present (tp : W → result (W * float * float))
    (vp : W → result (float * float * confusion))
    (model : nat) (epochs : Z) (softmax : bool) (h : gmap nat W) r :
  Training.train_model tp vp initialize_CNN2 model epochs softmax h = Ok r →
  ∃ w0 w1, h !! model = Some w0 ∧ starting_weights softmax w0 = Ok w1.
Proof.
  unfold Training.train_model, CrossValidation.starting_weights. intros H.
  apply bind_Ok in H as (h1 & Hh1 & H).
  destruct softmax.
  - apply bind_Ok in Hh1 as (w0 & Hw0 & Hh1).
    apply bind_Ok in Hh1 as (w1 & Hw1 & _).
    destruct (h !! model) as [w|]; [|done]. injection Hw0 as <-. eauto.
  - injection Hh1 as <-.
    apply bind_Ok in H as (st & Hloop & H).
    destruct (range epochs) as [|e0 rest] eqn:Er.
    + cbn in Hloop. injection Hloop as <-. done.
    + cbn [for_each] in Hloop. change (Py.bind ?m ?f) with (m ≫= f) in Hloop.
      apply bind_Ok in Hloop as (st1 & Hstep & _).
      unfold Training.epoch_round in Hstep. cbn [store] in Hstep.
      apply bind_Ok in Hstep as (w0 & Hw0 & _).
      destruct (h !! model) as [w|]; [|done]. eauto.
Qed.

(** One fold.  The object the round trains is the one [model] named
    before it; [model] then names a new object. *)
Lemma fold_round_outcome epochs softmax k st st' :
  fold_round epochs softmax k st = Ok st' →
  ∃ td vd w0 w1 w_end,
    change_map_num (train_data st) k = Ok td
    ∧ change_map_num (val_data st) k = Ok vd
    ∧ train_data st' = td ∧ val_data st' = vd
    ∧ heap st !! model st = Some w0
    ∧ starting_weights softmax w0 = Ok w1
    ∧ Training.weights_after (train_pass td) w1 (Z.to_nat epochs) = Ok w_end
    ∧ heap st' !! model st = Some w_end
    ∧ (∀ loc, loc ≠ model st → loc ∈ dom (heap st) →
         heap st' !! loc = heap st !! loc)
    ∧ dom (heap st) ⊆ dom (heap st')
    ∧ (model st' ∉ dom (heap st))
    ∧ (∃ e w_best,
         (e < Z.to_nat epochs)%nat
         ∧ Training.weights_after (train_pass td) w1 (S e) = Ok w_best
         ∧ heap st' !! model st' = Some w_best)
    ∧ models st' = models st ++ [model st']
    ∧ length (auc_train_avg st') = S (length (auc_train_avg st))
    ∧ length (f1_train_avg st') = S (length (f1_train_avg st))
    ∧ length (auc_eval_avg st') = S (length (auc_eval_avg st))
    ∧ length (f1_eval_avg st') = S (length (f1_eval_avg st)).
Proof.
  unfold fold_round, CrossValidation.fold_round. intros H.
  apply bind_Ok in H as (td & Htd & H).
  apply bind_Ok in H as (vd & Hvd & H).
  apply bind_Ok in H as ([[b auc] h] & Htm & H). injection H as <-.
  cbn [heap model train_data val_data models auc_train_avg f1_train_avg
         auc_eval_avg f1_eval_avg].
  destruct (train_model_present _ _ _ _ _ _ _ Htm) as (w0 & w1 & Hw0 & Hw1).
  destruct (train_model_outcome _ _ _ _ _ _ _ _ _ _ _ _ Hw0 Hw1 Htm)
    as ((w_end & Hend & Hm) & Hframe & Hdom & _
        & e & w & He & Hw & _ & Hs & _ & Hnew & _).
  exists td, vd, w0, w1, w_end. rewrite !length_app. cbn [length].
  repeat split; try done; try lia.
  by exists e, w.
Qed.

(** The rounds after a fold leave the objects alone that were there
    before them, bar the one [model] names. *)
Lemma fold_rounds_frame epochs softmax nums st st' :
  for_each (fold_round epochs softmax) nums st = Ok st' →
  (∀ loc, loc ≠ model st → loc ∈ dom (heap st) →
     heap st' !! loc = heap st !! loc)
  ∧ (∃ later, models st' = models st ++ later ∧ length later = length nums)
  ∧ length (auc_train_avg st') = (length (auc_train_avg st) + length nums)%nat
  ∧ length (f1_train_avg st') = (length (f1_train_avg st) + length nums)%nat
  ∧ length (auc_eval_avg st') = (length (auc_eval_avg st) + length nums)%nat
  ∧ length (f1_eval_avg st') = (length (f1_eval_avg st) + length nums)%nat.
Proof.
  revert st. induction nums as [|k nums IH]; intros st H; cbn [for_each] in H.
  - injection H as <-. split; [done|]. split; [exists []; by rewrite app_nil_r|].
    cbn. lia.
  - change (Py.bind ?m ?f) with (m ≫= f) in H.
    apply bind_Ok in H as (st1 & Hstep & Hrest).
    apply fold_round_outcome in Hstep
      as (td & vd & w0 & w1 & w_end & _ & _ & _ & _ & _ & _ & _ & _ & Hframe
          & Hdom & Hnew & _ & Hmodels & L1 & L2 & L3 & L4).
    destruct (IH _ Hrest) as (Hframe' & (later & Hlater & Hlen) & M1 & M2 & M3 & M4).
    split; [|split].
    + intros loc Hloc Hin. rewrite Hframe'; [by apply Hframe| |by apply Hdom].
      intros ->. done.
    + exists (model st1 :: later). rewrite Hlater, Hmodels, <- app_assoc.
      split; [done|]. cbn. by rewrite Hlen.
    + cbn [length]. lia.
Qed.

(** X16.  With two folds or more, the model at [[0][0]] of the returned
    list, which is the one a caller takes as the trained model, is the
    object the second fold trained in place: when the call returns it
    holds the weights at the end of the last epoch of the second fold,
    started from what the first fold left in it, and not a best
    snapshot. *)
Theorem first_model_retrained (k_low k_high : Z)
    (train_set val_set : ProstateImages) (epochs : Z) (softmax : bool)
    (h : gmap nat W) (r : outcome) :
  k_low + 2 ≤ k_high →
  k_fold_cross_validation k_low k_high train_set val_set epochs softmax h
    = Ok r →
  ∃ m0 scores0 td0 td1 wc wc1 e w_snap w1 w_end,
    returned r !! 0%nat = Some (m0, scores0)
    ∧ (m0 ∉ dom h)
    ∧ load_checkpoint = Ok wc
    ∧ change_map_num train_set k_low = Ok td0
    ∧ starting_weights softmax wc = Ok wc1
    ∧ (e < Z.to_nat epochs)%nat
    ∧ Training.weights_after (train_pass td0) wc1 (S e) = Ok w_snap
    ∧ change_map_num td0 (k_low + 1) = Ok td1
    ∧ starting_weights softmax w_snap = Ok w1
    ∧ Training.weights_after (train_pass td1) w1 (Z.to_nat epochs) = Ok w_end
    ∧ final_heap r !! m0 = Some w_end.
Proof.
  intros Hk H.
  unfold k_fold_cross_validation, CrossValidation.k_fold_cross_validation in H.
  apply bind_Ok in H as (wc & Hwc & H).
  apply bind_Ok in H as (st & Hloop & H). injection H as <-.
  cbn [returned final_heap].
  rewrite range_from_cons, (range_from_cons (k_low + 1)) in Hloop by lia.
  cbn [for_each] in Hloop. change (Py.bind ?m ?f) with (m ≫= f) in Hloop.
  apply bind_Ok in Hloop as (st1 & Hstep1 & Hloop).
  change (Py.bind ?m ?f) with (m ≫= f) in Hloop.
  apply bind_Ok in Hloop as (st2 & Hstep2 & Hloop).
  apply fold_round_outcome in Hstep1
    as (td0 & vd0 & wa & wc1 & wend0 & Htd0 & _ & Etd0 & _ & Hwa & Hstart0 & _
        & _ & _ & Hdom1 & Hnew1 & (e & w_snap & He & Hsnap & Hin1)
        & Hmodels1 & _).
  cbn [heap model train_data val_data models] in *.
  rewrite lookup_insert_eq in Hwa. injection Hwa as <-.
  apply fold_round_outcome in Hstep2
    as (td1 & vd1 & w_snap' & w1 & w_end & Htd1 & _ & _ & _ & Hsnap' & Hstart
        & Hend & Hm0 & _ & Hdom2 & Hnew2 & _ & Hmodels2 & _).
  rewrite Hin1 in Hsnap'. injection Hsnap' as <-.
  apply fold_rounds_frame in Hloop
    as (Hframe & (later & Hlater & _) & _).
  exists (model st1), (auc_train_avg st), td0, td1, wc, wc1, e, w_snap, w1,
    w_end.
  split; [by rewrite Hlater, Hmodels2, Hmodels1|].
  split.
  { intros Hin. apply Hnew1. rewrite dom_insert_L. by apply elem_of_union_r. }
  split; [done|]. split; [done|]. split; [done|]. split; [done|].
  split; [done|]. split; [by rewrite <- Etd0|]. split; [done|].
  split; [done|].
  rewrite Hframe; [done| |by apply Hdom2; apply elem_of_dom_2 in Hin1].
  intros E. apply Hnew2. rewrite <- E. by apply elem_of_dom_2 in Hin1.
Qed.

(** X17.  What [list(zip(models, scores))] returns: [scores] is a list of
    four lists, so the result has one pair per fold up to four pairs and
    drops the models of further folds, and the second component of every
    pair is a list with one score per fold of the run, not the scores of
    the model it is paired with. *)
Theorem zipped_scores (k_low k_high : Z)
    (train_set val_set : ProstateImages) (epochs : Z) (softmax : bool)
    (h : gmap nat W) (r : outcome) :
  k_fold_cross_validation k_low k_high train_set val_set epochs softmax h
    = Ok r →
  length (returned r) = Nat.min (Z.to_nat (k_high - k_low)) 4
  ∧ ∀ i m scores,
      returned r !! i = Some (m, scores) →
      length scores = Z.to_nat (k_high - k_low).
Proof.
  intros H.
  unfold k_fold_cross_validation, CrossValidation.k_fold_cross_validation in H.
  apply bind_Ok in H as (wc & _ & H).
  apply bind_Ok in H as (st & Hloop & H). injection H as <-.
  cbn [returned].
  apply fold_rounds_frame in Hloop
    as (_ & (later & Hlater & Hlen) & L1 & L2 & L3 & L4).
  cbn [models auc_train_avg f1_train_avg auc_eval_avg f1_eval_avg length app]
    in Hlater, L1, L2, L3, L4.
  rewrite length_range_from in Hlen, L1, L2, L3, L4. split.
  - rewrite length_zip, Hlater, Hlen. done.
  - intros i m scores Hi. apply lookup_zip_with_Some in Hi
      as (m' & s' & [= <- <-] & _ & Hs).
    destruct i as [|[|[|[|i]]]]; cbn in Hs; try done;
      injection Hs as <-; lia.
Qed.

End Folds.
End CrossValidationFacts.

Module ExactFloats.

Lemma Qred_inject_Z (n : Z) : Qred (inject_Z n) = inject_Z n.
Proof.
  unfold Qred, inject_Z. cbn [Qnum Qden].
  pose proof (Z.ggcd_gcd n 1) as Hg.
  pose proof (Z.ggcd_correct_divisors n 1) as Hd.
  destruct (Z.ggcd n 1) as [g [q1 q2]]. cbn [fst snd] in *.
  rewrite Z.gcd_1_r in Hg. subst g. destruct Hd as [H1 H2].
  assert (q1 = n) as -> by lia. assert (q2 = 1) as -> by lia. done.
Qed.

Lemma round_half_even_Z (x : Q) (n : Z) :
  (x == inject_Z n)%Q → round_half_even x = n.
Proof.
  intros Hx. unfold round_half_even.
  rewrite (Qfloor_comp _ _ Hx), Qfloor_Z.
  assert ((x - inject_Z n == 0)%Q) as Hr by (rewrite Hx; ring).
  rewrite (Qcompare_comp _ _ Hr (1 # 2) (1 # 2) (Qeq_refl _)). done.
Qed.

Lemma two_pow_nonneg (e : Z) :
  0 ≤ e → (two_pow e == inject_Z (2 ^ e))%Q.
Proof. intros He. unfold two_pow. by rewrite Zpower_Qpower. Qed.

Lemma two_pow_add (a b : Z) : (two_pow (a + b) == two_pow a * two_pow b)%Q.
Proof. unfold two_pow. by apply Qpower_plus. Qed.

Lemma ilog2_inject_Z (n : Z) : 0 < n → ilog2 (inject_Z n) = Z.log2 n.
Proof.
  intros Hn. unfold ilog2, inject_Z. cbn [Qnum Qden].
  change (Z.log2 1) with 0. rewrite Z.sub_0_r.
  assert (Qle_bool (two_pow (Z.log2 n)) (n # 1) = true) as ->; [|done].
  apply Qle_bool_iff. rewrite two_pow_nonneg by apply Z.log2_nonneg.
  change (n # 1) with (inject_Z n). rewrite <- Zle_Qle.
  by apply Z.log2_spec.
Qed.

(** An integer below 2^53 is a double. *)
Lemma of_Z_exact (n : Z) : 0 ≤ n < 2 ^ 53 → of_Z n = Fin (inject_Z n).
Proof.
  intros Hn. unfold of_Z, binary64, round_to_format.
  destruct (Z.eq_dec n 0) as [->|Hne]; [done|].
  assert ((inject_Z n ?= 0)%Q = Gt) as ->.
  { apply Qgt_alt. change 0%Q with (inject_Z 0). rewrite <- Zlt_Qlt. lia. }
  unfold round_pos. rewrite ilog2_inject_Z by lia.
  set (L := Z.log2 n).
  assert (0 ≤ L ≤ 52) as HL.
  { split; [apply Z.log2_nonneg|].
    assert (L < 53); [|lia]. apply Z.log2_lt_pow2; lia. }
  rewrite Z.max_l by lia.
  assert ((two_pow (L - (53 - 1)) * inject_Z (2 ^ (52 - L)) == 1)%Q) as Hinv.
  { rewrite <- two_pow_nonneg by lia. rewrite <- two_pow_add.
    by replace (L - (53 - 1) + (52 - L)) with 0 by lia. }
  assert (¬ (two_pow (L - (53 - 1)) == 0)%Q) as Hnz.
  { intros E. rewrite E in Hinv. by rewrite Qmult_0_l in Hinv. }
  assert ((inject_Z n / two_pow (L - (53 - 1))
           == inject_Z (n * 2 ^ (52 - L)))%Q) as Hq.
  { rewrite inject_Z_mult. unfold Qdiv. apply Qmult_comp; [done|].
    rewrite <- (Qmult_1_l (/ two_pow (L - (53 - 1)))), <- Hinv.
    field. done. }
  rewrite (round_half_even_Z _ _ Hq).
  assert ((inject_Z (n * 2 ^ (52 - L)) * two_pow (L - (53 - 1))
           == inject_Z n)%Q) as Hr.
  { rewrite inject_Z_mult, <- Qmult_assoc, (Qmult_comm (inject_Z _) (two_pow _)).
    rewrite Hinv. ring. }
  assert (Qle_bool (inject_Z (n * 2 ^ (52 - L)) * two_pow (L - (53 - 1)))
            (inject_Z (2 ^ 53 - 1) * two_pow 971) = true) as ->.
  { apply Qle_bool_iff. rewrite Hr.
    apply (Qle_trans _ (inject_Z (2 ^ 53 - 1))).
    - rewrite <- Zle_Qle. lia.
    - rewrite <- (Qmult_1_r (inject_Z (2 ^ 53 - 1))) at 1.
      apply Qmult_le_l; [done|]. by vm_compute. }
  by rewrite (Qred_complete _ _ Hr), Qred_inject_Z.
Qed.

(** A rational equal to 1 rounds to 1. *)
Lemma binary64_one (a : Q) : (a == 1)%Q → binary64 a = Fin 1.
Proof.
  intros Ha. unfold binary64, round_to_format.
  assert ((a ?= 0)%Q = Gt) as ->.
  { rewrite (Qcompare_comp _ _ Ha 0%Q 0%Q (Qeq_refl _)). done. }
  assert (ilog2 a = 0) as Hlog.
  { unfold ilog2. pose proof Ha as Ha'. unfold Qeq in Ha'. cbn in Ha'.
    rewrite Z.mul_1_r in Ha'. rewrite Ha', Z.sub_diag.
    by rewrite (Qleb_comp _ _ (Qeq_refl (two_pow 0)) _ _ Ha). }
  unfold round_pos. rewrite Hlog.
  assert ((a / two_pow (Z.max (0 - (53 - 1)) (-1074)) == inject_Z (2 ^ 52))%Q)
    as Hq by (rewrite Ha; by vm_compute).
  by rewrite (round_half_even_Z _ _ Hq).
Qed.

End ExactFloats.

Module ResamplerEdges.
Import Resampler ResamplerFacts ExactFloats.

Section Resample.
Variable interpolate : ResampleImageFilter → Image → Z → Z → Z → float.

Local Abbreviation resample_image := (Resampler.resample_image interpolate).

Lemma out_size_axis_zero (size : Z) (spacing out_spacing : Q) :
  (out_spacing == 0)%Q →
  out_size_axis size spacing out_spacing = Raise ZeroDivisionError.
Proof.
  intros Ho. unfold out_size_axis, py_div, is_zero.
  apply Qeq_bool_iff in Ho. by rewrite Ho.
Qed.

Lemma out_size_axis_same (size : Z) (spacing : Q) :
  ¬ (spacing == 0)%Q → 0 ≤ size < 2 ^ 53 →
  out_size_axis size spacing spacing = Ok size.
Proof.
  intros Hs Hn. unfold out_size_axis, py_div, np_div, is_zero.
  destruct (Qeq_bool spacing 0) eqn:E; [by apply Qeq_bool_iff in E|].
  cbn [mbind result_bind Py.bind].
  rewrite (binary64_one (spacing / spacing)) by (by field).
  rewrite of_Z_exact by done. unfold mul.
  assert ((inject_Z size * 1)%Q = inject_Z size) as ->.
  { unfold Qmult, inject_Z. cbn [Qnum Qden]. by rewrite Z.mul_1_r. }
  fold (of_Z size). rewrite of_Z_exact by done. unfold np_round, py_int.
  rewrite (round_half_even_Z _ size) by done.
  by rewrite truncate_inject_Z.
Qed.

(** X18.  A zero in the target spacing never gives an image: it raises
    ZeroDivisionError when it is the first component, and for a later
    component the call raises as well. *)
Theorem resample_image_zero_spacing (itk_image : Image) (o0 o1 o2 : Q)
    (is_label : bool) :
  ((o0 == 0)%Q →
   resample_image itk_image (o0, o1, o2) is_label = Raise ZeroDivisionError)
  ∧ ((o0 == 0)%Q ∨ (o1 == 0)%Q ∨ (o2 == 0)%Q →
     ∃ e, resample_image itk_image (o0, o1, o2) is_label = Raise e).
Proof.
  unfold resample_image, Resampler.resample_image.
  destruct (GetSpacing itk_image) as [[sp0 sp1] sp2].
  destruct (GetSize itk_image) as [[n0 n1] n2].
  split.
  - intros H0. rewrite (out_size_axis_zero n0 sp0 o0 H0). reflexivity.
  - intros H.
    destruct (out_size_axis n0 sp0 o0) as [s0|e0] eqn:E0; [|cbn; eauto].
    destruct (out_size_axis n1 sp1 o1) as [s1|e1] eqn:E1; [|cbn; eauto].
    destruct (out_size_axis n2 sp2 o2) as [s2|e2] eqn:E2; [|cbn; eauto].
    exfalso. destruct H as [H|[H|H]].
    + by rewrite (out_size_axis_zero _ _ _ H) in E0.
    + by rewrite (out_size_axis_zero _ _ _ H) in E1.
    + by rewrite (out_size_axis_zero _ _ _ H) in E2.
Qed.

(** X19.  Resampling to the spacing the image already has keeps its
    grid: for an image whose spacings are not zero and whose sizes are
    below 2^53, [resample_image] at the image's own spacing returns an
    image of the same size, spacing, origin and direction. *)
Theorem resample_image_own_spacing (itk_image : Image) (is_label : bool) :
  ¬ ((GetSpacing itk_image).1.1 == 0)%Q →
  ¬ ((GetSpacing itk_image).1.2 == 0)%Q →
  ¬ ((GetSpacing itk_image).2 == 0)%Q →
  0 ≤ (GetSize itk_image).1.1 < 2 ^ 53 →
  0 ≤ (GetSize itk_image).1.2 < 2 ^ 53 →
  0 ≤ (GetSize itk_image).2 < 2 ^ 53 →
  ∃ out,
    resample_image itk_image (GetSpacing itk_image) is_label = Ok out
    ∧ GetSize out = GetSize itk_image
    ∧ GetSpacing out = GetSpacing itk_image
    ∧ GetOrigin out = GetOrigin itk_image
    ∧ GetDirection out = GetDirection itk_image.
Proof.
  unfold resample_image, Resampler.resample_image.
  destruct (GetSpacing itk_image) as [[sp0 sp1] sp2].
  destruct (GetSize itk_image) as [[n0 n1] n2]. cbn [fst snd].
  intros H0 H1 H2 N0 N1 N2.
  rewrite !out_size_axis_same by done.
  cbn [mbind result_bind Py.bind]. eexists. split; [done|]. done.
Qed.

End Resample.
End ResamplerEdges.

Module BatchFacts.
Import Batch CropperEdges.

Lemma range_lookup (n : Z) (i : nat) :
  (i < Z.to_nat n)%nat → range n !! i = Some (Z.of_nat i).
Proof.
  intros Hi. unfold range. rewrite list_lookup_fmap, lookup_seq_lt by done.
  done.
Qed.

Lemma concat_replicate_lookup {A} (rows : list (list A)) (n : nat) (i : nat) :
  Forall (λ row, length row = n) rows → (0 < n)%nat →
  concat rows !! i = (rows !! (i / n)%nat) ≫= (λ row, row !! (i mod n)%nat).
Proof.
  intros Hrows Hn. revert i.
  induction Hrows as [|row rows Hrow _ IH]; intros i; cbn [concat].
  - by rewrite !lookup_nil.
  - destruct (decide (i < n)%nat) as [Hlt|Hge].
    + rewrite lookup_app_l by lia.
      rewrite Nat.div_small, Nat.mod_small by done. done.
    + rewrite lookup_app_r by lia. rewrite Hrow, IH.
      assert (i / n = S ((i - n) / n))%nat as ->.
      { replace i with ((i - n) + 1 * n)%nat at 1 by lia.
        rewrite Nat.div_add by lia. lia. }
      assert (i mod n = (i - n) mod n)%nat as ->.
      { replace i with ((i - n) + 1 * n)%nat at 1 by lia.
        by rewrite Nat.Div0.mod_add. }
      done.
Qed.

(** X20.  [flatten_batch] on a batch of [n0] patients with [n1] images
    each.  With a label for every patient, the labels come out as
    [n0 * n1] labels, and position [i] of both results belongs to patient
    [i // n1]: the image is that patient's image [i % n1] and the label is
    that patient's label.  With fewer labels than patients the call raises
    IndexError. *)
Theorem flatten_batch_aligned {A} (images : batch A)
    (class_vector : list float) :
  0 ≤ shape0 images → 0 < shape1 images →
  ((Z.to_nat (shape0 images) ≤ length class_vector)%nat →
   ∃ labels,
     flatten_batch (shape0 images, shape1 images) images class_vector
       = Ok (view images, labels)
     ∧ Z.of_nat (length labels) = count (view images)
     ∧ ∀ i, 0 ≤ i < count (view images) →
         labels !! Z.to_nat i
           = class_vector !! Z.to_nat (i / shape1 images)
         ∧ cell (view images) i
           = item images (i / shape1 images) (i mod shape1 images)
         ∧ 0 ≤ i / shape1 images < shape0 images
         ∧ 0 ≤ i mod shape1 images < shape1 images)
  ∧ ((length class_vector < Z.to_nat (shape0 images))%nat →
     flatten_batch (shape0 images, shape1 images) images class_vector
       = Raise IndexError).
Proof.
  intros H0 H1. unfold flatten_batch. cbn [fst snd]. split; intros Hlen.
  - destruct (comprehension_total
                (λ idx, label ← Py.index class_vector idx;
                        Ok (replicate (Z.to_nat (shape1 images)) label))
                (range (shape0 images))) as [rows Hrows].
    { intros idx Hidx. apply elem_of_range in Hidx.
      destruct (index_lt class_vector (Z.to_nat idx) ltac:(lia)) as [x Hx].
      rewrite Z2Nat.id in Hx by lia. rewrite Hx. cbn. eauto. }
    rewrite Hrows. cbn [mbind result_bind Py.bind].
    exists (concat rows). split; [done|].
    apply comprehension_Forall2 in Hrows.
    assert (Forall (λ row, length row = Z.to_nat (shape1 images)) rows) as Hall.
    { apply Forall_forall. intros row Hrow.
      apply list_elem_of_lookup in Hrow as [j Hj].
      destruct (Forall2_lookup_r _ _ _ _ _ Hrows Hj) as (idx & _ & Hf).
      apply bind_Ok in Hf as (label & _ & Hf). injection Hf as <-.
      apply length_replicate. }
    assert (length rows = Z.to_nat (shape0 images)) as Hn.
    { rewrite <- (Forall2_length _ _ _ Hrows). apply length_range. }
    split.
    { cbn [count view].
      assert (length (concat rows)
              = (length rows * Z.to_nat (shape1 images))%nat) as ->.
      { clear Hn Hrows. induction Hall as [|row rows Hrow _ IH]; [done|].
        cbn [concat length]. rewrite length_app, IH, Hrow. lia. }
      rewrite Hn. lia. }
    intros i Hi. cbn [count view cell] in Hi |- *.
    assert (0 ≤ i / shape1 images < shape0 images) as Hq.
    { split; [apply Z.div_pos; lia|]. apply Z.div_lt_upper_bound; lia. }
    pose proof (Z.mod_pos_bound i (shape1 images) H1) as Hr.
    split; [|done].
    rewrite (concat_replicate_lookup rows (Z.to_nat (shape1 images)));
      [|done|lia].
    replace (Z.to_nat i / Z.to_nat (shape1 images))%nat
      with (Z.to_nat (i / shape1 images))
      by (rewrite Z2Nat.inj_div by lia; done).
    replace (Z.to_nat i mod Z.to_nat (shape1 images))%nat
      with (Z.to_nat (i mod shape1 images))
      by (rewrite Z2Nat.inj_mod by lia; done).
    destruct (lookup_lt_is_Some_2 rows (Z.to_nat (i / shape1 images)))
      as [row Hrow]; [lia|].
    rewrite Hrow. cbn [mbind option_bind].
    destruct (Forall2_lookup_r _ _ _ _ _ Hrows Hrow) as (idx & Hidx & Hf).
    rewrite range_lookup in Hidx by lia. injection Hidx as <-.
    apply bind_Ok in Hf as (label & Hlabel & Hf). injection Hf as <-.
    apply index_Ok_inv in Hlabel. rewrite Hlabel.
    apply lookup_replicate_2. lia.
  - destruct (range_split (shape0 images) (Z.of_nat (length class_vector))
                ltac:(lia)) as [rest ->].
    rewrite (comprehension_raise _ _ _ _ IndexError); [done| |].
    + intros idx Hidx. apply elem_of_range in Hidx.
      destruct (index_lt class_vector (Z.to_nat idx) ltac:(lia)) as [x Hx].
      rewrite Z2Nat.id in Hx by lia. rewrite Hx. cbn. eauto.
    + by rewrite index_ge.
Qed.

End BatchFacts.

Module FileNumberFacts.
Import FileNumbers Runs.

Lemma four_digits_checked :
  forallb
    (λ n, (String.length (four_digits n) =? 4)%nat
          && match int_of_digits (four_digits n) with
             | Ok m => m =? n
             | Raise _ => false
             end)
    (range 346) = true.
Proof. vm_compute. reflexivity. Qed.

Lemma four_digits_spec (n : Z) :
  0 ≤ n ≤ 345 →
  String.length (four_digits n) = 4%nat
  ∧ int_of_digits (four_digits n) = Ok n.
Proof.
  intros Hn. pose proof four_digits_checked as H.
  rewrite forallb_forall in H.
  assert (In n (range 346)) as Hin
    by (apply list_elem_of_In, elem_of_range; lia).
  apply H, andb_true_iff in Hin as [H1 H2].
  apply Nat.eqb_eq in H1. split; [done|].
  destruct (int_of_digits (four_digits n)) as [m|]; [|done].
  apply Z.eqb_eq in H2. by subst.
Qed.

(** X21.  [generate_random_resampled_number] returns, for every state of
    the generator, a string of exactly four decimal digits, zeros first,
    that reads back as the number drawn, a number from 0 to 345 with both
    ends included; and each of these numbers is drawn from some state. *)
Theorem generate_random_resampled_number_digits (g : rng) :
  (∃ n g',
     generate_random_resampled_number g = Ok (four_digits n, g')
     ∧ 0 ≤ n ≤ 345
     ∧ String.length (four_digits n) = 4%nat
     ∧ int_of_digits (four_digits n) = Ok n)
  ∧ ∀ n, 0 ≤ n ≤ 345 →
      generate_random_resampled_number (Z.to_N n :: g)
      = Ok (four_digits n, g).
Proof.
  unfold generate_random_resampled_number, random_randint.
  cbn [Z.ltb Z.compare mbind result_bind Py.bind]. split.
  - pose proof (randbelow_lt (Z.to_N (345 - 0 + 1)) g ltac:(lia)) as Hlt.
    destruct (randbelow (Z.to_N (345 - 0 + 1)) g) as [j g1]. cbn [fst] in Hlt.
    exists (Z.of_N j), g1. cbn [Z.add].
    assert (0 ≤ Z.of_N j ≤ 345) as Hj by lia.
    split; [done|]. split; [done|]. by apply four_digits_spec.
  - intros n Hn. cbn [randbelow].
    rewrite N.mod_small by lia. cbn [Z.add]. by rewrite Z2N.id by lia.
Qed.

End FileNumberFacts.

(** ** The builder's dictionary handed to the partitioner *)

Module PipelineFacts.
Import Cropper Builder Partitioner Dataset PathFacts BuilderFacts
  BuilderInvariants DatasetFacts.

Lemma split_last (c : Ascii.ascii) (s1 s2 t1 t2 : string) :
  free_of c t1 = true → free_of c t2 = true →
  s1 +:+ String c t1 = s2 +:+ String c t2 → s1 = s2 ∧ t1 = t2.
Proof.
  revert s2. induction s1 as [|a s1 IH]; intros [|b s2] H1 H2 E.
  - by injection E as <-.
  - exfalso. change (String b s2 +:+ ?t) with (String b (s2 +:+ t)) in E.
    injection E as _ ->. rewrite free_of_app in H1. cbn in H1.
    rewrite Ascii.eqb_refl in H1. by destruct (free_of c s2).
  - exfalso. change (String a s1 +:+ ?t) with (String a (s1 +:+ t)) in E.
    injection E as _ <-. rewrite free_of_app in H2. cbn in H2.
    rewrite Ascii.eqb_refl in H2. by destruct (free_of c s1).
  - change (String a s1 +:+ ?t) with (String a (s1 +:+ t)) in E.
    change (String b s2 +:+ ?t) with (String b (s2 +:+ t)) in E.
    injection E as <- E. destruct (IH s2 H1 H2 E) as [-> ->]. done.
Qed.

Lemma train_key_inj (p1 p2 : string) (m1 m2 : Z) :
  train_key p1 m1 = train_key p2 m2 → p1 = p2 ∧ m1 = m2.
Proof.
  unfold train_key. intros E.
  change ("_" +:+ ?t) with (String underscore t) in E.
  apply split_last in E as [-> E]; [|by apply pretty_Z_free..].
  split; [done|]. by apply (inj pretty).
Qed.

Lemma train_key_last (p : string) (m : Z) :
  last_char (train_key p m) = Ok (pretty_N_char (Z.to_N (Z.abs m) mod 10)).
Proof.
  unfold train_key. rewrite <- append_assoc.
  by rewrite pretty_Z_nonempty, pretty_Z_last.
Qed.

Lemma flatten_patients_cons (key : string) (l : list entry)
    (rest : list (string * list entry)) :
  flatten_patients ((key, l) :: rest)
  = ((λ e, (key, e)) <$> l) ++ flatten_patients rest.
Proof.
  unfold flatten_patients. cbn [mbind list_bind]. f_equal.
Qed.

Lemma flatten_patients_elem (items : list (string * list entry))
    (name : string) (e : entry) :
  (name, e) ∈ flatten_patients items ↔ ∃ l, (name, l) ∈ items ∧ e ∈ l.
Proof.
  induction items as [|[key l] items IH].
  - split; [by intros ?%not_elem_of_nil|].
    by intros (l & ?%not_elem_of_nil & _).
  - rewrite flatten_patients_cons, elem_of_app, IH, list_elem_of_fmap. split.
    + intros [(e' & [= -> ->] & He)|(l' & Hl' & He)].
      * exists l. split; [left|done].
      * exists l'. split; [by right|done].
    + intros (l' & Hl' & He). apply elem_of_cons in Hl' as [[= -> ->]|Hl'].
      * left. by exists e.
      * right. by exists l'.
Qed.

(** When every key holds a multiple of [c] entries, the patch list falls
    into blocks of [c] patches of one key. *)
Lemma flatten_patients_blocks (items : list (string * list entry)) (c : nat) :
  (0 < c)%nat →
  (∀ key l, (key, l) ∈ items → ∃ m, length l = (m * c)%nat) →
  ∀ (i : nat) name e,
    flatten_patients items !! i = Some (name, e) →
    ∃ e0, flatten_patients items !! (i / c * c)%nat = Some (name, e0).
Proof.
  intros Hc. induction items as [|[key l] items IH]; intros Hall i name e Hi.
  - done.
  - rewrite flatten_patients_cons in Hi |- *.
    destruct (Hall key l) as [m Hm]; [left|].
    assert (i / c * c ≤ i)%nat as Hle.
    { rewrite Nat.mul_comm. apply Nat.Div0.mul_div_le. }
    destruct (decide (i < m * c)%nat) as [Hlt|Hge].
    + rewrite lookup_app_l in Hi by (rewrite length_fmap; lia).
      rewrite lookup_app_l by (rewrite length_fmap; lia).
      rewrite list_lookup_fmap in Hi |- *.
      destruct (l !! i) as [ei|] eqn:Ei; [|done]. injection Hi as <- <-.
      destruct (lookup_lt_is_Some_2 l (i / c * c)) as [e0 He0]; [lia|].
      exists e0. by rewrite He0.
    + rewrite lookup_app_r in Hi by (rewrite length_fmap; lia).
      rewrite length_fmap, Hm in Hi.
      apply IH in Hi as [e0 He0];
        [|intros k' l' Hin; apply (Hall k'); by right].
      exists e0.
      assert (i / c = (i - m * c) / c + m)%nat as Hdiv.
      { rewrite <- Nat.div_add by lia. f_equal. lia. }
      rewrite lookup_app_r by (rewrite length_fmap, Hm, Hdiv; lia).
      rewrite length_fmap, Hm, Hdiv.
      replace (((i - m * c) / c + m) * c - m * c)%nat
        with ((i - m * c) / c * c)%nat by lia.
      done.
Qed.

Section Library.
Variable py_int_of_str : string → result Z.
Variable py_float_of_str : string → result float.
Variable padding_Execute : Image → Image.
Variable TransformPhysicalPointToIndex : Image → list float → result (triple Z).
Variable rotation3d : Image → Z → list float → Image.

Local Abbreviation image_cropper :=
  (Builder.image_cropper py_int_of_str py_float_of_str padding_Execute
     TransformPhysicalPointToIndex rotation3d).

(** X22.  Train mode.  Under every key of the dictionary [image_cropper]
    returns, the number of entries is a positive multiple of
    [num_crops_per_image]: a finding either contributes all of its crops
    to its key or the key is dropped. *)
Theorem train_key_counts (df : list finding)
    (resampled : triple (list (option Image))) (w h d n : Z) (g g' : rng)
    (out : gmap string (list entry)) :
  image_cropper df resampled w h d n true g = Ok (out, g') →
  1 ≤ n
  ∧ ∀ key l, out !! key = Some l →
      ∃ m, (0 < m)%nat ∧ length l = (m * Z.to_nat n)%nat.
Proof. apply train_output_multiples. Qed.

(** X23.  Train mode, the builder's dictionary given to
    [write_cropped_images_train_and_folds] with the same number of crops,
    its items read in any order.  The loop that writes the patches raises
    nothing.  For every patient index of the partitioner, the
    [num_crops] patches of its block all carry one key and one [ClinSig]
    marker of a row of the table, and the label character the partitioner
    reads for the patient is the last decimal digit of that marker. *)
Theorem partitioner_blocks_are_findings (df : list finding)
    (resampled : triple (list (option Image))) (w h d n : Z) (g g' : rng)
    (out : gmap string (list entry)) (items : list (string * list entry)) :
  image_cropper df resampled w h d n true g = Ok (out, g') →
  items ≡ₚ map_to_list out →
  (∃ written,
     comprehension (λ '(p_id, item), write_patch p_id item)
       (Cropper.enumerate (flatten_patients items)) = Ok written)
  ∧ ∀ idx, idx ∈ patient_indices_of (flatten_patients items) n →
      ∃ f marker,
        f ∈ df ∧ ClinSig f = Some marker
        ∧ (∀ pos, 0 ≤ pos < n →
             ∃ crop, flatten_patients items !! Z.to_nat (idx * n + pos)
                     = Some (train_key (patient_id f) marker,
                             (crop, Some marker)))
        ∧ label_of (flatten_patients items) n idx
          = Ok (pretty_N_char (Z.to_N (Z.abs marker) mod 10)).
Proof.
  intros Hrun Hitems.
  pose proof (train_output_sound _ _ _ _ _ _ _ _ _ _ _ _ _ _ Hrun) as Hsound.
  destruct (train_output_multiples _ _ _ _ _ _ _ _ _ _ _ _ _ _ Hrun)
    as [Hn Hmult].
  set (pi := flatten_patients items).
  assert (∀ name l, (name, l) ∈ items ↔ out !! name = Some l) as Hin.
  { intros name l. rewrite Hitems. apply elem_of_map_to_list. }
  assert (∀ name e, (name, e) ∈ pi →
            length e.1 = 3%nat
            ∧ ∃ f marker, f ∈ df ∧ ClinSig f = Some marker
                ∧ e.2 = Some marker
                ∧ name = train_key (patient_id f) marker) as Helem.
  { intros name e (l & Hl & He)%flatten_patients_elem.
    apply Hin in Hl. destruct (Hsound name l Hl) as [_ Hall].
    rewrite Forall_forall in Hall.
    destruct (Hall e He) as (Hlen & _ & _ & Hmark). done. }
  split.
  - apply comprehension_total. intros [p_id [name [crop mk]]] Hx.
    unfold Cropper.enumerate in Hx.
    apply list_elem_of_lookup_1 in Hx as [j Hx].
    rewrite list_lookup_imap in Hx.
    destruct (pi !! j) as [item|] eqn:Hj; [|done].
    injection Hx as <- ->. apply list_elem_of_lookup_2 in Hj.
    destruct (Helem _ _ Hj) as (Hlen & f & marker & _ & _ & Hmk & _).
    cbn [fst snd] in Hlen, Hmk. subst mk.
    destruct crop as [|t2 [|adc [|bval [|]]]]; try done.
    eexists. apply write_patch_spec.
    exists marker, t2, adc, bval. done.
  - intros idx Hidx. unfold patient_indices_of in Hidx.
    apply elem_of_list_to_set, elem_of_range in Hidx.
    assert (idx * n + n ≤ Z.of_nat (length pi)) as Hblock.
    { assert (n * (Z.of_nat (length pi) / n) ≤ Z.of_nat (length pi))
        by (apply Z.mul_div_le; lia).
      nia. }
    assert (0 < Z.to_nat n)%nat as Hc by lia.
    destruct (lookup_lt_is_Some_2 pi (Z.to_nat (idx * n))) as [[name e] He];
      [lia|].
    pose proof (list_elem_of_lookup_2 _ _ _ He) as Hhead.
    destruct (Helem _ _ Hhead) as (_ & f & marker & Hf & Hsig & Hmk & ->).
    exists f, marker. split; [done|]. split; [done|]. split.
    + intros pos Hpos.
      destruct (lookup_lt_is_Some_2 pi (Z.to_nat (idx * n + pos)))
        as [[name' [crop' mk']] He']; [lia|].
      exists crop'.
      destruct (flatten_patients_blocks items (Z.to_nat n) Hc) with
        (i := Z.to_nat (idx * n + pos)) (name := name') (e := (crop', mk'))
        as [e0 He0]; [|done|].
      { intros key l Hl. apply Hin in Hl.
        destruct (Hmult key l Hl) as (m & _ & Hm). by exists m. }
      assert (Z.to_nat (idx * n + pos) / Z.to_nat n * Z.to_nat n
              = Z.to_nat (idx * n))%nat as Hi.
      { assert (Z.to_nat (idx * n + pos) / Z.to_nat n = Z.to_nat idx)%nat
          as ->.
        { replace (Z.to_nat (idx * n + pos))
            with (Z.to_nat pos + Z.to_nat idx * Z.to_nat n)%nat by nia.
          rewrite Nat.div_add by lia.
          rewrite Nat.div_small by lia. done. }
        nia. }
      rewrite Hi in He0. fold pi in He0. rewrite He in He0.
      injection He0 as <- _.
      pose proof (list_elem_of_lookup_2 _ _ _ He') as Hin'.
      destruct (Helem _ _ Hin') as (_ & f' & marker' & _ & _ & Hmk' & Hkey').
      cbn [snd] in Hmk'. apply train_key_inj in Hkey' as [_ <-].
      rewrite Hmk' in He'. exact He'.
    + unfold label_of. fold pi.
      rewrite <- (Z2Nat.id (idx * n)) by nia.
      rewrite (index_Ok _ _ _ He). cbn [mbind result_bind Py.bind fst].
      apply train_key_last.
Qed.

End Library.
End PipelineFacts.

(** ** The concrete runs *)

Module RunsFacts.
Import Resampler Cropper Builder Partitioner Provider Training Runs.
Import ResamplerFacts CropperFacts BuilderFacts PartitionerFacts ProviderFacts
  TrainingFacts.


(** C3 on the ramp volume, cropped to 32 x 32 x 3 about its centre. *)
Lemma crop_from_center_in_bounds_run :
  ∃ crop,
    crop_from_center [ramp_volume] [(32, 32, 16)] 32 32 3 0 0 = Ok crop
    ∧ length crop = 1%nat
    ∧ ∀ n im ci cj ck,
        [ramp_volume] !! n = Some im → [(32, 32, 16)] !! n = Some (ci, cj, ck) →
        ∃ out,
          crop !! n = Some out
          ∧ GetSize out = (32, 32, 3)
          ∧ (window ci 0 32).2 = ci - 0 - 32 / 2 + 32
          ∧ ∀ a b c,
              GetPixel out a b c
              = GetPixel im (ci - 0 - 32 / 2 + a) (cj - 0 - 32 / 2 + b)
                  (ck - 3 / 2 + c).
Proof.
  apply (crop_from_center_in_bounds [ramp_volume] [(32, 32, 16)] 32 32 3 0 0).
  - simpl. lia.
  - intros [|[|n]] im ci cj ck Him Hc; simpl in Him, Hc; try discriminate.
    injection Him as <-. injection Hc as <- <- <-.
    vm_compute. intuition discriminate.
Defined.

(** C4 on the ramp volume, with the candidate angles of [image_cropper]. *)
Lemma rotated_crop_draws_run :
  (∀ g, ∃ degree i_offset j_offset g',
     degree ∈ degrees
     ∧ -7 ≤ i_offset < 7 ∧ -7 ≤ j_offset < 7
     ∧ rotated_crop no_rotation [ramp_volume] 32 32 3 degrees [] [(32, 32, 16)] g
       = (crop ← crop_from_center
                   ((λ patient, no_rotation patient degree []) <$> [ramp_volume])
                   [(32, 32, 16)] 32 32 3 i_offset j_offset;
          Ok (crop, g')))
  ∧ (∀ n degree i_offset j_offset g',
       degrees !! n = Some degree →
       -7 ≤ i_offset < 7 → -7 ≤ j_offset < 7 →
       rotated_crop no_rotation [ramp_volume] 32 32 3 degrees [] [(32, 32, 16)]
         (N.of_nat n :: Z.to_N (i_offset + 7) :: Z.to_N (j_offset + 7) :: g')
       = (crop ← crop_from_center
                   ((λ patient, no_rotation patient degree []) <$> [ramp_volume])
                   [(32, 32, 16)] 32 32 3 i_offset j_offset;
          Ok (crop, g'))).
Proof.
  apply (rotated_crop_draws no_rotation [ramp_volume] 32 32 3 degrees []
           [(32, 32, 16)]).
  discriminate.
Defined.

(** On the two findings, two crops each: the centred crop of the first
    has an all-zero T2 patch, and its key is gone from the returned
    dictionary. *)
Lemma train_bad_crop_excluded_run :
  ∃ out g',
    train_run = Ok (out, g')
    ∧ (∃ st_end,
         findings_loop int_of_digits float_of_digits no_padding centre_index
           no_rotation true volumes 2 2 1 2 ([] ++ row0 :: [row1])
           (start draws) = Ok st_end
         ∧ train_key (patient_id row0) 1 ∈ invalid_keys st_end)
    ∧ out !! train_key (patient_id row0) 1 = None.
Proof.
  exists (value_of (∅, []) train_run).1, (value_of (∅, []) train_run).2.
  split; [vm_compute; reflexivity|].
  apply (train_bad_crop_excluded int_of_digits float_of_digits no_padding
           centre_index no_rotation [] [row1] row0 volumes 2 2 1 2 0 1
           draws (value_of (∅, []) train_run).2
           padded0 lps0 centres0 (start draws) (start draws)
           centred_crop draws).
  - reflexivity.
  - vm_compute. reflexivity.
  - lia.
  - reflexivity.
  - vm_compute. reflexivity.
  - right. eexists. split; [reflexivity|].
    intros i j k _ _ _. exists 0%Q. split; reflexivity.
  - vm_compute. reflexivity.
Defined.

(** C5 fails on this run.  One crop per finding, the default, and a
    configured width of 9 on volumes of width 8: the one crop of the first
    finding has a patch of another size than the configured one, so the
    key of the finding is marked invalid while nothing was stored under
    it, and instead of returning a dictionary without the finding
    [image_cropper] raises KeyError at [crops.pop(key)]. *)
Lemma train_pop_of_absent_key :
  ∃ crop st_end,
    finding_inputs int_of_digits float_of_digits no_padding centre_index
      true volumes row0
    = Ok (Some (Some 1, padded0, lps0, centres0))
    ∧ make_crop no_rotation padded0 lps0 centres0 9 2 1 0 draws
      = Ok (crop, draws)
    ∧ bad_crop 9 2 1 crop
    ∧ findings_loop int_of_digits float_of_digits no_padding centre_index
        no_rotation true volumes 9 2 1 1 [row0; row1] (start draws)
      = Ok st_end
    ∧ train_key (patient_id row0) 1 ∈ invalid_keys st_end
    ∧ crops st_end !! train_key (patient_id row0) 1 = None
    ∧ image_cropper int_of_digits float_of_digits no_padding centre_index
        no_rotation [row0; row1] volumes 9 2 1 1 true draws
      = Raise KeyError.
Proof.
  exists (value_of ([], draws)
            (make_crop no_rotation padded0 lps0 centres0 9 2 1 0 draws)).1,
    (value_of (start draws)
       (findings_loop int_of_digits float_of_digits no_padding centre_index
          no_rotation true volumes 9 2 1 1 [row0; row1] (start draws))).
  split; [vm_compute; reflexivity|].
  split; [vm_compute; reflexivity|].
  split.
  { left. eexists. split; [left|]. vm_compute. discriminate. }
  split; [vm_compute; reflexivity|].
  split; [apply (bool_decide_unpack _); vm_compute; exact I|].
  split; vm_compute; reflexivity.
Qed.

(** C7 on the two findings in test mode: the centred crop of the first is
    stored as noise under the bare patient id, its twelve voxels the
    doubles of the first twelve numbers of the stream. *)
Lemma test_zero_crop_replaced_run :
  ∃ out g' a0 a1 a2 ga gb g2 noise after,
    test_run = Ok (out, g')
    ∧ np_random_rand (1, 2, 2) draws = Ok (a0, ga)
    ∧ np_random_rand (1, 2, 2) ga = Ok (a1, gb)
    ∧ np_random_rand (1, 2, 2) gb = Ok (a2, g2)
    ∧ noise = [GetImageFromArray a0; GetImageFromArray a1;
               GetImageFromArray a2]
    ∧ g2 = drop (3 * Z.to_nat (1 * 2 * 2)) draws
    ∧ Forall (noise_patch 2 2 1) noise
    ∧ (∀ (m : nat) patch i j k,
         noise !! m = Some patch →
         0 ≤ i < 2 → 0 ≤ j < 2 → 0 ≤ k < 1 →
         GetPixel patch i j k = draw_at draws (noise_position 2 2 1 m i j k))
    ∧ (∀ (m m' : nat) i j k i' j' k',
         0 ≤ i < 2 → 0 ≤ j < 2 → 0 ≤ k < 1 →
         0 ≤ i' < 2 → 0 ≤ j' < 2 → 0 ≤ k' < 1 →
         noise_position 2 2 1 m i j k = noise_position 2 2 1 m' i' j' k' →
         m = m' ∧ i = i' ∧ j = j' ∧ k = k')
    ∧ out !! patient_id row0
      = Some (entries (crops (start draws)) (patient_id row0)
                ++ (noise, None) :: after)
    ∧ (∀ pid,
         length (entries out pid)
         = (Z.to_nat 2
            * length (findings_of int_of_digits float_of_digits no_padding
                        centre_index volumes ([] ++ row0 :: [row1]) pid))%nat)
    ∧ (∀ pid e, e ∈ entries out pid → e.2 = None)
    ∧ (∀ key, key ∈ dom out →
              ∃ f, f ∈ [] ++ row0 :: [row1] ∧ patient_id f = key).
Proof.
  exists (value_of (∅, []) test_run).1, (value_of (∅, []) test_run).2.
  destruct (test_zero_crop_replaced int_of_digits float_of_digits no_padding
              centre_index no_rotation [] [row1] row0 volumes 2 2 1 2 0
              draws (value_of (∅, []) test_run).2 None
              padded0 lps0 centres0 (start draws) (start draws)
              centred_crop draws zero_volume_crop
              (value_of (∅, []) test_run).1)
    as (a0 & a1 & a2 & ga & gb & g2 & noise & after & H).
  - reflexivity.
  - vm_compute. reflexivity.
  - lia.
  - reflexivity.
  - vm_compute. reflexivity.
  - reflexivity.
  - intros i j k _ _ _. exists 0%Q. split; reflexivity.
  - vm_compute. reflexivity.
  - exists a0, a1, a2, ga, gb, g2, noise, after.
    split; [vm_compute; reflexivity | exact H].
Defined.

(** C1 on the cohort, two folds with two validation patients per class. *)
Lemma fold_disjoint_from_training_run :
  ∃ p g',
    half_run = Ok (p, g')
    ∧ length (fold_key_mappings p) = Z.to_nat 2
    ∧ length (train_key_mappings p) = Z.to_nat 2
    ∧ ∀ k fold_mapping train_mapping,
        fold_key_mappings p !! k = Some fold_mapping →
        train_key_mappings p !! k = Some train_mapping →
        (∀ i key key',
           fold_mapping !! key = Some i → train_mapping !! key' ≠ Some i)
        ∧ (∀ i key,
             train_mapping !! key = Some i →
             ∃ patient pos,
               i = patient * 2 + pos ∧ 0 ≤ pos < 2
               ∧ ∀ pos' key', 0 ≤ pos' < 2 →
                   fold_mapping !! key' ≠ Some (patient * 2 + pos')).
Proof.
  exists (value_of no_partition half_run).1, (value_of no_partition half_run).2.
  split; [vm_compute; reflexivity|].
  apply (fold_disjoint_from_training cohort 2 2 (Fin (1 # 2)) draws
           (value_of no_partition half_run).2).
  vm_compute. reflexivity.
Defined.



(** C8 as the code has it, on the provider whose every cell normalises to
    0/0. *)
Lemma getitem_checks_first_cell_run :
  (isnan NaN = true →
   ∃ noise g',
     np_random_rand (3, 32, 32) draws = Ok (noise, g')
     ∧ shape noise = (3, 32, 32)
     ∧ (∀ a b c, ∃ q, at_ noise a b c = Fin q ∧ (0 <= q)%Q ∧ (q < 1)%Q)
     ∧ __getitem__ patch_store no_padding flat_provider 0 draws
       = Ok ({| s_image := to_tensor noise;
                s_cancer := None; s_index := 0 |}, g'))
  ∧ (isnan NaN = false →
     __getitem__ patch_store no_padding flat_provider 0 draws
     = Ok ({| s_image := to_tensor flat_normalized;
              s_cancer := None; s_index := 0 |}, draws)).
Proof.
  apply (getitem_checks_first_cell patch_store no_padding flat_provider 0
           draws flat_normalized None 0 NaN).
  - vm_compute. reflexivity.
  - vm_compute. reflexivity.
Defined.

(** C8 as stated fails: the normalised array holds an infinity at
    [[0, 0, 1]], and the read returns that array, infinity included, and
    draws nothing from the generator. *)
Lemma getitem_non_finite_counterexample :
  ∃ smp,
    normalized_image patch_store no_padding spiked_provider 0
    = Ok (spiked_normalized, None, 0)
    ∧ has_non_finite spiked_normalized = true
    ∧ at_ spiked_normalized 0 0 0 = Fin 1
    ∧ __getitem__ patch_store no_padding spiked_provider 0 draws = Ok (smp, draws)
    ∧ shape (s_image smp) = (3, 32, 32)
    ∧ at_ (s_image smp) 0 0 1 = Inf false.
Proof.
  exists (value_of ({| s_image := no_array.1.1; s_cancer := None; s_index := 0 |}, [])
            (__getitem__ patch_store no_padding spiked_provider 0 draws)).1.
  repeat split; vm_compute; reflexivity.
Qed.

(** C9 at its failing input: one epoch whose validation AUC is 0.0.  The
    comparison with the initial [best_auc = 0] is false, nothing is
    retained, and the [return] raises [UnboundLocalError]. *)
Lemma train_model_zero_auc :
  train_model
    (λ w : Z, Ok (w + 1, Fin (1 # 2), Fin (1 # 2)))
    (λ w : Z, Ok (Fin 0, Fin 0, tt))
    (λ w, Ok w)
    0%nat 1 false {[0%nat := 0]}
  = Raise UnboundLocalError.
Proof. vm_compute. reflexivity. Qed.

End RunsFacts.

Module ScenarioFacts.
Import Resampler Cropper Builder Partitioner Provider Training Runs.
Import Dataset CrossValidation Scenarios.
Import CropperFacts BuilderFacts PartitionerFacts.
Import CropperEdges BuilderInvariants PartitionerEdges PathFacts DatasetFacts
  TrainingOrder CrossValidationFacts.


(** X4 on the two findings, two crops each. *)
Lemma train_entries_sound_run :
  ∃ out g',
    train_run = Ok (out, g')
    ∧ ∀ key l, out !! key = Some l →
        l ≠ []
        ∧ Forall
            (λ e : entry,
               length e.1 = 3%nat
               ∧ Forall (λ im, GetSize im = (2, 2, 1)) e.1
               ∧ (∃ first, e.1 !! 0%nat = Some first ∧ zero_sum first = false)
               ∧ ∃ f marker,
                   f ∈ [row0; row1] ∧ ClinSig f = Some marker
                   ∧ e.2 = Some marker
                   ∧ key = train_key (patient_id f) marker) l.
Proof.
  exists (value_of no_crops train_run).1, (value_of no_crops train_run).2.
  split; [vm_compute; reflexivity|].
  apply (train_entries_sound int_of_digits float_of_digits no_padding
           centre_index no_rotation [row0; row1] volumes 2 2 1 2 draws
           (value_of no_crops train_run).2).
  vm_compute. reflexivity.
Defined.

(** X5 on the two findings with a crop width of 9 on volumes of width 8. *)
Lemma train_all_crops_misshapen_run :
  ∃ st,
    wide_loop = Ok st
    ∧ image_cropper int_of_digits float_of_digits no_padding centre_index
        no_rotation [row0; row1] volumes 9 2 1 1 true draws
      = Raise KeyError.
Proof.
  exists (value_of (start draws) wide_loop).
  split; [vm_compute; reflexivity|].
  apply (train_all_crops_misshapen int_of_digits float_of_digits no_padding
           centre_index no_rotation [row0; row1] volumes 9 2 1 1 draws
           (value_of (start draws) wide_loop) (train_key (patient_id row0) 1)).
  - lia.
  - vm_compute. reflexivity.
  - exists row0, 1, padded0, lps0, centres0.
    split; [left|]. split; vm_compute; reflexivity.
  - intros f marker imgs lps ijk Hf Hinputs _ k g0 crop g1 Hmk.
    assert (∃ im0 rest, imgs = im0 :: rest ∧ GetSize im0 = (8, 8, 3))
      as (im0 & rest & -> & Hs0).
    { apply elem_of_cons in Hf as [->|Hf];
        [|apply list_elem_of_singleton in Hf as ->];
        vm_compute in Hinputs; injection Hinputs as _ <- _ _; eauto. }
    assert (∃ io jo, crop_from_center (im0 :: rest) ijk 9 2 1 io jo = Ok crop)
      as (io & jo & Hcrop).
    { unfold make_crop, rotated_crop in Hmk. destruct (k =? 0).
      - apply bind_Ok in Hmk as (c & Hc & Hmk). injection Hmk as <- _. eauto.
      - apply bind_Ok in Hmk as ([degree g2] & _ & Hmk).
        apply bind_Ok in Hmk as ([io g3] & _ & Hmk).
        apply bind_Ok in Hmk as ([jo g4] & _ & Hmk).
        apply bind_Ok in Hmk as (c & Hc & Hmk). injection Hmk as <- _.
        unfold no_rotation in Hc. rewrite list_fmap_id in Hc. eauto. }
    apply crop_from_center_at_most in Hcrop; [|lia..].
    apply Forall2_cons_inv_l in Hcrop as (p0 & crop' & Hp0 & _ & ->).
    rewrite Hs0 in Hp0. cbn [fst snd] in Hp0.
    exists p0. split; [left|]. intros E. rewrite E in Hp0. cbn [fst snd] in Hp0.
    lia.
Defined.

(** X6 on the two findings when the T2 volume of the second is blank. *)
Lemma blank_finding_skipped_run :
  image_cropper int_of_digits float_of_digits no_padding centre_index
    no_rotation ([row0] ++ row1 :: []) blank_volumes 2 2 1 2 true draws
  = image_cropper int_of_digits float_of_digits no_padding centre_index
      no_rotation ([row0] ++ []) blank_volumes 2 2 1 2 true draws.
Proof.
  apply (blank_finding_skipped int_of_digits float_of_digits no_padding
           centre_index no_rotation true [row0] [] row1 blank_volumes 2 2 1 2
           draws [None; Some one_volume; Some one_volume]).
  - vm_compute. reflexivity.
  - left.
  - intros _. by exists 0.
Defined.

(** X7 on the two findings with one crop each. *)
Lemma single_crop_train_draws_nothing_run :
  ∃ out g',
    single_run = Ok (out, g')
    ∧ g' = draws
    ∧ ∀ g2,
        image_cropper int_of_digits float_of_digits no_padding centre_index
          no_rotation [row0; row1] volumes 2 2 1 1 true g2 = Ok (out, g2).
Proof.
  exists (value_of no_crops single_run).1, (value_of no_crops single_run).2.
  split; [vm_compute; reflexivity|].
  apply (single_crop_train_draws_nothing int_of_digits float_of_digits
           no_padding centre_index no_rotation [row0; row1] volumes 2 2 1
           draws).
  vm_compute. reflexivity.
Defined.

(** X8 on three cancer patients and one other, half of the cancer
    patients per fold. *)
Lemma cancer_majority_raises_run :
  size majority_patients = 4%nat
  ∧ write_cropped_images_train_and_folds majority 2 1 (Fin (1 # 2)) draws
    = Raise ValueError.
Proof.
  split; [vm_compute; reflexivity|].
  apply (cancer_majority_raises majority 2 1 (Fin (1 # 2)) draws
           (value_of []
              (comprehension (λ '(p_id, item), write_patch p_id item)
                 (Cropper.enumerate (flatten_patients majority))))
           (value_of ∅ (select_label zero_char (flatten_patients majority) 2
                          majority_patients))
           (value_of ∅ (select_label one_char (flatten_patients majority) 2
                          majority_patients))
           1).
  - vm_compute. reflexivity.
  - lia.
  - lia.
  - vm_compute. reflexivity.
  - vm_compute. reflexivity.
  - vm_compute. reflexivity.
  - vm_compute. lia.
Defined.

(** X9 on the cohort: four cancer patients, two per class in validation,
    two crops each. *)
Lemma fold_mapping_sizes_run :
  ∃ p g' C n,
    half_run = Ok (p, g')
    ∧ select_label one_char (flatten_patients cohort) 2
        (patient_indices_of (flatten_patients cohort) 2) = Ok C
    ∧ num_each_class (Fin (1 # 2)) C = Ok n
    ∧ ∀ k fold_mapping train_mapping,
        fold_key_mappings p !! k = Some fold_mapping →
        train_key_mappings p !! k = Some train_mapping →
        Z.of_nat (size fold_mapping) = 2 * n * 2
        ∧ Z.of_nat (size train_mapping) = 2 * (Z.of_nat (size C) - n) * 2.
Proof.
  exists half_partition, (value_of no_partition half_run).2.
  destruct (fold_mapping_sizes cohort 2 2 (Fin (1 # 2)) draws
              (value_of no_partition half_run).2 half_partition)
    as (C & n & H); [lia|vm_compute; reflexivity|].
  exists C, n. split; [vm_compute; reflexivity|exact H].
Defined.

(** The constructor returns on the mappings of these runs. *)
Lemma half_provider_built :
  fold_provider (fold_key_mappings half_partition) = Ok half_provider
  ∧ mapping half_provider = fold_key_mappings half_partition
  ∧ first_index half_provider = 0.
Proof. vm_compute. done. Qed.

Lemma five_folds_built :
  fold_provider [dense_pair; dense_pair; dense_pair; dense_pair; dense_pair]
  = Ok five_folds.
Proof. vm_compute. reflexivity. Qed.

(** The read of index 0 of the first validation mapping: the patch at
    position 11 normalises to NaN, and the read draws its image. *)
Lemma half_read_noise (noise : ndarray) (g1 : rng) :
  np_random_rand (3, 32, 32) draws = Ok (noise, g1) →
  half_read
  = Ok ({| s_image := to_tensor noise; s_cancer := Some 0; s_index := 11 |},
        g1).
Proof.
  intros Hrand. unfold half_read, Provider.__getitem__.
  assert (normalized_image (ReadImage_of (files half_partition))
            normalize_flat half_provider 0
          = Ok (GetArrayFromImage (normalize_flat one_volume), Some 0, 11))
    as -> by (vm_compute; reflexivity).
  cbn [mbind result_bind Py.bind].
  assert (first_cell (GetArrayFromImage (normalize_flat one_volume)) = Ok NaN)
    as -> by (vm_compute; reflexivity).
  cbn [mbind result_bind Py.bind isnan]. by rewrite Hrand.
Qed.

(** X10 on the validation mapping of the first fold of the cohort: the
    patch holds one value, so the read returns noise, with the label of
    the file it opened. *)
Lemma train_read_label_run :
  ∃ s g',
    fold_provider (fold_key_mappings half_partition) = Ok half_provider
    ∧ half_read = Ok (s, g')
    ∧ s_cancer s = Some 0
    ∧ (∃ d, Py.index (mapping half_provider) (map_num half_provider) = Ok d
            ∧ d !! (0 + first_index half_provider) = Some (s_index s))
    ∧ ((s_cancer s = Some 0
        ∧ ∃ image,
            ReadImage_of (files half_partition)
              (train_path (modality half_provider) (s_index s) 0)
            = Ok image)
       ∨ (s_cancer s = Some 1
          ∧ (∃ e,
               ReadImage_of (files half_partition)
                 (train_path (modality half_provider) (s_index s) 0)
               = Raise e)
          ∧ ∃ image,
              ReadImage_of (files half_partition)
                (train_path (modality half_provider) (s_index s) 1)
              = Ok image)).
Proof.
  destruct (np_random_rand_patch draws) as (noise & g1 & Hrand).
  exists {| s_image := to_tensor noise; s_cancer := Some 0; s_index := 11 |},
    g1.
  split; [vm_compute; reflexivity|].
  split; [by apply half_read_noise|].
  split; [reflexivity|].
  apply (train_read_label (ReadImage_of (files half_partition)) normalize_flat
           half_provider 0 draws g1).
  - vm_compute. reflexivity.
  - apply (bool_decide_unpack _). vm_compute. exact I.
  - by apply half_read_noise.
Defined.

(** X11 on the validation mappings of the cohort, fold 0. *)
Lemma fold_reads_resolve_run :
  fold_provider (fold_key_mappings half_partition) = Ok half_provider
  ∧ ∃ d,
      mapping half_provider !! Z.to_nat 0 = Some d
      ∧ (d = ∅ → change_map_num half_provider 0 = Raise IndexError)
      ∧ (d ≠ ∅ →
         ∃ self',
           change_map_num half_provider 0 = Ok self'
           ∧ first_index self' = 0
           ∧ __len__ self' = Z.of_nat (size d)
           ∧ ∀ idx,
               (0 ≤ idx < __len__ self' →
                ∃ i, d !! (idx + first_index self') = Some i)
               ∧ (¬ 0 ≤ idx < __len__ self' →
                  ∀ ReadImage NormalizeImageFilter_Execute,
                    normalized_image ReadImage NormalizeImageFilter_Execute
                      self' idx = Raise KeyError)).
Proof.
  split; [vm_compute; reflexivity|].
  apply (fold_reads_resolve cohort 2 2 (Fin (1 # 2)) draws
           (value_of no_partition half_run).2 half_partition
           half_provider true 0).
  - vm_compute. reflexivity.
  - vm_compute. reflexivity.
  - vm_compute. reflexivity.
  - lia.
Defined.

(** X12 on the cohort at the default fraction: 0.2 * 4 truncates to 0,
    and the constructor raises on the validation mappings. *)
Lemma empty_validation_fold_run :
  num_each_class (binary64 (1 # 5)) cohort_cancer = Ok 0
  ∧ fold_provider (fold_key_mappings fifth_partition) = Raise IndexError
  ∧ length (fold_key_mappings fifth_partition) = Z.to_nat 2
  ∧ Forall (λ d, d = ∅) (fold_key_mappings fifth_partition)
  ∧ ∀ (np_load : string → result ndarray)
      (os_listdir : string → result (list string))
      (py_int_of_str : string → result Z) (modality device : string)
      (normalize_strategy : Z),
      (∃ e, Dataset.__init__ np_load os_listdir py_int_of_str modality true
              device normalize_strategy
              (Some (fold_key_mappings fifth_partition)) = Raise e)
      ∧ (modality ∈ ["t2"; "bval"; "adc"] → normalize_strategy = 1 →
         Dataset.__init__ np_load os_listdir py_int_of_str modality true
           device normalize_strategy
           (Some (fold_key_mappings fifth_partition))
         = Raise IndexError).
Proof.
  split; [vm_compute; reflexivity|].
  split; [vm_compute; reflexivity|].
  apply (empty_validation_fold cohort 2 2 (binary64 (1 # 5)) draws
           (value_of no_partition fifth_run).2 fifth_partition cohort_cancer).
  - lia.
  - vm_compute. reflexivity.
  - vm_compute. reflexivity.
  - vm_compute. reflexivity.
Defined.

(** X13 on the cohort. *)
Lemma mapped_patches_written_run :
  ∃ p g',
    half_run = Ok (p, g')
    ∧ ∀ (k : nat) (d : gmap Z Z) (key i : Z),
        fold_key_mappings p !! k = Some d ∨ train_key_mappings p !! k = Some d →
        d !! key = Some i →
        0 ≤ i
        ∧ ∃ name crop marker,
            flatten_patients cohort !! Z.to_nat i
              = Some (name, (crop, Some marker))
            ∧ ∀ md, md ∈ ["t2"; "adc"; "bval"] →
                ∃ image,
                  crop !! modality_position md = Some image
                  ∧ (patch_path md i marker, image) ∈ files p.
Proof.
  exists half_partition, (value_of no_partition half_run).2.
  split; [vm_compute; reflexivity|].
  apply (mapped_patches_written cohort 2 2 (Fin (1 # 2)) draws
           (value_of no_partition half_run).2).
  vm_compute. reflexivity.
Defined.

(** X14 on the cohort: index 0 of the first validation mapping is the
    patch at position 11, the second crop of the non-cancer patient
    0005.  The patch holds one value and normalises to NaN, so the read
    returns noise with the label 0 and the index 11. *)
Lemma written_patch_read_back_run :
  fold_provider (fold_key_mappings half_partition) = Ok half_provider
  ∧ first_cell (GetArrayFromImage (normalize_flat one_volume)) = Ok NaN
  ∧ ∃ image,
      [one_volume; one_volume; one_volume]
        !! modality_position (modality half_provider) = Some image
      ∧ (∀ l image',
           (train_path (modality half_provider) (Z.of_nat 11) l, image')
             ∈ files half_partition
           ↔ l = 0 ∧ image' = image)
      ∧ (∀ m1 m2 i1 i2 l1 l2,
           m1 ∈ ["t2"; "adc"; "bval"] → m2 ∈ ["t2"; "adc"; "bval"] →
           patch_path m1 i1 l1 = patch_path m2 i2 l2 →
           m1 = m2 ∧ i1 = i2 ∧ l1 = l2)
      ∧ ((∃ x, first_cell (GetArrayFromImage (normalize_flat image)) = Ok x)
         ∨ first_cell (GetArrayFromImage (normalize_flat image))
           = Raise IndexError)
      ∧ (∀ x,
           first_cell (GetArrayFromImage (normalize_flat image)) = Ok x →
           isnan x = false →
           __getitem__ (ReadImage_of (files half_partition)) normalize_flat
             half_provider 0 draws
           = Ok ({| s_image :=
                      to_tensor (GetArrayFromImage (normalize_flat image));
                    s_cancer := Some 0;
                    s_index := Z.of_nat 11 |}, draws))
      ∧ (∀ x,
           first_cell (GetArrayFromImage (normalize_flat image)) = Ok x →
           isnan x = true →
           ∃ noise g1,
             np_random_rand (3, 32, 32) draws = Ok (noise, g1)
             ∧ shape noise = (3, 32, 32)
             ∧ (∀ a b c,
                  ∃ q, at_ noise a b c = Fin q ∧ (0 <= q)%Q ∧ (q < 1)%Q)
             ∧ __getitem__ (ReadImage_of (files half_partition))
                 normalize_flat half_provider 0 draws
               = Ok ({| s_image := to_tensor noise;
                        s_cancer := Some 0;
                        s_index := Z.of_nat 11 |}, g1))
      ∧ (first_cell (GetArrayFromImage (normalize_flat image))
           = Raise IndexError →
         __getitem__ (ReadImage_of (files half_partition)) normalize_flat
           half_provider 0 draws
         = Raise IndexError).
Proof.
  split; [vm_compute; reflexivity|].
  split; [vm_compute; reflexivity|].
  apply (written_patch_read_back cohort 2 2 (Fin (1 # 2)) draws
           (value_of no_partition half_run).2 half_partition normalize_flat
           half_provider 0
           (default ∅ (fold_key_mappings half_partition !! 0%nat)) 11
           "ProstateX-0005_0" [one_volume; one_volume; one_volume] 0 draws).
  - vm_compute. reflexivity.
  - vm_compute. reflexivity.
  - apply (bool_decide_unpack _). vm_compute. exact I.
  - vm_compute. reflexivity.
  - vm_compute. reflexivity.
  - vm_compute. reflexivity.
  - vm_compute. reflexivity.
  - by left.
Defined.

(** X15 on three epochs whose validation AUCs are 0.5, 0.75 and 0.5. *)
Lemma train_model_keeps_first_best_run :
  ∃ b auc h',
    three_epochs = Ok (b, auc, h')
    ∧ auc = Fin (3 # 4)
    ∧ (∃ w_end,
         weights_after step_pass 0 (Z.to_nat 3) = Ok w_end
         ∧ h' !! 0%nat = Some w_end)
    ∧ ∃ e w,
        (e < Z.to_nat 3)%nat
        ∧ weights_after step_pass 0 (S e) = Ok w
        ∧ peak_pass w = Ok (best_f1 b, auc, conf_matrix b)
        ∧ h' !! best_model b = Some w
        ∧ best_model b ≠ 0%nat
        ∧ (best_model b ∉ dom ({[0%nat := 0]} : gmap nat Z))
        ∧ gtb auc (Fin 0) = true
        ∧ (∀ e' w' f1' auc' conf',
             (e' < Z.to_nat 3)%nat → weights_after step_pass 0 (S e') = Ok w' →
             peak_pass w' = Ok (f1', auc', conf') → gtb auc' auc = false)
        ∧ ∀ e' w' f1' auc' conf',
            (e' < e)%nat → weights_after step_pass 0 (S e') = Ok w' →
            peak_pass w' = Ok (f1', auc', conf') →
            isnan auc' = false → gtb auc auc' = true.
Proof.
  exists (value_of no_best three_epochs).1.1, (value_of no_best three_epochs).1.2,
    (value_of no_best three_epochs).2.
  split; [vm_compute; reflexivity|]. split; [vm_compute; reflexivity|].
  apply (train_model_keeps_first_best step_pass peak_pass keep 0%nat 3 false
           {[0%nat := 0]} (value_of no_best three_epochs).2 0 0).
  - reflexivity.
  - reflexivity.
  - vm_compute. reflexivity.
Defined.

(** X16 on five folds of two epochs: the model of the first fold is the
    snapshot at the weights 2, and the second fold leaves 6 in it. *)
Lemma first_model_retrained_run :
  ∃ r,
    five_fold_run = Ok r
    ∧ ∃ m0 scores0 td0 td1 wc wc1 e w_snap w1 w_end,
        returned r !! 0%nat = Some (m0, scores0)
        ∧ (m0 ∉ dom (∅ : gmap nat Z))
        ∧ Ok 0 = Ok wc
        ∧ change_map_num five_folds 0 = Ok td0
        ∧ starting_weights keep false wc = Ok wc1
        ∧ (e < Z.to_nat 2)%nat
        ∧ weights_after (fold_pass td0) wc1 (S e) = Ok w_snap
        ∧ change_map_num td0 (0 + 1) = Ok td1
        ∧ starting_weights keep false w_snap = Ok w1
        ∧ weights_after (fold_pass td1) w1 (Z.to_nat 2) = Ok w_end
        ∧ final_heap r !! m0 = Some w_end.
Proof.
  exists (value_of no_outcome five_fold_run).
  split; [vm_compute; reflexivity|].
  apply (first_model_retrained fold_pass fold_peak keep (Ok 0) blank_text
           0 5 five_folds five_folds 2 false ∅).
  - lia.
  - vm_compute. reflexivity.
Defined.

(** X17 on the same run: five folds, four pairs, five scores in each. *)
Lemma zipped_scores_run :
  ∃ r,
    five_fold_run = Ok r
    ∧ length (returned r) = Nat.min (Z.to_nat (5 - 0)) 4
    ∧ ∀ i m scores,
        returned r !! i = Some (m, scores) →
        length scores = Z.to_nat (5 - 0).
Proof.
  exists (value_of no_outcome five_fold_run).
  split; [vm_compute; reflexivity|].
  apply (zipped_scores fold_pass fold_peak keep (Ok 0) blank_text
           0 5 five_folds five_folds 2 false ∅).
  vm_compute. reflexivity.
Defined.

(** X19 on the thin volume with nearest-neighbour interpolation. *)
Lemma resample_image_own_spacing_run :
  ∃ out,
    resample_image nearest thin_volume (GetSpacing thin_volume) false = Ok out
    ∧ GetSize out = GetSize thin_volume
    ∧ GetSpacing out = GetSpacing thin_volume
    ∧ GetOrigin out = GetOrigin thin_volume
    ∧ GetDirection out = GetDirection thin_volume.
Proof.
  apply (ResamplerEdges.resample_image_own_spacing nearest thin_volume false);
    vm_compute; try discriminate; split; congruence.
Defined.

(** X20 on three patients of three images and the labels 1, 1, 0. *)
Lemma flatten_batch_aligned_run :
  ∃ labels,
    Batch.flatten_batch (3, 3) numbered_batch docstring_labels
      = Ok (Batch.view numbered_batch, labels)
    ∧ labels = [Fin 1; Fin 1; Fin 1; Fin 1; Fin 1; Fin 1; Fin 0; Fin 0; Fin 0]
    ∧ ((Z.to_nat (Batch.shape0 numbered_batch) ≤ length docstring_labels)%nat →
       ∃ labels,
         Batch.flatten_batch
           (Batch.shape0 numbered_batch, Batch.shape1 numbered_batch)
           numbered_batch docstring_labels
           = Ok (Batch.view numbered_batch, labels)
         ∧ Z.of_nat (length labels) = Batch.count (Batch.view numbered_batch)
         ∧ ∀ i, 0 ≤ i < Batch.count (Batch.view numbered_batch) →
             labels !! Z.to_nat i
               = docstring_labels
                   !! Z.to_nat (i / Batch.shape1 numbered_batch)
             ∧ Batch.cell (Batch.view numbered_batch) i
               = Batch.item numbered_batch
                   (i / Batch.shape1 numbered_batch)
                   (i mod Batch.shape1 numbered_batch)
             ∧ 0 ≤ i / Batch.shape1 numbered_batch
                 < Batch.shape0 numbered_batch
             ∧ 0 ≤ i mod Batch.shape1 numbered_batch
                 < Batch.shape1 numbered_batch)
    ∧ ((length docstring_labels < Z.to_nat (Batch.shape0 numbered_batch))%nat →
       Batch.flatten_batch
         (Batch.shape0 numbered_batch, Batch.shape1 numbered_batch)
         numbered_batch docstring_labels
         = Raise IndexError).
Proof.
  eexists. split; [vm_compute; reflexivity|]. split; [reflexivity|].
  apply (BatchFacts.flatten_batch_aligned numbered_batch docstring_labels);
    vm_compute; congruence.
Defined.

(** X22 on the two findings, two crops each. *)
Lemma train_key_counts_run :
  ∃ out g',
    train_run = Ok (out, g')
    ∧ 1 ≤ 2
    ∧ ∀ key l, out !! key = Some l →
        ∃ m, (0 < m)%nat ∧ length l = (m * Z.to_nat 2)%nat.
Proof.
  exists (value_of no_crops train_run).1, (value_of no_crops train_run).2.
  split; [vm_compute; reflexivity|].
  apply (PipelineFacts.train_key_counts int_of_digits float_of_digits
           no_padding centre_index no_rotation [row0; row1] volumes 2 2 1 2
           draws (value_of no_crops train_run).2).
  vm_compute. reflexivity.
Defined.

(** X23 on the two findings, two crops each: one key is left, with the
    two patches of the second finding. *)
Lemma partitioner_blocks_are_findings_run :
  ∃ out g',
    train_run = Ok (out, g')
    ∧ train_items ≡ₚ map_to_list out
    ∧ length (flatten_patients train_items) = 2%nat
    ∧ (∃ written,
         comprehension (λ '(p_id, item), write_patch p_id item)
           (Cropper.enumerate (flatten_patients train_items)) = Ok written)
    ∧ ∀ idx, idx ∈ patient_indices_of (flatten_patients train_items) 2 →
        ∃ f marker,
          f ∈ [row0; row1] ∧ ClinSig f = Some marker
          ∧ (∀ pos, 0 ≤ pos < 2 →
               ∃ crop, flatten_patients train_items !! Z.to_nat (idx * 2 + pos)
                       = Some (train_key (patient_id f) marker,
                               (crop, Some marker)))
          ∧ label_of (flatten_patients train_items) 2 idx
            = Ok (pretty_N_char (Z.to_N (Z.abs marker) mod 10)).
Proof.
  exists (value_of no_crops train_run).1, (value_of no_crops train_run).2.
  split; [vm_compute; reflexivity|]. split; [reflexivity|].
  split; [vm_compute; reflexivity|].
  apply (PipelineFacts.partitioner_blocks_are_findings int_of_digits
           float_of_digits no_padding centre_index no_rotation [row0; row1]
           volumes 2 2 1 2 draws (value_of no_crops train_run).2
           (value_of no_crops train_run).1 train_items);
    [vm_compute; reflexivity|reflexivity].
Defined.

End ScenarioFacts.
